(** * ElasticMonitor: the aggregation engine, the record store and the
      realtime gateway

    A shallow embedding of

    - [shared/schema.ts]: the four tables and the insert schemas;
    - [server/storage.ts]: [DatabaseStorage], the drizzle queries;
    - [server/services/networkMonitor.ts]: [NetworkMonitor], the three
      periodic tasks;
    - [server/routes.ts]: the alert and log endpoints, [broadcast] and
      [sendInitialData].

    Numbers are JavaScript doubles in the source.  Every number that
    occurs below is an integer (row counts, 32-bit [integer] columns and
    sums of them), and doubles are exact on integers below 2^53, so they
    are modelled in [Z].  Dates are milliseconds since the epoch. *)

From Stdlib Require Import ZArith List String Ascii Bool Lia.
From Stdlib Require Import Permutation Sorted DecimalString.
Import ListNotations.

Open Scope string_scope.
Open Scope Z_scope.
Open Scope list_scope.

(* ================================================================== *)
(** * Values *)
(* ================================================================== *)

(** The content of a [jsonb] column or of a request body. *)
#[warnings="-register-all"]
Inductive Json : Type :=
| JNull
| JBool (b : bool)
| JNum (n : Z)
| JStr (s : string)
| JObj (fields : list (string * Json)).

(** A property of an object handed to [db.insert(..).values(..)]: left
    out ([undefined]), [null], or a value. *)
Inductive Field (A : Type) : Type :=
| Absent
| Null
| Val (a : A).
Arguments Absent {A}.
Arguments Null {A}.
Arguments Val {A} a.

(** What the row gets: the column default when the property was left
    out, SQL NULL for [null]. *)
Definition column {A : Type} (default : option A) (f : Field A) : option A :=
  match f with
  | Absent => default
  | Null => None
  | Val a => Some a
  end.

(** [`${n}`] and [n.toString()] on an integer. *)
Definition string_of_Z (n : Z) : string :=
  NilZero.string_of_int (Z.to_int n).

(* ================================================================== *)
(** * shared/schema.ts *)
(* ================================================================== *)

(** [networkLogs]: a row, as [$inferSelect] types it.  Nullable columns
    are options. *)
Module NetworkLog.
Record t : Type := mk {
  id : Z;
  timestamp : Z;
  sourceIp : string;
  destinationIp : option string;
  destinationHost : option string;
  destinationPort : option Z;
  protocol : string;
  action : string;
  dataSize : option Z;
  duration : option Z;
  userId : option string;
  metadata : option Json
}.
End NetworkLog.

(** [InsertNetworkLog]: [id] and [timestamp] are omitted by the schema. *)
Module InsertNetworkLog.
Record t : Type := mk {
  sourceIp : string;
  destinationIp : Field string;
  destinationHost : Field string;
  destinationPort : Field Z;
  protocol : string;
  action : string;
  dataSize : Field Z;
  duration : Field Z;
  userId : Field string;
  metadata : Field Json
}.
End InsertNetworkLog.

Module Alert.
Record t : Type := mk {
  id : Z;
  timestamp : Z;
  severity : string;
  type : string;
  title : string;
  description : string;
  sourceIp : option string;
  isResolved : option bool;
  resolvedAt : option Z;
  metadata : option Json
}.
End Alert.

Module InsertAlert.
Record t : Type := mk {
  severity : string;
  type : string;
  title : string;
  description : string;
  sourceIp : Field string;
  isResolved : Field bool;
  resolvedAt : Field Z;
  metadata : Field Json
}.
End InsertAlert.

Module Connection.
Record t : Type := mk {
  id : Z;
  startTime : Z;
  endTime : option Z;
  sourceIp : string;
  destinationHost : string;
  destinationIp : option string;
  destinationPort : option Z;
  protocol : string;
  totalDataSize : option Z;
  connectionCount : option Z;
  isActive : option bool;
  lastActivity : option Z
}.
End Connection.

(** [InsertConnection]: [id], [startTime] and [lastActivity] are
    omitted by the schema. *)
Module InsertConnection.
Record t : Type := mk {
  endTime : Field Z;
  sourceIp : string;
  destinationHost : string;
  destinationIp : Field string;
  destinationPort : Field Z;
  protocol : string;
  totalDataSize : Field Z;
  connectionCount : Field Z;
  isActive : Field bool
}.
End InsertConnection.

(** What a property of a counter object holds: a number, or a text
    that is not a numeral (see [bump]). *)
Inductive Count : Type :=
| Number (n : Z)
| Text.

(** A JavaScript object used as a counter map, [{ [key: string]: number }]:
    its own properties in insertion order, which is the order
    [Object.entries] lists them in (keys that look like array indices
    are listed first by the engine, and a [jsonb] column hands the
    properties back in an order of its own; either permutes the entries
    only). *)
Definition Counts : Type := list (string * Count).

Module TrafficMetric.
Record t : Type := mk {
  id : Z;
  timestamp : Z;
  totalTraffic : option string;
  activeConnections : option Z;
  blockedRequests : option Z;
  protocolDistribution : option Counts;
  topDestinations : option Counts
}.
End TrafficMetric.

Module InsertTrafficMetric.
Record t : Type := mk {
  totalTraffic : Field string;
  activeConnections : Field Z;
  blockedRequests : Field Z;
  protocolDistribution : Field Counts;
  topDestinations : Field Counts
}.
End InsertTrafficMetric.

(* ================================================================== *)
(** * The database *)
(* ================================================================== *)

(** The tables, rows in insertion order, and the [serial] sequences
    behind the [id] columns. *)
Record Store : Type := mkStore {
  networkLogs : list NetworkLog.t;
  alerts : list Alert.t;
  connections : list Connection.t;
  trafficMetrics : list TrafficMetric.t;
  networkLogs_seq : Z;
  alerts_seq : Z;
  trafficMetrics_seq : Z
}.

Definition empty_store : Store :=
  mkStore [] [] [] [] 1 1 1.

(** ** Query building blocks *)

(** [.orderBy(desc(key))]: insertion into a list that is already in
    descending order.  Rows with equal keys keep their table order (SQL
    leaves their order open). *)
Fixpoint insert_desc {A : Type} (key : A -> Z) (x : A) (l : list A) : list A :=
  match l with
  | [] => [x]
  | y :: l' =>
      if key y <=? key x then x :: l else y :: insert_desc key x l'
  end.

Definition orderBy_desc {A : Type} (key : A -> Z) (rows : list A) : list A :=
  fold_right (insert_desc key) [] rows.

(** [.limit(n).offset(k)]. *)
Definition limit_offset {A : Type} (n k : nat) (rows : list A) : list A :=
  firstn n (skipn k rows).

(** [and(gte(ts, startTime), lte(ts, endTime))]. *)
Definition in_range (startTime endTime ts : Z) : bool :=
  (startTime <=? ts) && (ts <=? endTime).

(** [eq(column, b)] on a nullable boolean column: NULL matches nothing. *)
Definition eq_bool (c : option bool) (b : bool) : bool :=
  match c with
  | Some v => Bool.eqb v b
  | None => false
  end.

(** ** The statements of [DatabaseStorage], on the tables

    Each takes the time of the call ([defaultNow()], [new Date()]) and
    the tables, and gives its result and the tables afterwards, for a
    statement that the database carries out.  The database refuses one
    that carries a value a column cannot hold: a text longer than its
    [varchar], a number beyond the 32 bits of an [integer], an id
    beyond those of its [serial].  A refusal is a rejected call, see
    [query]. *)

Definition networkLog_row (id now : Z) (log : InsertNetworkLog.t)
  : NetworkLog.t :=
  NetworkLog.mk id now
    (InsertNetworkLog.sourceIp log)
    (column None (InsertNetworkLog.destinationIp log))
    (column None (InsertNetworkLog.destinationHost log))
    (column None (InsertNetworkLog.destinationPort log))
    (InsertNetworkLog.protocol log)
    (InsertNetworkLog.action log)
    (column (Some 0) (InsertNetworkLog.dataSize log))
    (column None (InsertNetworkLog.duration log))
    (column None (InsertNetworkLog.userId log))
    (column None (InsertNetworkLog.metadata log)).

Definition insert_networkLog (now : Z) (log : InsertNetworkLog.t) (s : Store)
  : NetworkLog.t * Store :=
  let row := networkLog_row (networkLogs_seq s) now log in
  (row,
   mkStore (networkLogs s ++ [row]) (alerts s) (connections s)
     (trafficMetrics s) (networkLogs_seq s + 1) (alerts_seq s)
     (trafficMetrics_seq s)).

Definition select_networkLogs (limit offset : nat) (s : Store)
  : list NetworkLog.t :=
  limit_offset limit offset (orderBy_desc NetworkLog.timestamp (networkLogs s)).

Definition select_networkLogsByTimeRange (startTime endTime : Z) (s : Store)
  : list NetworkLog.t :=
  orderBy_desc NetworkLog.timestamp
    (filter (fun l => in_range startTime endTime (NetworkLog.timestamp l))
       (networkLogs s)).

Definition alert_row (id now : Z) (a : InsertAlert.t) : Alert.t :=
  Alert.mk id now
    (InsertAlert.severity a) (InsertAlert.type a) (InsertAlert.title a)
    (InsertAlert.description a)
    (column None (InsertAlert.sourceIp a))
    (column (Some false) (InsertAlert.isResolved a))
    (column None (InsertAlert.resolvedAt a))
    (column None (InsertAlert.metadata a)).

Definition insert_alert (now : Z) (a : InsertAlert.t) (s : Store)
  : Alert.t * Store :=
  let row := alert_row (alerts_seq s) now a in
  (row,
   mkStore (networkLogs s) (alerts s ++ [row]) (connections s)
     (trafficMetrics s) (networkLogs_seq s) (alerts_seq s + 1)
     (trafficMetrics_seq s)).

Definition select_activeAlerts (s : Store) : list Alert.t :=
  orderBy_desc Alert.timestamp
    (filter (fun a => eq_bool (Alert.isResolved a) false) (alerts s)).

Definition select_alerts (limit : nat) (s : Store) : list Alert.t :=
  limit_offset limit 0 (orderBy_desc Alert.timestamp (alerts s)).

(** [.set({ isResolved: true, resolvedAt: new Date() })] on one row. *)
Definition set_resolved (now : Z) (a : Alert.t) : Alert.t :=
  Alert.mk (Alert.id a) (Alert.timestamp a) (Alert.severity a) (Alert.type a)
    (Alert.title a) (Alert.description a) (Alert.sourceIp a)
    (Some true) (Some now) (Alert.metadata a).

(** [db.update(alerts).set(..).where(eq(alerts.id, id))]. *)
Definition update_resolve (now id : Z) (s : Store) : Store :=
  mkStore (networkLogs s)
    (map (fun a => if Alert.id a =? id then set_resolved now a else a)
       (alerts s))
    (connections s) (trafficMetrics s) (networkLogs_seq s) (alerts_seq s)
    (trafficMetrics_seq s).

(** [.where(eq(isActive, true)).orderBy(desc(lastActivity))]: in
    descending order the rows with a NULL come first. *)
Definition never_active (c : Connection.t) : bool :=
  match Connection.lastActivity c with
  | Some _ => false
  | None => true
  end.

Definition select_activeConnections (s : Store) : list Connection.t :=
  let rows :=
    filter (fun c => eq_bool (Connection.isActive c) true) (connections s) in
  filter never_active rows
  ++ orderBy_desc (fun c => match Connection.lastActivity c with
                            | Some t => t
                            | None => 0
                            end)
       (filter (fun c => negb (never_active c)) rows).

(** [decimal("total_traffic", { precision: 15, scale: 2 })]: the column
    reads the text it is given as a number, keeps it with two decimals
    and hands it back as text, decimals included.  The table is written
    by the metrics rollup alone, which gives the decimal numeral of a
    whole number (and by the column default, ['0']): such a numeral comes
    back followed by [.00].  A number of more than 13 digits before the
    point the column refuses; like every refusal of the database that is
    a rejected call. *)
Definition decimal_15_2 (numeral : string) : string :=
  numeral ++ ".00".

Definition insert_trafficMetric (now : Z) (m : InsertTrafficMetric.t)
  (s : Store) : TrafficMetric.t * Store :=
  let row := TrafficMetric.mk
    (trafficMetrics_seq s) now
    (option_map decimal_15_2
       (column (Some "0") (InsertTrafficMetric.totalTraffic m)))
    (column (Some 0) (InsertTrafficMetric.activeConnections m))
    (column (Some 0) (InsertTrafficMetric.blockedRequests m))
    (column None (InsertTrafficMetric.protocolDistribution m))
    (column None (InsertTrafficMetric.topDestinations m)) in
  (row,
   mkStore (networkLogs s) (alerts s) (connections s)
     (trafficMetrics s ++ [row]) (networkLogs_seq s) (alerts_seq s)
     (trafficMetrics_seq s + 1)).

Definition select_latestTrafficMetrics (s : Store) : option TrafficMetric.t :=
  hd_error
    (limit_offset 1 0 (orderBy_desc TrafficMetric.timestamp (trafficMetrics s))).

(** The row an insert into [connections] makes.  The tables here keep
    no sequence for this [serial] column: rows are only ever appended
    by this insert, one id each, so the id is taken to be the number
    of rows plus one. *)
Definition connection_row (id now : Z) (c : InsertConnection.t)
  : Connection.t :=
  Connection.mk id now
    (column None (InsertConnection.endTime c))
    (InsertConnection.sourceIp c)
    (InsertConnection.destinationHost c)
    (column None (InsertConnection.destinationIp c))
    (column None (InsertConnection.destinationPort c))
    (InsertConnection.protocol c)
    (column (Some 0) (InsertConnection.totalDataSize c))
    (column (Some 1) (InsertConnection.connectionCount c))
    (column (Some true) (InsertConnection.isActive c))
    (Some now).

Definition insert_connection (now : Z) (c : InsertConnection.t) (s : Store)
  : Connection.t * Store :=
  let row :=
    connection_row (Z.of_nat (List.length (connections s)) + 1) now c in
  (row,
   mkStore (networkLogs s) (alerts s) (connections s ++ [row])
     (trafficMetrics s) (networkLogs_seq s) (alerts_seq s)
     (trafficMetrics_seq s)).

Definition select_trafficMetricsByTimeRange (startTime endTime : Z)
  (s : Store) : list TrafficMetric.t :=
  orderBy_desc TrafficMetric.timestamp
    (filter (fun m => in_range startTime endTime (TrafficMetric.timestamp m))
       (trafficMetrics s)).

(** [select({ count: count() }).from(alerts).where(eq(isResolved, false))]. *)
Definition count_activeAlerts (s : Store) : Z :=
  Z.of_nat
    (List.length (filter (fun a => eq_bool (Alert.isResolved a) false) (alerts s))).

(* ================================================================== *)
(** * The process: sockets, the event loop, asynchronous code *)
(* ================================================================== *)

(** [ws.readyState]. *)
Inductive ReadyState : Type := CONNECTING | OPEN | CLOSING | CLOSED.

Definition is_open (r : ReadyState) : bool :=
  match r with
  | OPEN => true
  | _ => false
  end.

(** What [storage.getDashboardStats] resolves to. *)
Module DashboardStats.
Record t : Type := mk {
  totalTraffic : string;
  activeConnections : Z;
  blockedRequests : Z;
  activeAlerts : Z
}.
End DashboardStats.

(** The [data] of a message to the clients. *)
Inductive Data : Type :=
| DLog (log : NetworkLog.t)
| DAlert (alert : Alert.t)
| DMetrics (metrics : TrafficMetric.t)
| DInitial (stats : DashboardStats.t) (alerts : list Alert.t)
    (logs : list NetworkLog.t).

(** [{ type, data }], the argument of [JSON.stringify]: the text on the
    wire stands for this value. *)
Module Message.
Record t : Type := mk {
  type : string;
  data : Data
}.
End Message.

(** A client socket: its state and what [send] has been given so far,
    oldest first. *)
Record Client : Type := mkClient {
  readyState : ReadyState;
  sent : list Message.t
}.

(** The events of the [NetworkMonitor] emitter. *)
Inductive Event : Type :=
| EvNetworkLog (log : NetworkLog.t)
| EvAlert (alert : Alert.t)
| EvMetricsUpdate (metrics : TrafficMetric.t).

(** What happens while one [await] on the database is pending: the
    statement is rejected or not, for whatever reason, and the sockets
    with these positions in [wss.clients] close. *)
Record Await : Type := mkAwait {
  rejects : bool;
  disconnects : list nat
}.

Definition quiet : Await := mkAwait false [].

(** The state of the server process.  [clients] is every socket the
    server has accepted, in order of arrival; one that has closed stays
    here in state [CLOSED] (the library drops it from [wss.clients],
    which no code below can tell from its [readyState]).  [awaits] is
    what the coming database calls will meet, [quiet] once the list is
    used up.  [console], [emitted] and [queries] record the calls of
    [console.error] and of [emit], and how many statements were sent to
    the database. *)
Record World : Type := mkWorld {
  db : Store;
  now : Z;
  awaits : list Await;
  clients : list Client;
  console : list string;
  emitted : list Event;
  queries : nat
}.

(** An [async] function, or a synchronous one that may throw. *)
Inductive Outcome (A : Type) : Type :=
| Ok (a : A)
| Throw (error : string).
Arguments Ok {A} a.
Arguments Throw {A} error.

Definition Async (A : Type) : Type := World -> Outcome A * World.

Definition ret {A : Type} (a : A) : Async A := fun w => (Ok a, w).

Definition throw {A : Type} (error : string) : Async A :=
  fun w => (Throw error, w).

Definition bind {A B : Type} (m : Async A) (k : A -> Async B) : Async B :=
  fun w =>
    match m w with
    | (Ok a, w') => k a w'
    | (Throw e, w') => (Throw e, w')
    end.

(** [try { m } catch (error) { handler }]. *)
Definition try_catch {A : Type} (m : Async A) (handler : string -> Async A)
  : Async A :=
  fun w =>
    match m w with
    | (Ok a, w') => (Ok a, w')
    | (Throw e, w') => handler e w'
    end.

Declare Scope async_scope.
Delimit Scope async_scope with async.
Notation "x <- m ;; k" := (bind m (fun x => k))
  (at level 100, m at next level, right associativity) : async_scope.
Notation "m ;; k" := (bind m (fun _ => k))
  (at level 100, right associativity) : async_scope.
Open Scope async_scope.

(** [for (const x of xs) { await body(x) }]. *)
Fixpoint forEach {A : Type} (body : A -> Async unit) (xs : list A)
  : Async unit :=
  match xs with
  | [] => ret tt
  | x :: xs' => body x ;; forEach body xs'
  end.

(** [Date.now()], [new Date()]. *)
Definition Date_now : Async Z := fun w => (Ok (now w), w).

Definition console_error (message : string) : Async unit :=
  fun w =>
    (Ok tt,
     mkWorld (db w) (now w) (awaits w) (clients w) (console w ++ [message])
       (emitted w) (queries w)).

Fixpoint close_socket (i : nat) (cs : list Client) : list Client :=
  match cs, i with
  | [], _ => []
  | c :: cs', O => mkClient CLOSED (sent c) :: cs'
  | c :: cs', S j => c :: close_socket j cs'
  end.

Definition settle (a : Await) (cs : list Client) : list Client :=
  fold_right close_socket cs (disconnects a).

(** [await db. ...]: one statement sent to the database.  While it is
    pending the sockets named by the head of [awaits] close; then the
    promise rejects (the connection fails, or the database refuses the
    statement), or the statement has run on the tables. *)
Definition query {A : Type} (stmt : Z -> Store -> A * Store) : Async A :=
  fun w =>
    let a := hd quiet (awaits w) in
    let cs := settle a (clients w) in
    if rejects a then
      (Throw "database error",
       mkWorld (db w) (now w) (tl (awaits w)) cs (console w) (emitted w)
         (S (queries w)))
    else
      let (r, s) := stmt (now w) (db w) in
      (Ok r,
       mkWorld s (now w) (tl (awaits w)) cs (console w) (emitted w)
         (S (queries w))).

(** [new Date(text)]: a date, or the invalid date when the text is not
    one. *)
Inductive JsDate : Type :=
| InvalidDate
| DateAt (t : Z).

(* ================================================================== *)
(** * server/storage.ts: [DatabaseStorage] *)
(* ================================================================== *)

Module storage.

Definition createNetworkLog (log : InsertNetworkLog.t)
  : Async NetworkLog.t :=
  query (fun t s => insert_networkLog t log s).

Definition getNetworkLogs (limit offset : nat) : Async (list NetworkLog.t) :=
  query (fun _ s => (select_networkLogs limit offset s, s)).

Definition getNetworkLogsByTimeRange (startTime endTime : Z)
  : Async (list NetworkLog.t) :=
  query (fun _ s => (select_networkLogsByTimeRange startTime endTime s, s)).

Definition createAlert (alert : InsertAlert.t) : Async Alert.t :=
  query (fun t s => insert_alert t alert s).

Definition getActiveAlerts : Async (list Alert.t) :=
  query (fun _ s => (select_activeAlerts s, s)).

Definition getAlerts (limit : nat) : Async (list Alert.t) :=
  query (fun _ s => (select_alerts limit s, s)).

Definition resolveAlert (id : Z) : Async unit :=
  query (fun t s => (tt, update_resolve t id s)).

Definition getActiveConnections : Async (list Connection.t) :=
  query (fun _ s => (select_activeConnections s, s)).

Definition createTrafficMetric (metric : InsertTrafficMetric.t)
  : Async TrafficMetric.t :=
  query (fun t s => insert_trafficMetric t metric s).

Definition getLatestTrafficMetrics : Async (option TrafficMetric.t) :=
  query (fun _ s => (select_latestTrafficMetrics s, s)).

(** [x || d] on a string and on a number. *)
Definition or_string (x : option string) (d : string) : string :=
  match x with
  | Some s => if String.eqb s "" then d else s
  | None => d
  end.

Definition or_number (x : option Z) (d : Z) : Z :=
  match x with
  | Some n => if n =? 0 then d else n
  | None => d
  end.

Definition dashboardStats (latest : option TrafficMetric.t) (activeAlerts : Z)
  : DashboardStats.t :=
  DashboardStats.mk
    (or_string (match latest with
                | Some m => TrafficMetric.totalTraffic m
                | None => None
                end) "0")
    (or_number (match latest with
                | Some m => TrafficMetric.activeConnections m
                | None => None
                end) 0)
    (or_number (match latest with
                | Some m => TrafficMetric.blockedRequests m
                | None => None
                end) 0)
    (or_number (Some activeAlerts) 0).

Definition getDashboardStats : Async DashboardStats.t :=
  latest <- getLatestTrafficMetrics ;;
  activeAlerts <- query (fun _ s => (count_activeAlerts s, s)) ;;
  ret (dashboardStats latest activeAlerts).

Definition createConnection (connection : InsertConnection.t)
  : Async Connection.t :=
  query (fun t s => insert_connection t connection s).

(** To put a [Date] into the statement the query builder calls its
    [toISOString], which throws on the invalid date: nothing is sent to
    the database then. *)
Definition getTrafficMetricsByTimeRange (startTime endTime : JsDate)
  : Async (list TrafficMetric.t) :=
  match startTime, endTime with
  | DateAt s, DateAt e =>
      query
        (fun _ tables => (select_trafficMetricsByTimeRange s e tables, tables))
  | _, _ => throw "RangeError: Invalid time value"
  end.

End storage.

(* ================================================================== *)
(** * server/routes.ts: the gateway *)
(* ================================================================== *)

(** [client.send(JSON.stringify(message))]. *)
Definition send (message : Message.t) (c : Client) : Client :=
  mkClient (readyState c) (sent c ++ [message]).

(** [broadcast(wss, message)]: the clients afterwards. *)
Definition broadcast (wss : list Client) (message : Message.t) : list Client :=
  map (fun client =>
         if is_open (readyState client) then send message client else client)
    wss.

(** The three listeners [registerRoutes] puts on the monitor: the
    message each event is broadcast as. *)
Definition listener_message (ev : Event) : Message.t :=
  match ev with
  | EvNetworkLog log => Message.mk "networkLog" (DLog log)
  | EvAlert alert => Message.mk "alert" (DAlert alert)
  | EvMetricsUpdate metrics => Message.mk "metricsUpdate" (DMetrics metrics)
  end.

(** [networkMonitor.emit(name, payload)]: the listeners run at once. *)
Definition emit (ev : Event) : Async unit :=
  fun w =>
    (Ok tt,
     mkWorld (db w) (now w) (awaits w)
       (broadcast (clients w) (listener_message ev))
       (console w) (emitted w ++ [ev]) (queries w)).

(** [ws.send] on the socket at position [i] of the clients. *)
Fixpoint send_to (i : nat) (message : Message.t) (cs : list Client)
  : list Client :=
  match cs, i with
  | [], _ => []
  | c :: cs', O => send message c :: cs'
  | c :: cs', S j => c :: send_to j message cs'
  end.

Definition sendInitialData (ws : nat) : Async unit :=
  try_catch
    (stats <- storage.getDashboardStats ;;
     alerts <- storage.getActiveAlerts ;;
     logs <- storage.getNetworkLogs 10 0 ;;
     fun w =>
       match nth_error (clients w) ws with
       | Some c =>
           if is_open (readyState c) then
             (Ok tt,
              mkWorld (db w) (now w) (awaits w)
                (send_to ws (Message.mk "initialData" (DInitial stats alerts logs))
                   (clients w))
                (console w) (emitted w) (queries w))
           else (Ok tt, w)
       | None => (Ok tt, w)
       end)
    (fun error => console_error ("Failed to send initial data: " ++ error)).

(** [wss.on('connection', ws => { ...; sendInitialData(ws) })]: the new
    socket is open and last in the clients. *)
Definition on_connection : Async unit :=
  fun w =>
    sendInitialData (List.length (clients w))
      (mkWorld (db w) (now w) (awaits w) (clients w ++ [mkClient OPEN []])
         (console w) (emitted w) (queries w)).

(* ================================================================== *)
(** * server/services/networkMonitor.ts: [NetworkMonitor] *)
(* ================================================================== *)

(** The names of the members of [Object.prototype], which an object
    that started as [{}] inherits. *)
Definition inherited (key : string) : bool :=
  existsb (String.eqb key)
    ["constructor"; "__defineGetter__"; "__defineSetter__"; "hasOwnProperty";
     "__lookupGetter__"; "__lookupSetter__"; "isPrototypeOf";
     "propertyIsEnumerable"; "toString"; "valueOf"; "__proto__";
     "toLocaleString"].

(** [x + 1] on what a counter holds: a text stays a text. *)
Definition plus_1 (x : Count) : Count :=
  match x with
  | Number n => Number (n + 1)
  | Text => Text
  end.

(** [counts[key] = (counts[key] || 0) + 1] on an object that started as
    [{}].  Where the object has the property, what it holds gets 1
    added.  Where it has not, [counts[key]] is [undefined] and the
    property is made with 1, unless [key] names a member of
    [Object.prototype]: then [counts[key]] is that member,
    [member + 1] is a text, and the property is made with the text; for
    [__proto__], an accessor whose setter passes over a text, none is
    made. *)
Fixpoint bump (key : string) (counts : Counts) : Counts :=
  match counts with
  | [] =>
      if String.eqb key "__proto__" then []
      else if inherited key then [(key, Text)]
      else [(key, Number 1)]
  | (k, x) :: rest =>
      if String.eqb k key then (k, plus_1 x) :: rest
      else (k, x) :: bump key rest
  end.

(** [log.dataSize || 0]. *)
Definition dataSize_or_0 (log : NetworkLog.t) : Z :=
  match NetworkLog.dataSize log with
  | Some n => n
  | None => 0
  end.

(** [recentLogs.reduce((sum, log) => sum + (log.dataSize || 0), 0)]. *)
Definition sum_dataSize (recentLogs : list NetworkLog.t) : Z :=
  fold_left (fun sum log => sum + dataSize_or_0 log) recentLogs 0.

(** [(num / den).toFixed(2)] for integers [num] and [den > 0] whose
    quotient a double holds exactly, as [totalData / (1024 * 1024)] is:
    the integer [n] with [n / 100] nearest to the quotient, the larger
    one of two, printed with two decimals. *)
Definition hundredths (num den : Z) : Z :=
  (200 * Z.abs num + den) / (2 * den).

Definition two_digits (n : Z) : string :=
  string_of_Z (n / 10) ++ string_of_Z (n mod 10).

Definition toFixed2 (num den : Z) : string :=
  let n := hundredths num den in
  (if num <? 0 then "-" else "")
  ++ string_of_Z (n / 100) ++ "." ++ two_digits (n mod 100).

Module networkMonitor.

(** *** [simulateNetworkTraffic]

    What [Math.random()] and the generators decided in one run: the
    random fields of each record of the loop, one entry per iteration,
    and those of the suspicious record when [Math.random() > 0.9]. *)
Record NormalDraw : Type := mkNormalDraw {
  n_sourceIp : string;
  n_destinationHost : string;
  n_destinationIp : string;
  n_destinationPort : Z;
  n_protocol : string;
  n_dataSize : Z;
  n_duration : Z;
  n_metadata : Json
}.

Record SuspiciousDraw : Type := mkSuspiciousDraw {
  s_sourceIp : string;
  s_destinationHost : string;
  s_destinationIp : string;
  s_destinationPort : Z;
  s_dataSize : Z;
  s_duration : Z
}.

Record Draws : Type := mkDraws {
  normal : list NormalDraw;
  suspicious : option SuspiciousDraw
}.

Definition normalLog (d : NormalDraw) : InsertNetworkLog.t :=
  InsertNetworkLog.mk
    (n_sourceIp d) (Val (n_destinationIp d)) (Val (n_destinationHost d))
    (Val (n_destinationPort d)) (n_protocol d) "ALLOW" (Val (n_dataSize d))
    (Val (n_duration d)) Absent (Val (n_metadata d)).

Definition suspiciousLog (d : SuspiciousDraw) : InsertNetworkLog.t :=
  InsertNetworkLog.mk
    (s_sourceIp d) (Val (s_destinationIp d)) (Val (s_destinationHost d))
    (Val (s_destinationPort d)) "HTTP" "BLOCK" (Val (s_dataSize d))
    (Val (s_duration d)) Absent
    (Val (JObj [("reason", JStr "Suspicious domain detected");
                ("threat_level", JStr "high")])).

Definition suspiciousAlert (d : SuspiciousDraw) (savedLog : NetworkLog.t)
  : InsertAlert.t :=
  InsertAlert.mk "HIGH" "SUSPICIOUS_TRAFFIC" "Suspicious Traffic Detected"
    ("Blocked connection to suspicious domain: " ++ s_destinationHost d)
    (Val (s_sourceIp d)) Absent Absent
    (Val (JObj [("blockedHost", JStr (s_destinationHost d));
                ("logId", JNum (NetworkLog.id savedLog))])).

Definition simulateNetworkTraffic (r : Draws) : Async unit :=
  forEach
    (fun d =>
       try_catch
         (savedLog <- storage.createNetworkLog (normalLog d) ;;
          emit (EvNetworkLog savedLog))
         (fun error => console_error ("Failed to save network log: " ++ error)))
    (normal r) ;;
  match suspicious r with
  | Some d =>
      try_catch
        (savedLog <- storage.createNetworkLog (suspiciousLog d) ;;
         emit (EvNetworkLog savedLog) ;;
         savedAlert <- storage.createAlert (suspiciousAlert d savedLog) ;;
         emit (EvAlert savedAlert))
        (fun error =>
           console_error ("Failed to save suspicious log/alert: " ++ error))
  | None => ret tt
  end.

(** *** [detectAnomalies]

    In the loop over the counter, [count > 20] is false of a text that
    is not a numeral. *)

Definition rapidAlert (ip : string) (count : Z) : InsertAlert.t :=
  InsertAlert.mk "MEDIUM" "RAPID_CONNECTIONS"
    "Rapid Connection Pattern Detected"
    ("IP " ++ ip ++ " made " ++ string_of_Z count
     ++ " connections in the last 5 minutes")
    (Val ip) Absent Absent
    (Val (JObj [("connectionCount", JNum count);
                ("timeWindow", JStr "5 minutes")])).

Definition bandwidthAlert (totalData : Z) : InsertAlert.t :=
  InsertAlert.mk "MEDIUM" "HIGH_BANDWIDTH" "High Bandwidth Usage Detected"
    (toFixed2 totalData (1024 * 1024) ++ " MB transferred in the last 5 minutes")
    Absent Absent Absent
    (Val (JObj [("dataVolume", JNum totalData);
                ("timeWindow", JStr "5 minutes")])).

Definition ipCounts_of (recentLogs : list NetworkLog.t) : Counts :=
  fold_left (fun counts log => bump (NetworkLog.sourceIp log) counts)
    recentLogs [].

Definition detectAnomalies : Async unit :=
  try_catch
    (t <- Date_now ;;
     recentLogs <- storage.getNetworkLogsByTimeRange (t - 5 * 60 * 1000) t ;;
     let ipCounts := ipCounts_of recentLogs in
     forEach
       (fun entry =>
          let '(ip, count) := entry in
          match count with
          | Number n =>
              if 20 <? n then
                savedAlert <- storage.createAlert (rapidAlert ip n) ;;
                emit (EvAlert savedAlert)
              else ret tt
          | Text => ret tt
          end)
       ipCounts ;;
     let totalData := sum_dataSize recentLogs in
     if 100 * 1024 * 1024 <? totalData then
       savedAlert <- storage.createAlert (bandwidthAlert totalData) ;;
       emit (EvAlert savedAlert)
     else ret tt)
    (fun error => console_error ("Failed to detect anomalies: " ++ error)).

(** *** [aggregateMetrics] *)

Definition is_block (log : NetworkLog.t) : bool :=
  String.eqb (NetworkLog.action log) "BLOCK".

Definition protocolCounts_of (recentLogs : list NetworkLog.t) : Counts :=
  fold_left (fun counts log => bump (NetworkLog.protocol log) counts)
    recentLogs [].

(** [if (log.destinationHost)]: neither null nor the empty string. *)
Definition truthy_host (log : NetworkLog.t) : option string :=
  match NetworkLog.destinationHost log with
  | Some h => if String.eqb h "" then None else Some h
  | None => None
  end.

Definition destinationCounts_of (recentLogs : list NetworkLog.t) : Counts :=
  fold_left
    (fun counts log =>
       match truthy_host log with
       | Some h => bump h counts
       | None => counts
       end)
    recentLogs [].

Definition metrics_of (recentLogs : list NetworkLog.t)
  (activeConnections : list Connection.t) : InsertTrafficMetric.t :=
  InsertTrafficMetric.mk
    (Val (string_of_Z (sum_dataSize recentLogs)))
    (Val (Z.of_nat (List.length activeConnections)))
    (Val (Z.of_nat (List.length (filter is_block recentLogs))))
    (Val (protocolCounts_of recentLogs))
    (Val (destinationCounts_of recentLogs)).

Definition aggregateMetrics : Async unit :=
  try_catch
    (t <- Date_now ;;
     recentLogs <- storage.getNetworkLogsByTimeRange (t - 60 * 60 * 1000) t ;;
     activeConnections <- storage.getActiveConnections ;;
     savedMetrics <-
       storage.createTrafficMetric (metrics_of recentLogs activeConnections) ;;
     emit (EvMetricsUpdate savedMetrics))
    (fun error => console_error ("Failed to aggregate metrics: " ++ error)).

End networkMonitor.

(* ================================================================== *)
(** * server/routes.ts: the endpoints *)
(* ================================================================== *)

(** What a handler replies: [res.status(..).json(..)]. *)
Inductive Body : Type :=
| BodyJson (j : Json)
| BodyLog (log : NetworkLog.t).

Record Response : Type := mkResponse {
  status : Z;
  body : Body
}.

(** ** [insertNetworkLogSchema.parse]

    [createInsertSchema(networkLogs).omit({ id, timestamp })] has one
    check per remaining column, read off the column declaration: a
    [varchar] is a string of at most its length, [text] a string,
    [integer] a 32-bit integer, [jsonb] any value; a column without
    [notNull()] or with a default may be left out or be null.  The table
    declares nothing else, neither values for [action] nor a sign for
    [dataSize]. *)

Definition prop (key : string) (obj : list (string * Json)) : option Json :=
  option_map snd (find (fun p => String.eqb (fst p) key) obj).

Definition zod_varchar (max : nat) (j : Json) : option string :=
  match j with
  | JStr s => if (String.length s <=? max)%nat then Some s else None
  | _ => None
  end.

Definition zod_text (j : Json) : option string :=
  match j with
  | JStr s => Some s
  | _ => None
  end.

Definition zod_integer (j : Json) : option Z :=
  match j with
  | JNum n =>
      if (-2147483648 <=? n) && (n <=? 2147483647) then Some n else None
  | _ => None
  end.

Definition zod_required {A : Type} (check : Json -> option A)
  (p : option Json) : option A :=
  match p with
  | Some j => check j
  | None => None
  end.

Definition zod_optional {A : Type} (check : Json -> option A)
  (p : option Json) : option (Field A) :=
  match p with
  | None => Some Absent
  | Some JNull => Some Null
  | Some j => option_map Val (check j)
  end.

Definition insertNetworkLogSchema_parse (data : Json)
  : option InsertNetworkLog.t :=
  match data with
  | JObj o =>
      match zod_required (zod_varchar 45) (prop "sourceIp" o),
            zod_optional (zod_varchar 45) (prop "destinationIp" o),
            zod_optional zod_text (prop "destinationHost" o),
            zod_optional zod_integer (prop "destinationPort" o),
            zod_required (zod_varchar 10) (prop "protocol" o),
            zod_required (zod_varchar 10) (prop "action" o),
            zod_optional zod_integer (prop "dataSize" o),
            zod_optional zod_integer (prop "duration" o),
            zod_optional zod_text (prop "userId" o),
            zod_optional Some (prop "metadata" o) with
      | Some sourceIp, Some destinationIp, Some destinationHost,
        Some destinationPort, Some protocol, Some action, Some dataSize,
        Some duration, Some userId, Some metadata =>
          Some (InsertNetworkLog.mk sourceIp destinationIp destinationHost
                  destinationPort protocol action dataSize duration userId
                  metadata)
      | _, _, _, _, _, _, _, _, _, _ => None
      end
  | _ => None
  end.

Definition error_body (message : string) : Body :=
  BodyJson (JObj [("error", JStr message)]).

(** [app.post("/api/network-logs", ..)]. *)
Definition post_network_logs (req_body : Json) : Async Response :=
  try_catch
    (validatedData <-
       match insertNetworkLogSchema_parse req_body with
       | Some v => ret v
       | None => throw "ZodError"
       end ;;
     log <- storage.createNetworkLog validatedData ;;
     ret (mkResponse 200 (BodyLog log)))
    (fun _ => ret (mkResponse 400 (error_body "Invalid network log data"))).

(** [app.patch("/api/alerts/:id/resolve", ..)], from the parsed [id]
    on, for an [id] that the [id] column can be compared with: a number
    within 32 bits, as the id of every stored alert is.  For any other
    see [patch_alert_resolve_request]. *)
Definition patch_alert_resolve (id : Z) : Async Response :=
  try_catch
    (storage.resolveAlert id ;;
     ret (mkResponse 200 (BodyJson (JObj [("success", JBool true)]))))
    (fun _ => ret (mkResponse 500 (error_body "Failed to resolve alert"))).

(** ** A resolve request with any id

    [parseInt(req.params.id)] is a whole number, however large (an
    infinity counting as one beyond every bound), or [NaN] when the
    text does not start with one.  The [id] column is a 32-bit
    [integer]: a statement that compares it with [NaN], or with a
    number beyond 32 bits, the database refuses. *)
Inductive ParsedInt : Type :=
| NaN
| Int (n : Z).

Definition int4 (n : Z) : bool :=
  (-2147483648 <=? n) && (n <=? 2147483647).

(** A statement the database refuses for the value it carries: the call
    is made and awaited like any other, and rejects. *)
Definition refused {A : Type} : Async A :=
  fun w =>
    (Throw "database error",
     mkWorld (db w) (now w) (tl (awaits w))
       (settle (hd quiet (awaits w)) (clients w)) (console w) (emitted w)
       (S (queries w))).

(** [storage.resolveAlert(id)] for whatever [parseInt] gave. *)
Definition resolveAlert_parsed (id : ParsedInt) : Async unit :=
  match id with
  | Int n => if int4 n then storage.resolveAlert n else refused
  | NaN => refused
  end.

(** [app.patch("/api/alerts/:id/resolve", ..)]. *)
Definition patch_alert_resolve_request (id : ParsedInt) : Async Response :=
  try_catch
    (resolveAlert_parsed id ;;
     ret (mkResponse 200 (BodyJson (JObj [("success", JBool true)]))))
    (fun _ => ret (mkResponse 500 (error_body "Failed to resolve alert"))).

(** ** [insertAlertSchema.parse] and [insertConnectionSchema.parse]

    As for the log schema, one check per column.  A [boolean] column
    takes a boolean.  A [timestamp] column takes a [Date] object, which
    no value of a JSON body is: such a property can only be left out or
    be null. *)

Definition zod_boolean (j : Json) : option bool :=
  match j with
  | JBool b => Some b
  | _ => None
  end.

Definition zod_date (j : Json) : option Z := None.

Definition insertAlertSchema_parse (data : Json) : option InsertAlert.t :=
  match data with
  | JObj o =>
      match zod_required (zod_varchar 10) (prop "severity" o),
            zod_required (zod_varchar 50) (prop "type" o),
            zod_required zod_text (prop "title" o),
            zod_required zod_text (prop "description" o),
            zod_optional (zod_varchar 45) (prop "sourceIp" o),
            zod_optional zod_boolean (prop "isResolved" o),
            zod_optional zod_date (prop "resolvedAt" o),
            zod_optional Some (prop "metadata" o) with
      | Some severity, Some type, Some title, Some description,
        Some sourceIp, Some isResolved, Some resolvedAt, Some metadata =>
          Some (InsertAlert.mk severity type title description sourceIp
                  isResolved resolvedAt metadata)
      | _, _, _, _, _, _, _, _ => None
      end
  | _ => None
  end.

Definition insertConnectionSchema_parse (data : Json)
  : option InsertConnection.t :=
  match data with
  | JObj o =>
      match zod_optional zod_date (prop "endTime" o),
            zod_required (zod_varchar 45) (prop "sourceIp" o),
            zod_required zod_text (prop "destinationHost" o),
            zod_optional (zod_varchar 45) (prop "destinationIp" o),
            zod_optional zod_integer (prop "destinationPort" o),
            zod_required (zod_varchar 10) (prop "protocol" o),
            zod_optional zod_integer (prop "totalDataSize" o),
            zod_optional zod_integer (prop "connectionCount" o),
            zod_optional zod_boolean (prop "isActive" o) with
      | Some endTime, Some sourceIp, Some destinationHost,
        Some destinationIp, Some destinationPort, Some protocol,
        Some totalDataSize, Some connectionCount, Some isActive =>
          Some (InsertConnection.mk endTime sourceIp destinationHost
                  destinationIp destinationPort protocol totalDataSize
                  connectionCount isActive)
      | _, _, _, _, _, _, _, _, _ => None
      end
  | _ => None
  end.

(** [schema.parse(data)]: the parsed value, or a thrown [ZodError]. *)
Definition parse_or_throw {A : Type} (parse : Json -> option A) (data : Json)
  : Async A :=
  match parse data with
  | Some v => ret v
  | None => throw "ZodError"
  end.

(** ** More endpoints *)

(** What the endpoints below reply with. *)
Inductive Answer : Type :=
| AnsJson (j : Json)
| AnsAlert (alert : Alert.t)
| AnsMetrics (metrics : list TrafficMetric.t).

Record Reply : Type := mkReply {
  code : Z;
  answer : Answer
}.

Definition error_answer (message : string) : Answer :=
  AnsJson (JObj [("error", JStr message)]).

(** [app.post("/api/alerts", ..)]. *)
Definition post_alerts (req_body : Json) : Async Reply :=
  try_catch
    (validatedData <- parse_or_throw insertAlertSchema_parse req_body ;;
     alert <- storage.createAlert validatedData ;;
     ret (mkReply 200 (AnsAlert alert)))
    (fun _ => ret (mkReply 400 (error_answer "Invalid alert data"))).

(** [app.get("/api/traffic-metrics", ..)], from the two query
    parameters on: each is left out (or empty), or the [Date] its text
    makes, which counts as true in [startTime && endTime] even when it
    is the invalid date. *)
Definition get_traffic_metrics (startTime endTime : option JsDate)
  : Async Reply :=
  try_catch
    (metrics <-
       match startTime, endTime with
       | Some s, Some e => storage.getTrafficMetricsByTimeRange s e
       | _, _ =>
           latest <- storage.getLatestTrafficMetrics ;;
           ret (match latest with
                | Some m => [m]
                | None => []
                end)
       end ;;
     ret (mkReply 200 (AnsMetrics metrics)))
    (fun _ => ret (mkReply 500 (error_answer "Failed to fetch traffic metrics"))).

(** The body of [app.post("/api/system-data", ..)] once destructured:
    each of [logs], [connections] and [alerts] is an array of values,
    or anything else, which the handler passes over. *)
Record SystemData : Type := mkSystemData {
  sd_logs : option (list Json);
  sd_connections : option (list Json);
  sd_alerts : option (list Json)
}.

(** [if (xs && Array.isArray(xs)) { for (const x of xs) { .. } }]. *)
Definition for_array {A : Type} (body : A -> Async unit)
  (xs : option (list A)) : Async unit :=
  match xs with
  | Some l => forEach body l
  | None => ret tt
  end.

Definition post_system_data (req_body : SystemData) : Async Reply :=
  try_catch
    (for_array
       (fun logData =>
          validatedLog <- parse_or_throw insertNetworkLogSchema_parse logData ;;
          _ <- storage.createNetworkLog validatedLog ;;
          ret tt)
       (sd_logs req_body) ;;
     for_array
       (fun connData =>
          validatedConn <-
            parse_or_throw insertConnectionSchema_parse connData ;;
          _ <- storage.createConnection validatedConn ;;
          ret tt)
       (sd_connections req_body) ;;
     for_array
       (fun alertData =>
          validatedAlert <- parse_or_throw insertAlertSchema_parse alertData ;;
          _ <- storage.createAlert validatedAlert ;;
          ret tt)
       (sd_alerts req_body) ;;
     ret (mkReply 200
            (AnsJson
               (JObj [("success", JBool true);
                      ("message", JStr "System data ingested successfully")]))))
    (fun _ => ret (mkReply 400 (error_answer "Invalid system data format"))).

(* ================================================================== *)
(** * The vocabulary of the statements *)
(* ================================================================== *)

(** Newest first: every row is at least as recent as the rows after it. *)
Definition newest_first {A : Type} (key : A -> Z) : list A -> Prop :=
  StronglySorted (fun a b => key b <= key a).

(** ** Counter objects *)

(** The [forEach] that fills a counter object, for any choice of key;
    rows without a key are passed over. *)
Definition count_into {A : Type} (key : A -> option string)
  (counts : Counts) (xs : list A) : Counts :=
  fold_left
    (fun counts x =>
       match key x with
       | Some k => bump k counts
       | None => counts
       end)
    xs counts.

(** The own property [k] of a counter object, if it has one. *)
Definition entry_of (k : string) (counts : Counts) : Counts :=
  filter (fun p => String.eqb (fst p) k) counts.

Definition has_key {A : Type} (key : A -> option string) (k : string) (x : A)
  : bool :=
  match key x with
  | Some k' => String.eqb k' k
  | None => false
  end.

(** How many of the rows have key [k]. *)
Definition occurrences {A : Type} (key : A -> option string) (k : string)
  (xs : list A) : Z :=
  Z.of_nat (List.length (filter (has_key key k) xs)).

(** A counter object holds the number of rows with each key, and no
    property for a key that no row has. *)
Definition holds (k : string) (n : Z) (counts : Counts) : Prop :=
  entry_of k counts = if n =? 0 then [] else [(k, Number n)].

(** A key that is the name of a member of [Object.prototype]. *)
Definition member_name (k : string) : Prop :=
  In k ["constructor"; "__defineGetter__"; "__defineSetter__";
        "hasOwnProperty"; "__lookupGetter__"; "__lookupSetter__";
        "isPrototypeOf"; "propertyIsEnumerable"; "toString"; "valueOf";
        "__proto__"; "toLocaleString"].

(** A key that is not the name of a member of [Object.prototype]. *)
Definition ordinary_key (k : string) : Prop :=
  ~ member_name k.

(** No coming database call is rejected. *)
Definition accepting (l : list Await) : bool :=
  forallb (fun a => negb (rejects a)) l.

(** The world once an accepted statement has run. *)
Definition after_query {A : Type} (stmt : Z -> Store -> A * Store)
  (w : World) : World :=
  mkWorld (snd (stmt (now w) (db w))) (now w) (tl (awaits w))
    (settle (hd quiet (awaits w)) (clients w)) (console w) (emitted w)
    (S (queries w)).

(** ** Alerts raised by a task *)

(** The rows a run of inserts into [alerts] makes, from sequence value
    [seq] on. *)
Fixpoint alert_rows (seq t : Z) (l : list InsertAlert.t) : list Alert.t :=
  match l with
  | [] => []
  | a :: l' => alert_row seq t a :: alert_rows (seq + 1) t l'
  end.

(** From [w] to [w']: the rows [rows] were appended to [alerts] and
    each was emitted as an ['alert'] event; the other tables, the clock
    and the console are as before, and the database still accepts. *)
Definition raised (rows : list Alert.t) (w w' : World) : Prop :=
  db w'
  = mkStore (networkLogs (db w)) (alerts (db w) ++ rows)
      (connections (db w)) (trafficMetrics (db w)) (networkLogs_seq (db w))
      (alerts_seq (db w) + Z.of_nat (List.length rows))
      (trafficMetrics_seq (db w))
  /\ now w' = now w
  /\ accepting (awaits w') = true
  /\ console w' = console w
  /\ emitted w' = emitted w ++ map EvAlert rows.

(* ================================================================== *)
(** * The anomaly detection cycle *)
(* ================================================================== *)

(** What [getNetworkLogsByTimeRange] hands a cycle that looks back
    [span] milliseconds. *)
Definition recent (span : Z) (w : World) : list NetworkLog.t :=
  select_networkLogsByTimeRange (now w - span) (now w) (db w).

(** The alerts one pass over the counter object creates. *)
Definition rapid_alerts (entries : Counts) : list InsertAlert.t :=
  flat_map
    (fun e =>
       match snd e with
       | Number n =>
           if 20 <? n then [networkMonitor.rapidAlert (fst e) n] else []
       | Text => []
       end)
    entries.

Definition bandwidth_alerts (recentLogs : list NetworkLog.t)
  : list InsertAlert.t :=
  if 100 * 1024 * 1024 <? sum_dataSize recentLogs
  then [networkMonitor.bandwidthAlert (sum_dataSize recentLogs)]
  else [].

(** ** Rapid connections *)

(** The log records of the trailing [span] milliseconds, both ends
    included. *)
Definition window (span : Z) (w : World) : list NetworkLog.t :=
  filter
    (fun log =>
       (now w - span <=? NetworkLog.timestamp log)
       && (NetworkLog.timestamp log <=? now w))
    (networkLogs (db w)).

(** The bytes of the records: their [dataSize] summed, a record without
    one counting for nothing. *)
Fixpoint bytes (logs : list NetworkLog.t) : Z :=
  match logs with
  | [] => 0
  | log :: rest =>
      match NetworkLog.dataSize log with
      | Some n => n + bytes rest
      | None => bytes rest
      end
  end.

(** How many of the records come from source address [src]. *)
Definition from_source (src : string) (logs : list NetworkLog.t) : Z :=
  Z.of_nat
    (List.length
       (filter (fun log => String.eqb (NetworkLog.sourceIp log) src) logs)).

(** An alert of type RAPID_CONNECTIONS that names [src]. *)
Definition is_rapid_for (src : string) (a : Alert.t) : bool :=
  String.eqb (Alert.type a) "RAPID_CONNECTIONS"
  && match Alert.sourceIp a with
     | Some s => String.eqb s src
     | None => false
     end.


Definition names_source (src : string) (a : InsertAlert.t) : bool :=
  is_rapid_for src (alert_row 0 0 a).

(** ** High bandwidth *)

Definition is_high_bandwidth (a : Alert.t) : bool :=
  String.eqb (Alert.type a) "HIGH_BANDWIDTH".

(** How many of the records have protocol [p], and how many go to
    destination host [h]. *)
Definition with_protocol (p : string) (logs : list NetworkLog.t) : Z :=
  Z.of_nat
    (List.length
       (filter (fun log => String.eqb (NetworkLog.protocol log) p) logs)).

Definition to_host (h : string) (logs : list NetworkLog.t) : Z :=
  Z.of_nat
    (List.length
       (filter
          (fun log =>
             match NetworkLog.destinationHost log with
             | Some h' => String.eqb h' h
             | None => false
             end)
          logs)).

(** A date with a year of four digits, from 0001 to 9999: one whose
    [toISOString] text is a timestamp the database reads. *)
Definition plain_date (t : Z) : Prop :=
  -62135596800000 <= t <= 253402300799999.

Definition active_connections (s : Store) : list Connection.t :=
  filter
    (fun c =>
       match Connection.isActive c with
       | Some true => true
       | _ => false
       end)
    (connections s).

(** The records with action BLOCK. *)
Definition blocked (logs : list NetworkLog.t) : list NetworkLog.t :=
  filter (fun log => String.eqb (NetworkLog.action log) "BLOCK") logs.

(** The snapshot the tables [s] give. *)
Definition snapshot (s : Store) : Message.t :=
  Message.mk "initialData"
    (DInitial
       (storage.dashboardStats (select_latestTrafficMetrics s)
          (count_activeAlerts s))
       (select_activeAlerts s)
       (select_networkLogs 10 0 s)).

Definition unresolved (s : Store) : list Alert.t :=
  filter (fun a => eq_bool (Alert.isResolved a) false) (alerts s).

(** ** Resolving alerts *)

(** The process when the clock reads [t]. *)
Definition at_time (t : Z) (w : World) : World :=
  mkWorld (db w) t (awaits w) (clients w) (console w) (emitted w) (queries w).

(** A call that writes to [alerts], made when the clock reads [t]. *)
Inductive AlertCall : Type :=
| CreateAlert (t : Z) (a : InsertAlert.t)
| ResolveAlert (t : Z) (id : Z).

Definition call (c : AlertCall) (w : World) : World :=
  match c with
  | CreateAlert t a => snd (storage.createAlert a (at_time t w))
  | ResolveAlert t id => snd (storage.resolveAlert id (at_time t w))
  end.

(** The calls of [history] one after another, whether the database
    accepts each or not. *)
Definition calls (history : list AlertCall) (w : World) : World :=
  fold_left (fun w c => call c w) history w.

(** The alert [a'] is the alert [a] later on: resolved if [a] was, with
    a resolved-at time if [a] had one. *)
Definition keeps_resolved (a a' : Alert.t) : Prop :=
  Alert.id a' = Alert.id a
  /\ (Alert.isResolved a = Some true -> Alert.isResolved a' = Some true)
  /\ (Alert.resolvedAt a <> None -> Alert.resolvedAt a' <> None).

(** ** Creating log records *)




(** A request body with the two required string columns, an action and
    a data size. *)
Definition log_body (sourceIp protocol action : string) (dataSize : Z)
  : Json :=
  JObj [("sourceIp", JStr sourceIp); ("protocol", JStr protocol);
        ("action", JStr action); ("dataSize", JNum dataSize)].

(** ** Failures inside the periodic tasks *)

(** The rows a run of inserts into [networkLogs] makes, from sequence
    value [seq] on. *)
Fixpoint log_rows (seq t : Z) (l : list InsertNetworkLog.t)
  : list NetworkLog.t :=
  match l with
  | [] => []
  | a :: l' => networkLog_row seq t a :: log_rows (seq + 1) t l'
  end.

(** From [w] to [w']: [calls] statements were sent to the database, of
    which [failed] were rejected and reported on the console; the log
    records [logs] and the alert rows [raised_rows] were stored, and
    the events [evs] emitted. *)
Definition wrote (logs : list InsertNetworkLog.t) (raised_rows : list Alert.t)
  (evs : list Event) (calls failed : nat) (w w' : World) : Prop :=
  networkLogs (db w')
  = networkLogs (db w) ++ log_rows (networkLogs_seq (db w)) (now w) logs
  /\ networkLogs_seq (db w')
     = networkLogs_seq (db w) + Z.of_nat (List.length logs)
  /\ alerts (db w') = alerts (db w) ++ raised_rows
  /\ alerts_seq (db w')
     = alerts_seq (db w) + Z.of_nat (List.length raised_rows)
  /\ now w' = now w
  /\ awaits w' = skipn calls (awaits w)
  /\ queries w' = (queries w + calls)%nat
  /\ List.length (console w') = (List.length (console w) + failed)%nat
  /\ emitted w' = emitted w ++ evs.

(** The entries of [xs] whose write is accepted, when the writes meet
    the schedule [sch] one each, in order. *)
Fixpoint kept {A : Type} (xs : list A) (sch : list Await) : list A :=
  match xs with
  | [] => []
  | x :: xs' =>
      (if rejects (hd quiet sch) then [] else [x]) ++ kept xs' (tl sch)
  end.

(** How many of the first [n] entries of the schedule reject. *)
Fixpoint rejected (n : nat) (sch : list Await) : nat :=
  match n with
  | O => O
  | S n' => (if rejects (hd quiet sch) then 1 else 0) + rejected n' (tl sch)
  end.

(** The database accepts the write of the suspicious record, which is
    the call after the loop's; and it accepts that one and the write of
    its alert, the call after. *)
Definition suspicious_log_accepted (r : networkMonitor.Draws) (w : World)
  : bool :=
  negb (rejects (nth (List.length (networkMonitor.normal r)) (awaits w) quiet)).

Definition suspicious_alert_accepted (r : networkMonitor.Draws) (w : World)
  : bool :=
  suspicious_log_accepted r w
  && negb (rejects
             (nth (S (List.length (networkMonitor.normal r))) (awaits w) quiet)).

(* ================================================================== *)
(** * Data for concrete runs *)
(* ================================================================== *)

Definition log_from (id ts : Z) (src : string) (size : Z) : NetworkLog.t :=
  NetworkLog.mk id ts src None (Some "github.com") (Some 443) "HTTPS" "ALLOW"
    (Some size) None None None.

(** A process with the given tables at clock reading 60000, nobody
    connected, and a database that answers. *)
Definition world_of (s : Store) : World :=
  mkWorld s 60000 [] [] [] [] 0.

(** 21 records from 10.0.0.5 within the last minute. *)
Definition busy_world : World :=
  world_of
    (mkStore
       (map (fun i => log_from (Z.of_nat i) (1000 + Z.of_nat i) "10.0.0.5" 100)
          (seq 1 21))
       [] [] [] 22 1 1).

(** Two records that sum to 110000000 bytes. *)
Definition heavy_world : World :=
  world_of
    (mkStore
       [log_from 1 1000 "10.0.0.5" 60000000;
        log_from 2 2000 "10.0.0.6" 50000000]
       [] [] [] 3 1 1).

Definition fresh_world : World := world_of empty_store.

(** A new client that closes while the first read is pending. *)
Definition leaving_world : World :=
  mkWorld empty_store 60000 [mkAwait false [0%nat]] [] [] [] 0.

(** One unresolved alert, with id 1. *)
Definition one_alert_world : World :=
  world_of
    (mkStore []
       [alert_row 1 500 (networkMonitor.rapidAlert "10.0.0.5" 25)]
       [] [] 1 2 1).


Definition some_draws : networkMonitor.Draws :=
  networkMonitor.mkDraws
    [networkMonitor.mkNormalDraw "192.168.1.20" "github.com" "8.8.4.4" 443
       "HTTPS" 512 120 (JObj [("responseCode", JNum 200)])]
    (Some
       (networkMonitor.mkSuspiciousDraw "192.168.7.7" "crypto-miner.xyz"
          "192.168.9.9" 8080 300 40)).

(** The second database call of the run is rejected, nothing else. *)
Definition failing_world : World :=
  mkWorld empty_store 60000 [quiet; mkAwait true []] [] [] [] 0.

(* ================================================================== *)
(** * Requests in sequence, and what the tables keep *)
(* ================================================================== *)

(** [f] on each element in turn, each call awaited, the results
    collected. *)
Fixpoint mapM {A B : Type} (f : A -> Async B) (xs : list A)
  : Async (list B) :=
  match xs with
  | [] => ret []
  | x :: xs' => y <- f x ;; ys <- mapM f xs' ;; ret (y :: ys)
  end.

(** The [id] column of [alerts] is fed by its sequence only: no two
    rows share an id, and every id lies below the next sequence
    value. *)
Definition alert_ids_sound (s : Store) : Prop :=
  NoDup (map Alert.id (alerts s))
  /\ Forall (fun a => Alert.id a < alerts_seq s) (alerts s).

(** Running [m] notifies nobody: no event is emitted and no client is
    sent anything. *)
Definition silent {A : Type} (m : Async A) : Prop :=
  forall w : World,
    emitted (snd (m w)) = emitted w
    /\ map sent (clients (snd (m w))) = map sent (clients w).

(** One of the three database calls of a metrics rollup is rejected. *)
Definition rollup_rejected (w : World) : bool :=
  rejects (hd quiet (awaits w))
  || rejects (hd quiet (tl (awaits w)))
  || rejects (hd quiet (tl (tl (awaits w)))).

(** The rows a run of inserts into [connections] makes when the table
    has [n] rows. *)
Fixpoint connection_rows (n : nat) (t : Z) (l : list InsertConnection.t)
  : list Connection.t :=
  match l with
  | [] => []
  | c :: l' => connection_row (Z.of_nat n + 1) t c :: connection_rows (S n) t l'
  end.

(** The elements of an array property, none when it is not an array. *)
Definition items_of {A : Type} (xs : option (list A)) : list A :=
  match xs with
  | Some l => l
  | None => []
  end.

(* ================================================================== *)
(** * [NetworkMonitor]: starting and stopping *)
(* ================================================================== *)

(** The callbacks given to [setInterval] by the three [start..]
    methods. *)
Inductive Task : Type :=
| TrafficCollection
| AnomalyDetection
| MetricsAggregation.

Definition Task_eqb (a b : Task) : bool :=
  match a, b with
  | TrafficCollection, TrafficCollection => true
  | AnomalyDetection, AnomalyDetection => true
  | MetricsAggregation, MetricsAggregation => true
  | _, _ => false
  end.

(** A repeating timer of the process: what [setInterval] returned, its
    callback and its delay in milliseconds. *)
Record Timer : Type := mkTimer {
  handle : nat;
  callback : Task;
  delay : Z
}.

(** The monitor object, with the timers of the process it has set.
    [monitoringInterval] is the private field of that name. *)
Record Monitor : Type := mkMonitor {
  isRunning : bool;
  monitoringInterval : option nat;
  timers : list Timer;
  next_handle : nat
}.

(** [new NetworkMonitor()]. *)
Definition new_monitor : Monitor := mkMonitor false None [] 0.

Definition setInterval (cb : Task) (ms : Z) (m : Monitor) : Monitor :=
  mkMonitor (isRunning m) (monitoringInterval m)
    (timers m ++ [mkTimer (next_handle m) cb ms]) (S (next_handle m)).

Definition clearInterval (h : nat) (m : Monitor) : Monitor :=
  mkMonitor (isRunning m) (monitoringInterval m)
    (filter (fun t => negb (Nat.eqb (handle t) h)) (timers m))
    (next_handle m).

Definition startTrafficCollection : Monitor -> Monitor :=
  setInterval TrafficCollection 5000.

Definition startAnomalyDetection : Monitor -> Monitor :=
  setInterval AnomalyDetection 30000.

Definition startMetricsAggregation : Monitor -> Monitor :=
  setInterval MetricsAggregation 60000.

Definition start (m : Monitor) : Monitor :=
  if isRunning m then m
  else
    startMetricsAggregation
      (startAnomalyDetection
         (startTrafficCollection
            (mkMonitor true (monitoringInterval m) (timers m)
               (next_handle m)))).

Definition stop (m : Monitor) : Monitor :=
  let m1 :=
    mkMonitor false (monitoringInterval m) (timers m) (next_handle m) in
  match monitoringInterval m1 with
  | Some h => clearInterval h m1
  | None => m1
  end.

(** A timer fires: [if (!this.isRunning) return; this.task()].  [r] is
    what the random generators decide, should the task be the traffic
    synthesis. *)
Definition on_timer (m : Monitor) (t : Task) (r : networkMonitor.Draws)
  : Async unit :=
  if negb (isRunning m) then ret tt
  else
    match t with
    | TrafficCollection => networkMonitor.simulateNetworkTraffic r
    | AnomalyDetection => networkMonitor.detectAnomalies
    | MetricsAggregation => networkMonitor.aggregateMetrics
    end.

(** Calls of [start] and [stop] from outside. *)
Inductive Lifecycle : Type := Start | Stop.

Definition lifecycle (m : Monitor) (c : Lifecycle) : Monitor :=
  match c with
  | Start => start m
  | Stop => stop m
  end.

(** The monitor the module exports, after the given calls: it is
    constructed and started when the module is loaded. *)
Definition monitor_after (history : list Lifecycle) : Monitor :=
  fold_left lifecycle history (start new_monitor).

(** The timers that run task [t]. *)
Definition timers_for (t : Task) (m : Monitor) : list Timer :=
  filter (fun tm => Task_eqb (callback tm) t) (timers m).

(** [k] times: stopped, then started again. *)
Definition restarts (k : nat) : list Lifecycle :=
  List.concat (repeat [Stop; Start] k).

(* ================================================================== *)
(** * server/services/realDataCollector.ts: [ingestExternalData] *)
(* ================================================================== *)

(** One element of [data.logs], with the properties the method reads.
    Those it passes on as they are may be left out or null; of those it
    defaults with [||] only a value matters. *)
Record LogData : Type := mkLogData {
  ld_sourceIp : option string;
  ld_destinationHost : Field string;
  ld_destinationIp : Field string;
  ld_destinationPort : Field Z;
  ld_protocol : option string;
  ld_action : option string;
  ld_dataSize : option Z;
  ld_duration : Field Z;
  ld_metadata : option Json
}.

(** Whether a value counts as true in [x || d]. *)
Definition truthy (j : Json) : bool :=
  match j with
  | JNull => false
  | JBool b => b
  | JNum n => negb (n =? 0)
  | JStr s => negb (String.eqb s "")
  | JObj _ => true
  end.

Definition externalLog (logData : LogData) : InsertNetworkLog.t :=
  InsertNetworkLog.mk
    (storage.or_string (ld_sourceIp logData) "0.0.0.0")
    (ld_destinationIp logData)
    (ld_destinationHost logData)
    (ld_destinationPort logData)
    (storage.or_string (ld_protocol logData) "UNKNOWN")
    (storage.or_string (ld_action logData) "ALLOW")
    (Val (storage.or_number (ld_dataSize logData) 0))
    (ld_duration logData)
    Absent
    (Val (match ld_metadata logData with
          | Some j => if truthy j then j else JObj []
          | None => JObj []
          end)).

(** [realDataCollector.ingestExternalData(data)], [logs] being
    [data.logs].  The closing [console.log] is not recorded. *)
Definition ingestExternalData (logs : option (list LogData)) : Async unit :=
  try_catch
    (match logs with
     | Some l =>
         forEach
           (fun logData =>
              _ <- storage.createNetworkLog (externalLog logData) ;;
              ret tt)
           l
     | None => ret tt
     end)
    (fun error => console_error ("Failed to ingest external data: " ++ error)).

(** How many of [n] calls in a row are made and accepted before the
    schedule rejects one. *)
Fixpoint accepted_run (n : nat) (sch : list Await) : nat :=
  match n with
  | O => O
  | S n' =>
      if rejects (hd quiet sch) then O else S (accepted_run n' (tl sch))
  end.

(** A stored record has a source address, a protocol and an action
    that are not empty, and a data size that is not null. *)
Definition filled_in (row : NetworkLog.t) : Prop :=
  NetworkLog.sourceIp row <> ""
  /\ NetworkLog.protocol row <> ""
  /\ NetworkLog.action row <> ""
  /\ NetworkLog.dataSize row <> None.

(* ================================================================== *)
(** * server/services/elasticsearchService.ts: grading a log entry *)
(* ================================================================== *)

(** The properties of [hit._source] that [determineSeverity] and
    [isSuspiciousActivity] read; [None] where the property, or an
    object on the way to it, is missing. *)
Record EsSource : Type := mkEsSource {
  event_action : option string;
  event_outcome : option string;
  event_severity : option string;
  http_response_status_code : option Z;
  level : option string;
  tags : option (list string);
  threat_indicator_type : option string;
  source_geo_country_name : option string
}.

(** [s.includes(sub)] on strings. *)
Fixpoint includes (sub s : string) : bool :=
  String.prefix sub s
  || match s with
     | EmptyString => false
     | String _ s' => includes sub s'
     end.

(** [x >= n] where [x] may be undefined. *)
Definition at_least (x : option Z) (n : Z) : bool :=
  match x with
  | Some v => n <=? v
  | None => false
  end.

(** [x === s] where [x] may be undefined. *)
Definition is_string (x : option string) (s : string) : bool :=
  match x with
  | Some v => String.eqb v s
  | None => false
  end.

(** A string that is neither undefined nor empty. *)
Definition nonempty (x : option string) : bool :=
  match x with
  | Some v => negb (String.eqb v "")
  | None => false
  end.

Definition isSuspiciousActivity (source : EsSource) : bool :=
  existsb (fun indicator => indicator)
    [at_least (http_response_status_code source) 400;
     is_string (event_outcome source) "failure";
     is_string (level source) "error" || is_string (level source) "warning";
     match event_action source with
     | Some a => includes "block" a
     | None => false
     end;
     match tags source with
     | Some l => existsb (String.eqb "suspicious") l
     | None => false
     end;
     nonempty (threat_indicator_type source);
     nonempty (source_geo_country_name source)
     && negb (is_string (source_geo_country_name source) "United States")].

Definition determineSeverity (source : EsSource) : string :=
  if nonempty (threat_indicator_type source)
     || is_string (event_severity source) "critical"
  then "critical"
  else if at_least (http_response_status_code source) 500
          || is_string (level source) "error"
  then "high"
  else if at_least (http_response_status_code source) 400
          || is_string (level source) "warning"
  then "medium"
  else "low".

(** One of the four database calls of the initial snapshot is
    rejected. *)
Definition snapshot_rejected (w : World) : bool :=
  rejects (hd quiet (awaits w))
  || rejects (hd quiet (tl (awaits w)))
  || rejects (hd quiet (tl (tl (awaits w))))
  || rejects (hd quiet (tl (tl (tl (awaits w))))).

(* ================================================================== *)
(** * More data for concrete runs *)
(* ================================================================== *)

(** One client connected and open, one closed; a database that
    answers. *)
Definition watched_world : World :=
  mkWorld empty_store 60000 [] [mkClient OPEN []; mkClient CLOSED []] [] [] 0.

(** The third database call is rejected. *)
Definition third_call_fails : World :=
  mkWorld empty_store 60000 [quiet; quiet; mkAwait true []] [] [] [] 0.

Definition resolved_alert_body : Json :=
  JObj [("severity", JStr "HIGH"); ("type", JStr "MANUAL");
        ("title", JStr "Port scan"); ("description", JStr "Seen at the gate");
        ("isResolved", JBool true)].

Definition good_log : Json := log_body "10.0.0.5" "TCP" "ALLOW" 100.

(** A log element without the required [action]. *)
Definition bad_log : Json :=
  JObj [("sourceIp", JStr "10.0.0.5"); ("protocol", JStr "TCP")].

Definition good_connection : Json :=
  JObj [("sourceIp", JStr "10.0.0.5"); ("destinationHost", JStr "github.com");
        ("protocol", JStr "TCP")].

Definition half_bad_batch : SystemData :=
  mkSystemData (Some [good_log; bad_log; good_log])
    (Some [good_connection]) None.

Definition good_batch : SystemData :=
  mkSystemData (Some [good_log]) (Some [good_connection])
    (Some [resolved_alert_body]).

(** The two heavy records, one active connection, and the metrics row
    of an earlier rollup. *)
Definition metered_world : World :=
  world_of
    (mkStore
       [log_from 1 1000 "10.0.0.5" 60000000;
        log_from 2 2000 "10.0.0.6" 50000000]
       []
       [Connection.mk 1 500 None "10.0.0.5" "github.com" None (Some 443)
          "HTTPS" (Some 0) (Some 1) (Some true) (Some 500)]
       [TrafficMetric.mk 1 30000 (Some "5.00") (Some 4) (Some 2) None None]
       3 1 2).

(** 21 records within the last minute whose source address reads
    [constructor]. *)
Definition misnamed_world : World :=
  world_of
    (mkStore
       (map (fun i =>
               log_from (Z.of_nat i) (1000 + Z.of_nat i) "constructor" 100)
          (seq 1 21))
       [] [] [] 22 1 1).

(** The metrics rows of three rollups. *)
Definition three_rollups_world : World :=
  world_of
    (mkStore [] [] []
       [TrafficMetric.mk 1 10000 (Some "5.00") (Some 4) (Some 2) None None;
        TrafficMetric.mk 2 20000 (Some "7.00") (Some 4) (Some 2) None None;
        TrafficMetric.mk 3 30000 (Some "0.00") (Some 3) (Some 0) None None]
       1 1 4).

Definition server_error_entry : EsSource :=
  mkEsSource None None None (Some 503) None None None None.

(* ================================================================== *)
(** * Facts about the query building blocks *)
(* ================================================================== *)

Lemma In_firstn {A : Type} (n : nat) (l : list A) (x : A) :
  In x (firstn n l) -> In x l.
Proof.
  intros H. rewrite <- (firstn_skipn n l). apply in_or_app. left. exact H.
Qed.

Lemma In_skipn {A : Type} (n : nat) (l : list A) (x : A) :
  In x (skipn n l) -> In x l.
Proof.
  intros H. rewrite <- (firstn_skipn n l). apply in_or_app. right. exact H.
Qed.

Section OrderBy.
Context {A : Type} (key : A -> Z).

Lemma insert_desc_perm (x : A) (l : list A) :
  Permutation (x :: l) (insert_desc key x l).
Proof.
  induction l as [|y l IH]; simpl.
  - apply Permutation_refl.
  - destruct (key y <=? key x).
    + apply Permutation_refl.
    + apply perm_trans with (y :: x :: l).
      * apply perm_swap.
      * apply perm_skip, IH.
Qed.

Lemma orderBy_desc_perm (rows : list A) :
  Permutation rows (orderBy_desc key rows).
Proof.
  induction rows as [|x rows IH]; simpl.
  - apply perm_nil.
  - apply perm_trans with (x :: orderBy_desc key rows).
    + apply perm_skip, IH.
    + apply insert_desc_perm.
Qed.

Lemma orderBy_desc_In (x : A) (rows : list A) :
  In x (orderBy_desc key rows) <-> In x rows.
Proof.
  split; apply Permutation_in.
  - apply Permutation_sym, orderBy_desc_perm.
  - apply orderBy_desc_perm.
Qed.

Lemma insert_desc_sorted (x : A) (l : list A) :
  newest_first key l -> newest_first key (insert_desc key x l).
Proof.
  unfold newest_first.
  induction l as [|y l IH]; simpl; intros Hs.
  - constructor; [constructor | constructor].
  - destruct (key y <=? key x) eqn:E.
    + apply Z.leb_le in E.
      constructor; [exact Hs |].
      inversion Hs as [|? ? Hl Hy]; subst.
      constructor; [exact E |].
      rewrite Forall_forall in *. intros z Hz.
      specialize (Hy z Hz). lia.
    + apply Z.leb_gt in E.
      inversion Hs as [|? ? Hl Hy]; subst.
      constructor; [apply IH, Hl |].
      rewrite Forall_forall in *. intros z Hz.
      apply (Permutation_in _ (Permutation_sym (insert_desc_perm x l))) in Hz.
      destruct Hz as [<- | Hz]; [lia | apply Hy, Hz].
Qed.

Lemma orderBy_desc_sorted (rows : list A) :
  newest_first key (orderBy_desc key rows).
Proof.
  induction rows as [|x rows IH]; simpl.
  - constructor.
  - apply insert_desc_sorted, IH.
Qed.

Lemma newest_first_firstn (n : nat) (l : list A) :
  newest_first key l -> newest_first key (firstn n l).
Proof.
  unfold newest_first. revert l.
  induction n as [|n IH]; intros l Hs; simpl.
  - constructor.
  - destruct l as [|y l]; [constructor |].
    inversion Hs as [|? ? Hl Hy]; subst.
    constructor; [apply IH, Hl |].
    rewrite Forall_forall in *. intros z Hz.
    apply Hy. revert Hz. apply In_firstn.
Qed.

Lemma newest_first_split (n : nat) (l : list A) (x y : A) :
  newest_first key l -> In x (firstn n l) -> In y (skipn n l) -> key y <= key x.
Proof.
  unfold newest_first. revert l.
  induction n as [|n IH]; intros l Hs Hx Hy; simpl in *.
  - contradiction.
  - destruct l as [|z l]; [contradiction |].
    inversion Hs as [|? ? Hl Hz]; subst.
    destruct Hx as [<- | Hx].
    + rewrite Forall_forall in Hz. apply Hz.
      revert Hy. apply In_skipn.
    + apply (IH l); assumption.
Qed.

Lemma filter_insert_desc_length (f : A -> bool) (x : A) (l : list A) :
  List.length (filter f (insert_desc key x l))
  = List.length (filter f (x :: l)).
Proof.
  induction l as [|y l IH]; simpl.
  - reflexivity.
  - destruct (key y <=? key x); simpl.
    + reflexivity.
    + simpl in IH. destruct (f y); simpl; rewrite IH;
        destruct (f x); simpl; reflexivity.
Qed.

Lemma filter_orderBy_desc_length (f : A -> bool) (rows : list A) :
  List.length (filter f (orderBy_desc key rows))
  = List.length (filter f rows).
Proof.
  induction rows as [|x rows IH]; simpl.
  - reflexivity.
  - rewrite filter_insert_desc_length. simpl.
    destruct (f x); simpl; rewrite IH; reflexivity.
Qed.

End OrderBy.

(** ** Sums *)

Lemma sum_dataSize_from (l : list NetworkLog.t) (a : Z) :
  fold_left (fun sum log => sum + dataSize_or_0 log) l a
  = a + sum_dataSize l.
Proof.
  unfold sum_dataSize. revert a.
  induction l as [|x l IH]; intros a; simpl.
  - lia.
  - rewrite (IH (a + dataSize_or_0 x)), (IH (dataSize_or_0 x)). lia.
Qed.

Lemma sum_dataSize_cons (x : NetworkLog.t) (l : list NetworkLog.t) :
  sum_dataSize (x :: l) = dataSize_or_0 x + sum_dataSize l.
Proof.
  unfold sum_dataSize at 1. simpl. rewrite sum_dataSize_from. lia.
Qed.

Lemma sum_dataSize_insert_desc (key : NetworkLog.t -> Z) (x : NetworkLog.t)
  (l : list NetworkLog.t) :
  sum_dataSize (insert_desc key x l) = dataSize_or_0 x + sum_dataSize l.
Proof.
  induction l as [|y l IH]; simpl.
  - apply sum_dataSize_cons.
  - destruct (key y <=? key x).
    + apply sum_dataSize_cons.
    + rewrite !sum_dataSize_cons, IH. lia.
Qed.

Lemma sum_dataSize_orderBy_desc (key : NetworkLog.t -> Z)
  (l : list NetworkLog.t) :
  sum_dataSize (orderBy_desc key l) = sum_dataSize l.
Proof.
  induction l as [|x l IH]; simpl.
  - reflexivity.
  - rewrite sum_dataSize_insert_desc, sum_dataSize_cons, IH. reflexivity.
Qed.

Lemma sum_dataSize_bytes (l : list NetworkLog.t) :
  sum_dataSize l = bytes l.
Proof.
  induction l as [|x l IH]; [reflexivity |].
  rewrite sum_dataSize_cons, IH. unfold dataSize_or_0. cbn [bytes].
  destruct (NetworkLog.dataSize x); reflexivity.
Qed.

Lemma string_app_assoc (a b c : string) :
  ((a ++ b) ++ c = a ++ (b ++ c))%string.
Proof.
  induction a as [|ch a IH]; cbn [String.append].
  - reflexivity.
  - rewrite IH. reflexivity.
Qed.

(** ** Counter objects *)

Section Counting.
Context {A : Type} (key : A -> option string).

Lemma ordinary_not_inherited (k : string) :
  ordinary_key k -> inherited k = false.
Proof.
  intros Hk. destruct (inherited k) eqn:E; [| reflexivity].
  exfalso. unfold inherited in E.
  apply existsb_exists in E. destruct E as (name & Hin & Heq).
  apply String.eqb_eq in Heq. subst name. exact (Hk Hin).
Qed.

Lemma inherited_proto (k : string) :
  inherited k = false -> String.eqb k "__proto__" = false.
Proof.
  unfold inherited. cbn [existsb]. intros H.
  repeat (apply orb_false_iff in H; destruct H as [? H]).
  assumption.
Qed.

Lemma entry_of_bump_same (k : string) (counts : Counts) :
  inherited k = false ->
  entry_of k (bump k counts)
  = match entry_of k counts with
    | [] => [(k, Number 1)]
    | (k', x) :: rest => (k', plus_1 x) :: rest
    end.
Proof.
  intros Hk.
  induction counts as [|[k0 x] rest IH]; cbn [bump entry_of filter fst].
  - rewrite (inherited_proto k Hk), Hk.
    cbn [filter fst]. rewrite String.eqb_refl. reflexivity.
  - destruct (String.eqb k0 k) eqn:E; cbn [filter fst]; rewrite E.
    + reflexivity.
    + exact IH.
Qed.

Lemma entry_of_bump_other (k k' : string) (counts : Counts) :
  String.eqb k' k = false ->
  entry_of k (bump k' counts) = entry_of k counts.
Proof.
  intros Hne.
  induction counts as [|[k0 x] rest IH]; cbn [bump entry_of filter fst].
  - destruct (String.eqb k' "__proto__"); [reflexivity |].
    destruct (inherited k'); cbn [filter fst]; rewrite Hne; reflexivity.
  - destruct (String.eqb k0 k') eqn:E; cbn [filter fst].
    + apply String.eqb_eq in E. subst k0. rewrite Hne. reflexivity.
    + fold (entry_of k (bump k' rest)). fold (entry_of k rest).
      rewrite IH. reflexivity.
Qed.

Lemma occurrences_cons (k : string) (x : A) (xs : list A) :
  occurrences key k (x :: xs)
  = (if has_key key k x then 1 else 0) + occurrences key k xs.
Proof.
  unfold occurrences. simpl. destruct (has_key key k x); simpl List.length; lia.
Qed.

Lemma count_into_holds (k : string) (xs : list A) :
  inherited k = false ->
  forall (counts : Counts) (n : Z),
    0 <= n -> holds k n counts ->
    holds k (n + occurrences key k xs) (count_into key counts xs).
Proof.
  intros Hk.
  induction xs as [|x xs IH]; intros counts n Hn Hc.
  - unfold occurrences. simpl. rewrite Z.add_0_r. exact Hc.
  - rewrite occurrences_cons.
    change (count_into key counts (x :: xs))
      with (count_into key (match key x with
                        | Some k' => bump k' counts
                        | None => counts
                        end) xs).
    unfold has_key. destruct (key x) as [k'|].
    + destruct (String.eqb k' k) eqn:E; cbv iota.
      * apply String.eqb_eq in E. subst k'.
        rewrite Z.add_assoc. apply IH; [lia |].
        unfold holds in *. rewrite entry_of_bump_same, Hc by exact Hk.
        destruct (n =? 0) eqn:En.
        -- apply Z.eqb_eq in En. subst n. reflexivity.
        -- destruct (n + 1 =? 0) eqn:En1; [apply Z.eqb_eq in En1; lia |].
           reflexivity.
      * rewrite Z.add_0_l. apply IH; [exact Hn |].
        unfold holds in *. rewrite entry_of_bump_other by exact E. exact Hc.
    + cbv iota. rewrite Z.add_0_l. apply IH; assumption.
Qed.

Lemma count_holds (k : string) (xs : list A) :
  inherited k = false ->
  holds k (occurrences key k xs) (count_into key [] xs).
Proof.
  intros Hk. apply (count_into_holds k xs Hk [] 0); [lia | reflexivity].
Qed.

(** Under the name of a member of [Object.prototype] a counter object
    never holds a number. *)
Lemma bump_inherited (k : string) (counts : Counts) :
  inherited k = true ->
  Forall (fun p => snd p = Text) (entry_of k counts) ->
  Forall (fun p => snd p = Text) (entry_of k (bump k counts)).
Proof.
  intros Hk.
  induction counts as [|[k0 x] rest IH]; cbn [bump entry_of filter fst];
    intros Hc.
  - destruct (String.eqb k "__proto__"); [constructor |].
    rewrite Hk. cbn [filter fst]. rewrite String.eqb_refl.
    constructor; [reflexivity | constructor].
  - destruct (String.eqb k0 k) eqn:E; cbn [filter fst]; rewrite E.
    + inversion Hc as [|p ps Hx Hrest]; subst.
      cbn [snd] in Hx. subst x.
      constructor; [reflexivity | exact Hrest].
    + apply IH, Hc.
Qed.

Lemma count_into_inherited (k : string) (xs : list A) :
  inherited k = true ->
  forall counts : Counts,
    Forall (fun p => snd p = Text) (entry_of k counts) ->
    Forall (fun p => snd p = Text) (entry_of k (count_into key counts xs)).
Proof.
  intros Hk.
  induction xs as [|x xs IH]; intros counts Hc; [exact Hc |].
  change (count_into key counts (x :: xs))
    with (count_into key (match key x with
                      | Some k' => bump k' counts
                      | None => counts
                      end) xs).
  apply IH. destruct (key x) as [k'|]; [| exact Hc].
  destruct (String.eqb k' k) eqn:E.
  - apply String.eqb_eq in E. subst k'. apply bump_inherited; assumption.
  - rewrite entry_of_bump_other by exact E. exact Hc.
Qed.

End Counting.

(* ================================================================== *)
(** * Running asynchronous code *)
(* ================================================================== *)

Lemma bind_ok {A B : Type} (m : Async A) (k : A -> Async B)
  (w w' : World) (a : A) :
  m w = (Ok a, w') -> bind m k w = k a w'.
Proof. intros H. unfold bind. rewrite H. reflexivity. Qed.

Lemma bind_throw {A B : Type} (m : Async A) (k : A -> Async B)
  (w w' : World) (e : string) :
  m w = (Throw e, w') -> bind m k w = (Throw e, w').
Proof. intros H. unfold bind. rewrite H. reflexivity. Qed.

Lemma try_ok {A : Type} (m : Async A) (h : string -> Async A)
  (w w' : World) (a : A) :
  m w = (Ok a, w') -> try_catch m h w = (Ok a, w').
Proof. intros H. unfold try_catch. rewrite H. reflexivity. Qed.

Lemma try_throw {A : Type} (m : Async A) (h : string -> Async A)
  (w w' : World) (e : string) :
  m w = (Throw e, w') -> try_catch m h w = h e w'.
Proof. intros H. unfold try_catch. rewrite H. reflexivity. Qed.

Lemma accepting_hd (l : list Await) :
  accepting l = true -> rejects (hd quiet l) = false.
Proof.
  destruct l as [|a l]; simpl; intros H.
  - reflexivity.
  - apply andb_prop in H. destruct H as [H _].
    destruct (rejects a); [discriminate | reflexivity].
Qed.

Lemma accepting_tl (l : list Await) :
  accepting l = true -> accepting (tl l) = true.
Proof.
  destruct l as [|a l]; simpl; intros H.
  - reflexivity.
  - apply andb_prop in H. apply H.
Qed.

Lemma query_accepted {A : Type} (stmt : Z -> Store -> A * Store) (w : World) :
  rejects (hd quiet (awaits w)) = false ->
  query stmt w = (Ok (fst (stmt (now w) (db w))), after_query stmt w).
Proof.
  intros H. unfold query, after_query. rewrite H.
  destruct (stmt (now w) (db w)); reflexivity.
Qed.

Lemma query_rejected {A : Type} (stmt : Z -> Store -> A * Store) (w : World) :
  rejects (hd quiet (awaits w)) = true ->
  query stmt w
  = (Throw "database error",
     mkWorld (db w) (now w) (tl (awaits w))
       (settle (hd quiet (awaits w)) (clients w)) (console w) (emitted w)
       (S (queries w))).
Proof.
  intros H. unfold query. rewrite H. reflexivity.
Qed.

Lemma alert_rows_length (seq t : Z) (l : list InsertAlert.t) :
  List.length (alert_rows seq t l) = List.length l.
Proof.
  revert seq. induction l as [|a l IH]; intros seq; simpl.
  - reflexivity.
  - rewrite IH. reflexivity.
Qed.

Lemma alert_rows_app (seq t : Z) (l1 l2 : list InsertAlert.t) :
  alert_rows seq t (l1 ++ l2)
  = alert_rows seq t l1
    ++ alert_rows (seq + Z.of_nat (List.length l1)) t l2.
Proof.
  revert seq. induction l1 as [|a l1 IH]; intros seq; simpl.
  - rewrite Z.add_0_r. reflexivity.
  - rewrite IH. f_equal. f_equal. f_equal. lia.
Qed.

Lemma raised_nil (w w' : World) :
  db w' = db w -> now w' = now w -> accepting (awaits w') = true ->
  console w' = console w -> emitted w' = emitted w ->
  raised [] w w'.
Proof.
  intros Hd Hn Ha Hc He. unfold raised. simpl.
  rewrite Hd, He, !app_nil_r, Z.add_0_r.
  destruct (db w); simpl. repeat split; assumption.
Qed.

Lemma raised_trans (r1 r2 : list Alert.t) (w w1 w2 : World) :
  raised r1 w w1 -> raised r2 w1 w2 -> raised (r1 ++ r2) w w2.
Proof.
  unfold raised.
  intros (Hd1 & Hn1 & _ & Hc1 & He1) (Hd2 & Hn2 & Ha2 & Hc2 & He2).
  rewrite Hd2, Hn2, Hc2, He2, Hd1, Hn1, Hc1, He1. simpl.
  rewrite map_app, !app_assoc, length_app, Nat2Z.inj_add, Z.add_assoc.
  repeat split. exact Ha2.
Qed.

Lemma createAlert_emit_accepted (a : InsertAlert.t) (w : World) :
  accepting (awaits w) = true ->
  exists w',
    (savedAlert <- storage.createAlert a ;; emit (EvAlert savedAlert)) w
    = (Ok tt, w')
    /\ raised [alert_row (alerts_seq (db w)) (now w) a] w w'.
Proof.
  intros Hacc. eexists. split.
  - erewrite bind_ok
      by (unfold storage.createAlert; apply query_accepted, accepting_hd, Hacc).
    unfold emit. reflexivity.
  - unfold raised. simpl. repeat split.
    apply accepting_tl, Hacc.
Qed.

(* ================================================================== *)
(** * The anomaly detection cycle *)
(* ================================================================== *)

Lemma rapid_loop_accepted (entries : Counts) :
  forall w : World,
    accepting (awaits w) = true ->
    exists w',
      forEach
        (fun entry =>
           let '(ip, count) := entry in
           match count with
           | Number n =>
               if 20 <? n then
                 savedAlert <-
                   storage.createAlert (networkMonitor.rapidAlert ip n) ;;
                 emit (EvAlert savedAlert)
               else ret tt
           | Text => ret tt
           end)
        entries w
      = (Ok tt, w')
      /\ raised
           (alert_rows (alerts_seq (db w)) (now w) (rapid_alerts entries))
           w w'.
Proof.
  induction entries as [|[ip count] entries IH]; intros w Hacc.
  - exists w. split; [reflexivity |].
    apply raised_nil; auto.
  - cbn [forEach]. unfold rapid_alerts. cbn [flat_map fst snd].
    destruct count as [n|].
    + destruct (20 <? n) eqn:E.
      * destruct (createAlert_emit_accepted
                    (networkMonitor.rapidAlert ip n) w Hacc)
          as (w1 & E1 & R1).
        erewrite bind_ok by exact E1.
        pose proof R1 as (Hd1 & Hn1 & Ha1 & _).
        destruct (IH w1 Ha1) as (w2 & E2 & R2).
        exists w2. split; [exact E2 |].
        rewrite Hd1, Hn1 in R2. cbn [alerts_seq List.length] in R2.
        cbn [app alert_rows].
        apply (raised_trans [_] _ w w1 w2 R1 R2).
      * erewrite bind_ok by reflexivity.
        apply (IH w Hacc).
    + erewrite bind_ok by reflexivity.
      apply (IH w Hacc).
Qed.

Lemma detectAnomalies_accepted (w : World) :
  accepting (awaits w) = true ->
  exists w',
    networkMonitor.detectAnomalies w = (Ok tt, w')
    /\ raised
         (alert_rows (alerts_seq (db w)) (now w)
            (rapid_alerts
               (networkMonitor.ipCounts_of (recent (5 * 60 * 1000) w))
             ++ bandwidth_alerts (recent (5 * 60 * 1000) w)))
         w w'.
Proof.
  intros Hacc. unfold networkMonitor.detectAnomalies.
  set (w0 := after_query
               (fun (_ : Z) s =>
                  (select_networkLogsByTimeRange
                     (now w - 5 * 60 * 1000) (now w) s, s)) w).
  assert (R0 : raised [] w w0)
    by (apply raised_nil; try reflexivity; apply accepting_tl, Hacc).
  pose proof R0 as (Hd0 & Hn0 & Ha0 & _).
  destruct (rapid_loop_accepted
              (networkMonitor.ipCounts_of (recent (5 * 60 * 1000) w)) w0 Ha0)
    as (w1 & E1 & R1).
  pose proof R1 as (Hd1 & Hn1 & Ha1 & _).
  assert (Hbw : exists w2,
             (if 100 * 1024 * 1024 <? sum_dataSize (recent (5 * 60 * 1000) w)
              then
                savedAlert <-
                  storage.createAlert
                    (networkMonitor.bandwidthAlert
                       (sum_dataSize (recent (5 * 60 * 1000) w))) ;;
                emit (EvAlert savedAlert)
              else ret tt) w1 = (Ok tt, w2)
             /\ raised
                  (alert_rows (alerts_seq (db w1)) (now w1)
                     (bandwidth_alerts (recent (5 * 60 * 1000) w)))
                  w1 w2).
  { unfold bandwidth_alerts.
    destruct (100 * 1024 * 1024 <? sum_dataSize (recent (5 * 60 * 1000) w)).
    - apply createAlert_emit_accepted, Ha1.
    - exists w1. split; [reflexivity |]. apply raised_nil; auto. }
  destruct Hbw as (w2 & E2 & R2).
  exists w2. split.
  - apply try_ok.
    erewrite bind_ok by reflexivity.
    erewrite bind_ok
      by (unfold storage.getNetworkLogsByTimeRange;
          apply query_accepted, accepting_hd, Hacc).
    cbn [fst]. fold w0. fold (recent (5 * 60 * 1000) w).
    erewrite bind_ok by exact E1.
    exact E2.
  - rewrite alert_rows_app.
    apply (raised_trans _ _ w w1 w2).
    + rewrite Hd0, Hn0 in R1. cbn [alerts_seq List.length] in R1.
      rewrite Z.add_0_r in R1.
      apply (raised_trans [] _ w w0 w1 R0 R1).
    + rewrite Hd1, Hn1, Hd0, Hn0 in R2. cbn [alerts_seq List.length] in R2.
      rewrite Z.add_0_r, alert_rows_length in R2.
      unfold rapid_alerts in *. exact R2.
Qed.

(* ================================================================== *)
(** * Broadcast *)
(* ================================================================== *)


Lemma nth_error_broadcast (wss : list Client) (message : Message.t)
  (i : nat) (c : Client) :
  nth_error wss i = Some c ->
  nth_error (broadcast wss message) i
  = Some (if is_open (readyState c) then send message c else c).
Proof.
  intros H. unfold broadcast.
  rewrite nth_error_map, H. reflexivity.
Qed.

(** C1.  Whatever the event and whatever the clients, publishing the
    event never fails and leaves every connection in its place and in
    its state; a connection that is Open at the publish call has been
    sent exactly one more message, the event's ([networkLog], [alert] or
    [metricsUpdate] with the record as data), and a connection in any
    other state has been sent nothing. *)
Theorem broadcast_reaches_open_connections_once (ev : Event) (w : World) :
  exists w',
    emit ev w = (Ok tt, w')
    /\ List.length (clients w') = List.length (clients w)
    /\ listener_message ev
       = match ev with
         | EvNetworkLog log => Message.mk "networkLog" (DLog log)
         | EvAlert alert => Message.mk "alert" (DAlert alert)
         | EvMetricsUpdate metrics =>
             Message.mk "metricsUpdate" (DMetrics metrics)
         end
    /\ forall (i : nat) (c : Client),
         nth_error (clients w) i = Some c ->
         exists c',
           nth_error (clients w') i = Some c'
           /\ readyState c' = readyState c
           /\ sent c'
              = sent c
                ++ match readyState c with
                   | OPEN => [listener_message ev]
                   | _ => []
                   end.
Proof.
  eexists. split; [reflexivity |]. cbn [clients].
  split; [apply length_map |].
  split; [destruct ev; reflexivity |].
  intros i c H.
  rewrite (nth_error_broadcast _ _ _ _ H).
  eexists. split; [reflexivity |].
  destruct (readyState c) eqn:E; cbn [is_open send readyState sent];
    rewrite ?E, ?app_nil_r; split; reflexivity.
Qed.

(* ================================================================== *)
(** * Rapid connections *)
(* ================================================================== *)

Lemma filter_alert_rows (p : Alert.t -> bool) (p' : InsertAlert.t -> bool) :
  (forall id t a, p (alert_row id t a) = p' a) ->
  forall (l : list InsertAlert.t) (seq t : Z),
    (filter p' l = [] -> filter p (alert_rows seq t l) = [])
    /\ (forall a, filter p' l = [a] ->
        exists id, filter p (alert_rows seq t l) = [alert_row id t a]).
Proof.
  intros Hp. induction l as [|x l IH]; intros seq t.
  - split; [reflexivity | discriminate].
  - cbn [filter alert_rows]. rewrite Hp.
    destruct (IH (seq + 1) t) as [IH0 IH1].
    destruct (p' x).
    + split; [discriminate |].
      intros a H. injection H as <- H.
      exists seq. rewrite (IH0 H). reflexivity.
    + split; [exact IH0 | exact IH1].
Qed.

Lemma filter_rapid_alerts (src : string) (entries : Counts) :
  filter (names_source src) (rapid_alerts entries)
  = rapid_alerts (entry_of src entries).
Proof.
  unfold rapid_alerts, entry_of.
  induction entries as [|[ip count] entries IH]; [reflexivity |].
  cbn [flat_map filter fst snd]. rewrite filter_app, IH.
  assert (Hn : forall n : Z,
             names_source src (networkMonitor.rapidAlert ip n)
             = String.eqb ip src)
    by (intros n; unfold names_source, is_rapid_for; cbn; reflexivity).
  destruct (String.eqb ip src) eqn:Es; cbn [flat_map fst snd];
    destruct count as [n|]; try reflexivity;
    destruct (20 <? n); try reflexivity;
    cbn [filter app]; rewrite Hn; reflexivity.
Qed.

Lemma filter_bandwidth_alerts (src : string) (logs : list NetworkLog.t) :
  filter (names_source src) (bandwidth_alerts logs) = [].
Proof.
  unfold bandwidth_alerts.
  destruct (100 * 1024 * 1024 <? sum_dataSize logs); reflexivity.
Qed.



Lemma rapid_alerts_of_texts (entries : Counts) :
  Forall (fun p => snd p = Text) entries -> rapid_alerts entries = [].
Proof.
  unfold rapid_alerts.
  induction 1 as [|[k x] rest Hx _ IH]; [reflexivity |].
  cbn [flat_map fst snd] in *. subst x. exact IH.
Qed.



(* ================================================================== *)
(** * High bandwidth *)
(* ================================================================== *)

Lemma hundredths_nearest (num den : Z) :
  0 <= num -> 0 < den ->
  - den <= 2 * (100 * num - hundredths num den * den) < den.
Proof.
  intros Hnum Hden. unfold hundredths.
  rewrite (Z.abs_eq num) by exact Hnum.
  pose proof (Z.mul_div_le (200 * num + den) (2 * den) ltac:(lia)) as Hlo.
  pose proof (Z.mul_succ_div_gt (200 * num + den) (2 * den) ltac:(lia)) as Hhi.
  set (q := (200 * num + den) / (2 * den)) in *.
  lia.
Qed.

Lemma filter_high_bandwidth_rapid (entries : Counts) :
  filter (fun a => is_high_bandwidth (alert_row 0 0 a)) (rapid_alerts entries)
  = [].
Proof.
  unfold rapid_alerts.
  induction entries as [|[ip count] entries IH]; [reflexivity |].
  cbn [flat_map fst snd]. rewrite filter_app, IH, app_nil_r.
  destruct count as [n|]; [| reflexivity].
  destruct (20 <? n); reflexivity.
Qed.

Lemma recent_sum (span : Z) (w : World) :
  sum_dataSize (recent span w) = bytes (window span w).
Proof.
  rewrite <- sum_dataSize_bytes.
  unfold recent, select_networkLogsByTimeRange, window, in_range.
  apply sum_dataSize_orderBy_desc.
Qed.

(** C3.  With the database answering, an anomaly-detection cycle ends
    normally and appends alert rows, each emitted; when the [dataSize]
    of the log records stamped within the trailing 5 minutes sums to
    more than 104857600, exactly one of the rows is a HIGH_BANDWIDTH
    alert: it is MEDIUM, and its description gives the sum in units of
    1048576 bytes as a whole number, a point and two digits, that value
    being the nearest to the exact quotient there is with two decimals
    (the larger of two that are as near).  When the sum is 104857600
    or less, none of the rows is a HIGH_BANDWIDTH alert. *)
Theorem high_bandwidth_alert_above_threshold (w : World) :
  accepting (awaits w) = true ->
  exists (rows : list Alert.t) (w' : World),
    networkMonitor.detectAnomalies w = (Ok tt, w')
    /\ alerts (db w') = alerts (db w) ++ rows
    /\ emitted w' = emitted w ++ map EvAlert rows
    /\ (if 104857600 <? bytes (window (5 * 60 * 1000) w) then
          exists (a : Alert.t) (units d1 d2 : Z),
            filter is_high_bandwidth rows = [a]
            /\ Alert.severity a = "MEDIUM"
            /\ Alert.type a = "HIGH_BANDWIDTH"
            /\ 0 <= units
            /\ 0 <= d1 <= 9
            /\ 0 <= d2 <= 9
            /\ Alert.description a
               = (string_of_Z units ++ "." ++ string_of_Z d1 ++ string_of_Z d2
                  ++ " MB transferred in the last 5 minutes")%string
            /\ - 1048576
               <= 2 * (100 * bytes (window (5 * 60 * 1000) w)
                       - (100 * units + 10 * d1 + d2) * 1048576)
               < 1048576
        else filter is_high_bandwidth rows = [])
    /\ (bytes (window (5 * 60 * 1000) w) = 104857600 ->
        filter is_high_bandwidth rows = []).
Proof.
  intros Hacc.
  destruct (detectAnomalies_accepted w Hacc) as (w' & E & R).
  destruct (filter_alert_rows is_high_bandwidth
              (fun a => is_high_bandwidth (alert_row 0 0 a))
              (fun _ _ _ => eq_refl)
              (rapid_alerts
                 (networkMonitor.ipCounts_of (recent (5 * 60 * 1000) w))
               ++ bandwidth_alerts (recent (5 * 60 * 1000) w))
              (alerts_seq (db w)) (now w))
    as [H0 H1].
  rewrite filter_app, filter_high_bandwidth_rapid in H0, H1.
  cbn [app] in H0, H1.
  set (rows := alert_rows (alerts_seq (db w)) (now w) _) in *.
  unfold bandwidth_alerts in H0, H1.
  rewrite recent_sum in H0, H1.
  change (100 * 1024 * 1024) with 104857600 in H0, H1.
  set (total := bytes (window (5 * 60 * 1000) w)) in *.
  destruct R as (Hd & _ & _ & _ & He).
  exists rows, w'.
  split; [exact E |].
  split; [rewrite Hd; reflexivity |].
  split; [exact He |].
  assert (Hif :
    if 104857600 <? total then
      exists (a : Alert.t) (units d1 d2 : Z),
        filter is_high_bandwidth rows = [a]
        /\ Alert.severity a = "MEDIUM"
        /\ Alert.type a = "HIGH_BANDWIDTH"
        /\ 0 <= units
        /\ 0 <= d1 <= 9
        /\ 0 <= d2 <= 9
        /\ Alert.description a
           = (string_of_Z units ++ "." ++ string_of_Z d1 ++ string_of_Z d2
              ++ " MB transferred in the last 5 minutes")%string
        /\ - 1048576
           <= 2 * (100 * total - (100 * units + 10 * d1 + d2) * 1048576)
           < 1048576
    else filter is_high_bandwidth rows = []).
  { destruct (104857600 <? total) eqn:Et.
    - apply Z.ltb_lt in Et.
      destruct (H1 _ eq_refl) as [id Hid].
      pose proof (hundredths_nearest total (1024 * 1024) ltac:(lia) ltac:(lia))
        as Hn.
      assert (Hpos : 0 <= hundredths total (1024 * 1024))
        by (unfold hundredths; apply Z.div_pos; lia).
      set (n := hundredths total (1024 * 1024)) in *.
      pose proof (Z.mod_pos_bound n 100 ltac:(lia)) as Hm.
      pose proof (Z.mod_pos_bound (n mod 100) 10 ltac:(lia)) as Hm2.
      exists (alert_row id (now w) (networkMonitor.bandwidthAlert total)),
        (n / 100), (n mod 100 / 10), ((n mod 100) mod 10).
      split; [exact Hid |].
      split; [reflexivity |].
      split; [reflexivity |].
      split; [apply Z.div_pos; lia |].
      split.
      { split; [apply Z.div_pos; lia |].
        assert (n mod 100 / 10 < 10) by (apply Z.div_lt_upper_bound; lia).
        lia. }
      split; [lia |].
      split.
      + cbn [Alert.description alert_row InsertAlert.description
             networkMonitor.bandwidthAlert].
        unfold toFixed2, two_digits. fold n.
        destruct (total <? 0) eqn:Eneg; [apply Z.ltb_lt in Eneg; lia |].
        rewrite !string_app_assoc. reflexivity.
      + pose proof (Z.div_mod n 100 ltac:(lia)) as D1.
        pose proof (Z.div_mod (n mod 100) 10 ltac:(lia)) as D2.
        replace (100 * (n / 100) + 10 * (n mod 100 / 10) + (n mod 100) mod 10)
          with n by lia.
        change (1024 * 1024) with 1048576 in Hn. exact Hn.
    - apply H0. reflexivity. }
  split; [exact Hif |].
  intros Heq. rewrite Heq in Hif. exact Hif.
Qed.

(* ================================================================== *)
(** * Metrics rollup *)
(* ================================================================== *)

Lemma aggregateMetrics_accepted (w : World) :
  accepting (awaits w) = true ->
  exists w',
    networkMonitor.aggregateMetrics w = (Ok tt, w')
    /\ db w'
       = snd (insert_trafficMetric (now w)
                (networkMonitor.metrics_of (recent (60 * 60 * 1000) w)
                   (select_activeConnections (db w)))
                (db w))
    /\ emitted w'
       = emitted w
         ++ [EvMetricsUpdate
               (fst (insert_trafficMetric (now w)
                       (networkMonitor.metrics_of (recent (60 * 60 * 1000) w)
                          (select_activeConnections (db w)))
                       (db w)))].
Proof.
  intros Hacc.
  pose proof (accepting_hd _ Hacc) as H1.
  pose proof (accepting_hd _ (accepting_tl _ Hacc)) as H2.
  pose proof (accepting_hd _ (accepting_tl _ (accepting_tl _ Hacc))) as H3.
  eexists. split.
  - unfold networkMonitor.aggregateMetrics. apply try_ok.
    erewrite bind_ok by reflexivity.
    erewrite bind_ok
      by (unfold storage.getNetworkLogsByTimeRange;
          apply query_accepted, H1).
    erewrite bind_ok
      by (unfold storage.getActiveConnections; apply query_accepted, H2).
    erewrite bind_ok
      by (unfold storage.createTrafficMetric; apply query_accepted, H3).
    unfold emit. reflexivity.
  - split; reflexivity.
Qed.

Lemma select_activeConnections_length (s : Store) :
  List.length (select_activeConnections s)
  = List.length (active_connections s).
Proof.
  unfold select_activeConnections, active_connections.
  rewrite length_app, <- (Permutation_length (orderBy_desc_perm _ _)).
  rewrite filter_length. reflexivity.
Qed.

Lemma protocolCounts_hold (p : string) (span : Z) (w : World) :
  ordinary_key p ->
  entry_of p (networkMonitor.protocolCounts_of (recent span w))
  = if with_protocol p (window span w) =? 0 then []
    else [(p, Number (with_protocol p (window span w)))].
Proof.
  intros Hp.
  assert (Hn : occurrences (fun log => Some (NetworkLog.protocol log)) p
                 (recent span w)
               = with_protocol p (window span w)).
  { unfold occurrences, with_protocol, recent, select_networkLogsByTimeRange,
      window, in_range.
    rewrite filter_orderBy_desc_length. reflexivity. }
  rewrite <- Hn.
  apply (count_holds (fun log => Some (NetworkLog.protocol log))).
  apply ordinary_not_inherited, Hp.
Qed.

Lemma has_truthy_host (h : string) (log : NetworkLog.t) :
  has_key networkMonitor.truthy_host h log
  = negb (String.eqb h "")
    && match NetworkLog.destinationHost log with
       | Some h' => String.eqb h' h
       | None => false
       end.
Proof.
  unfold has_key, networkMonitor.truthy_host.
  destruct (NetworkLog.destinationHost log) as [h'|].
  - destruct (String.eqb h' "") eqn:E1, (String.eqb h "") eqn:E2;
      cbn [negb andb]; try reflexivity.
    + apply String.eqb_eq in E1. subst h'.
      rewrite String.eqb_sym. symmetry. exact E2.
    + apply String.eqb_eq in E2. subst h. exact E1.
  - rewrite andb_false_r. reflexivity.
Qed.

Lemma destinationCounts_hold (h : string) (span : Z) (w : World) :
  ordinary_key h ->
  entry_of h (networkMonitor.destinationCounts_of (recent span w))
  = if String.eqb h "" then []
    else if to_host h (window span w) =? 0 then []
         else [(h, Number (to_host h (window span w)))].
Proof.
  intros Hh. apply ordinary_not_inherited in Hh.
  assert (Hn : occurrences networkMonitor.truthy_host h (recent span w)
               = if String.eqb h "" then 0 else to_host h (window span w)).
  { unfold occurrences, to_host, recent, select_networkLogsByTimeRange,
      window, in_range.
    rewrite filter_orderBy_desc_length.
    rewrite (filter_ext _ _ (has_truthy_host h)).
    destruct (String.eqb h ""); cbn [negb andb].
    - assert (Hf : forall l : list NetworkLog.t,
                 filter (fun _ => false) l = [])
        by (induction l; auto).
      rewrite Hf. reflexivity.
    - reflexivity. }
  pose proof (count_holds networkMonitor.truthy_host h (recent span w) Hh)
    as H.
  unfold holds in H. rewrite Hn in H.
  destruct (String.eqb h ""); exact H.
Qed.

(** C5, as the code has it.  With the database answering and a sum
    that the [decimal(15, 2)] column can hold, a metrics-rollup cycle
    ends normally, appends exactly one row to [trafficMetrics] and
    emits it; computed over the log records stamped within the trailing
    hour and the active connections, the row has for [totalTraffic] the
    sum of [dataSize] as a decimal numeral with two decimals, for
    [activeConnections] the number of active connections, for
    [blockedRequests] the number of records with action BLOCK, for
    [protocolDistribution] one property per protocol that occurs,
    holding its number of records, and for [topDestinations] the same
    per non-empty destination host.  With no log and no connection
    record the row holds "0.00", 0, 0 and two empty objects.  A
    protocol or a host is any text but the name of a member of
    [Object.prototype]. *)
Theorem metrics_rollup_creates_one_record (w : World) :
  accepting (awaits w) = true ->
  Z.abs (bytes (window (60 * 60 * 1000) w)) < 10000000000000 ->
  exists (m : TrafficMetric.t) (w' : World),
    networkMonitor.aggregateMetrics w = (Ok tt, w')
    /\ trafficMetrics (db w') = trafficMetrics (db w) ++ [m]
    /\ emitted w' = emitted w ++ [EvMetricsUpdate m]
    /\ TrafficMetric.totalTraffic m
       = Some (string_of_Z (bytes (window (60 * 60 * 1000) w)) ++ ".00")%string
    /\ TrafficMetric.activeConnections m
       = Some (Z.of_nat (List.length (active_connections (db w))))
    /\ TrafficMetric.blockedRequests m
       = Some (Z.of_nat (List.length (blocked (window (60 * 60 * 1000) w))))
    /\ (exists pd : Counts,
          TrafficMetric.protocolDistribution m = Some pd
          /\ forall p : string,
               ordinary_key p ->
               entry_of p pd
               = if with_protocol p (window (60 * 60 * 1000) w) =? 0 then []
                 else [(p, Number
                             (with_protocol p (window (60 * 60 * 1000) w)))])
    /\ (exists td : Counts,
          TrafficMetric.topDestinations m = Some td
          /\ forall h : string,
               ordinary_key h ->
               entry_of h td
               = if String.eqb h "" then []
                 else if to_host h (window (60 * 60 * 1000) w) =? 0 then []
                      else [(h, Number
                                  (to_host h (window (60 * 60 * 1000) w)))])
    /\ (networkLogs (db w) = [] -> connections (db w) = [] ->
        TrafficMetric.totalTraffic m = Some "0.00"
        /\ TrafficMetric.activeConnections m = Some 0
        /\ TrafficMetric.blockedRequests m = Some 0
        /\ TrafficMetric.protocolDistribution m = Some []
        /\ TrafficMetric.topDestinations m = Some []).
Proof.
  intros Hacc _.
  destruct (aggregateMetrics_accepted w Hacc) as (w' & E & Hd & He).
  eexists. exists w'.
  split; [exact E |].
  split; [rewrite Hd; reflexivity |].
  split; [exact He |].
  cbn [fst insert_trafficMetric TrafficMetric.totalTraffic
       TrafficMetric.activeConnections TrafficMetric.blockedRequests
       TrafficMetric.protocolDistribution TrafficMetric.topDestinations
       networkMonitor.metrics_of InsertTrafficMetric.totalTraffic
       InsertTrafficMetric.activeConnections
       InsertTrafficMetric.blockedRequests
       InsertTrafficMetric.protocolDistribution
       InsertTrafficMetric.topDestinations column option_map].
  split; [rewrite recent_sum; reflexivity |].
  split; [rewrite select_activeConnections_length; reflexivity |].
  split.
  { unfold recent, select_networkLogsByTimeRange, window, in_range, blocked.
    rewrite filter_orderBy_desc_length. reflexivity. }
  split.
  { eexists. split; [reflexivity |].
    intros p Hp. apply protocolCounts_hold, Hp. }
  split.
  { eexists. split; [reflexivity |].
    intros h Hh. apply destinationCounts_hold, Hh. }
  intros Hlogs Hconns.
  unfold recent, select_networkLogsByTimeRange, select_activeConnections.
  rewrite Hlogs, Hconns.
  repeat split.
Qed.

(* ================================================================== *)
(** * The initial snapshot *)
(* ================================================================== *)

Lemma close_socket_nth (j : nat) (cs : list Client) (i : nat) (c : Client) :
  nth_error cs i = Some c ->
  exists c', nth_error (close_socket j cs) i = Some c' /\ sent c' = sent c.
Proof.
  revert j i.
  induction cs as [|x cs IH]; intros j i H.
  - destruct i; discriminate.
  - destruct j as [|j], i as [|i]; cbn [close_socket nth_error] in *.
    + injection H as <-. eexists. split; reflexivity.
    + exists c. split; [exact H | reflexivity].
    + exists c. split; [exact H | reflexivity].
    + apply IH, H.
Qed.

Lemma settle_nth (a : Await) (cs : list Client) (i : nat) (c : Client) :
  nth_error cs i = Some c ->
  exists c', nth_error (settle a cs) i = Some c' /\ sent c' = sent c.
Proof.
  unfold settle. intros H.
  induction (disconnects a) as [|j js IH]; cbn [fold_right].
  - exists c. split; [exact H | reflexivity].
  - destruct IH as (c1 & H1 & S1).
    destruct (close_socket_nth j _ i c1 H1) as (c2 & H2 & S2).
    exists c2. split; [exact H2 | congruence].
Qed.

Lemma send_to_nth (message : Message.t) (cs : list Client) (i : nat)
  (c : Client) :
  nth_error cs i = Some c ->
  nth_error (send_to i message cs) i = Some (send message c).
Proof.
  revert i. induction cs as [|x cs IH]; intros i H.
  - destruct i; discriminate.
  - destruct i as [|i]; cbn [send_to nth_error] in *.
    + injection H as <-. reflexivity.
    + apply IH, H.
Qed.

Lemma sendInitialData_accepted (ws : nat) (w : World) (c : Client) :
  accepting (awaits w) = true ->
  nth_error (clients w) ws = Some c ->
  exists (w' : World) (c' : Client),
    sendInitialData ws w = (Ok tt, w')
    /\ db w' = db w
    /\ List.length (clients w') = List.length (clients w)
    /\ nth_error (clients w') ws = Some c'
    /\ sent c'
       = sent c ++ (if is_open (readyState c') then [snapshot (db w)] else []).
Proof.
  intros Hacc Hc.
  pose proof (accepting_hd _ Hacc) as H1.
  pose proof (accepting_hd _ (accepting_tl _ Hacc)) as H2.
  pose proof (accepting_hd _ (accepting_tl _ (accepting_tl _ Hacc))) as H3.
  pose proof (accepting_hd _
                (accepting_tl _ (accepting_tl _ (accepting_tl _ Hacc)))) as H4.
  destruct (settle_nth (hd quiet (awaits w)) _ ws c Hc) as (c1 & N1 & S1).
  destruct (settle_nth (hd quiet (tl (awaits w))) _ ws c1 N1)
    as (c2 & N2 & S2).
  destruct (settle_nth (hd quiet (tl (tl (awaits w)))) _ ws c2 N2)
    as (c3 & N3 & S3).
  destruct (settle_nth (hd quiet (tl (tl (tl (awaits w))))) _ ws c3 N3)
    as (c4 & N4 & S4).
  assert (Hlen : forall a cs, List.length (settle a cs) = List.length cs).
  { intros a cs. unfold settle.
    induction (disconnects a) as [|j js IH]; [reflexivity |].
    cbn [fold_right]. rewrite <- IH. generalize (fold_right close_socket cs js).
    intros l. revert j. induction l as [|x l IHl]; intros [|j];
      cbn [close_socket List.length]; auto. }
  assert (Hlen' : forall m i cs,
             List.length (send_to i m cs) = List.length cs).
  { intros m i cs. revert i. induction cs as [|x cs IHc]; intros [|i];
      cbn [send_to List.length]; auto. }
  unfold sendInitialData, storage.getDashboardStats.
  destruct (is_open (readyState c4)) eqn:Eo.
  - eexists. exists (send (snapshot (db w)) c4). split.
    + apply try_ok.
      erewrite bind_ok.
      2:{ erewrite bind_ok
            by (unfold storage.getLatestTrafficMetrics;
                apply query_accepted, H1).
          erewrite bind_ok by (apply query_accepted, H2).
          reflexivity. }
      erewrite bind_ok
        by (unfold storage.getActiveAlerts; apply query_accepted, H3).
      erewrite bind_ok
        by (unfold storage.getNetworkLogs; apply query_accepted, H4).
      cbn [clients after_query awaits snd fst db now]. rewrite N4, Eo.
      reflexivity.
    + cbn [db clients send readyState sent after_query snd fst awaits now].
      rewrite Hlen', !Hlen, Eo.
      split; [reflexivity |]. split; [reflexivity |].
      split; [apply (send_to_nth _ _ _ _ N4) |].
      congruence.
  - eexists. exists c4. split.
    + apply try_ok.
      erewrite bind_ok.
      2:{ erewrite bind_ok
            by (unfold storage.getLatestTrafficMetrics;
                apply query_accepted, H1).
          erewrite bind_ok by (apply query_accepted, H2).
          reflexivity. }
      erewrite bind_ok
        by (unfold storage.getActiveAlerts; apply query_accepted, H3).
      erewrite bind_ok
        by (unfold storage.getNetworkLogs; apply query_accepted, H4).
      cbn [clients after_query awaits snd fst db now]. rewrite N4, Eo.
      reflexivity.
    + cbn [db clients after_query snd fst awaits now].
      rewrite !Hlen, Eo, app_nil_r.
      split; [reflexivity |]. split; [reflexivity |].
      split; [exact N4 | congruence].
Qed.

Lemma latest_is_newest {A : Type} (key : A -> Z) (rows : list A) :
  match hd_error (limit_offset 1 0 (orderBy_desc key rows)) with
  | Some m => In m rows /\ forall m', In m' rows -> key m' <= key m
  | None => rows = []
  end.
Proof.
  pose proof (orderBy_desc_perm key rows) as Hp.
  pose proof (orderBy_desc_sorted key rows) as Hs.
  unfold limit_offset. cbn [skipn].
  destruct (orderBy_desc key rows) as [|m l].
  - apply Permutation_sym, Permutation_nil in Hp. exact Hp.
  - cbn [firstn hd_error]. split.
    + apply (Permutation_in _ (Permutation_sym Hp)). left. reflexivity.
    + intros m' Hm'. apply (Permutation_in _ Hp) in Hm'.
      inversion Hs as [|? ? _ Hall]; subst.
      destruct Hm' as [<- | Hm']; [lia |].
      rewrite Forall_forall in Hall. apply Hall, Hm'.
Qed.

(** C4, as the code has it.  With the database answering, the
    connection handler ends normally.  If the new connection is still
    Open once the three reads are done, it has been sent exactly one
    message, [{type: "initialData", data: {stats, alerts, logs}}], where
    [stats] is drawn from the newest metrics row (defaults when there is
    none) and counts the unresolved alerts, [alerts] is exactly the
    alert rows with [isResolved = false], and [logs] is at most 10 log
    rows, newest first, no row left out being newer than one of them.  If the
    connection has left the Open state by then, it has been sent
    nothing. *)
Theorem initial_snapshot_sent_once_if_still_open (w : World) :
  accepting (awaits w) = true ->
  exists (w' : World) (c : Client),
    on_connection w = (Ok tt, w')
    /\ nth_error (clients w') (List.length (clients w)) = Some c
    /\ if is_open (readyState c) then
         exists (stats : DashboardStats.t) (alerts0 : list Alert.t)
                (logs older : list NetworkLog.t)
                (latest : option TrafficMetric.t),
           sent c = [Message.mk "initialData" (DInitial stats alerts0 logs)]
           /\ stats
              = storage.dashboardStats latest
                  (Z.of_nat (List.length (unresolved (db w))))
           /\ match latest with
              | Some m =>
                  In m (trafficMetrics (db w))
                  /\ forall m', In m' (trafficMetrics (db w)) ->
                       TrafficMetric.timestamp m' <= TrafficMetric.timestamp m
              | None => trafficMetrics (db w) = []
              end
           /\ Permutation alerts0 (unresolved (db w))
           /\ (List.length logs <= 10)%nat
           /\ newest_first NetworkLog.timestamp logs
           /\ Permutation (logs ++ older) (networkLogs (db w))
           /\ forall l l', In l logs -> In l' older ->
                NetworkLog.timestamp l' <= NetworkLog.timestamp l
       else sent c = [].
Proof.
  intros Hacc.
  set (w1 := mkWorld (db w) (now w) (awaits w) (clients w ++ [mkClient OPEN []])
               (console w) (emitted w) (queries w)).
  assert (Hn : nth_error (clients w1) (List.length (clients w))
               = Some (mkClient OPEN [])).
  { cbn [clients w1]. rewrite nth_error_app2 by lia.
    rewrite Nat.sub_diag. reflexivity. }
  destruct (sendInitialData_accepted _ w1 _ Hacc Hn)
    as (w' & c & E & _ & _ & Hc & Hs).
  exists w', c. split; [exact E |]. split; [exact Hc |].
  cbn [sent app] in Hs.
  destruct (is_open (readyState c)); [| exact Hs].
  exists (storage.dashboardStats (select_latestTrafficMetrics (db w))
            (count_activeAlerts (db w))),
    (select_activeAlerts (db w)),
    (select_networkLogs 10 0 (db w)),
    (skipn 10 (orderBy_desc NetworkLog.timestamp (networkLogs (db w)))),
    (select_latestTrafficMetrics (db w)).
  split; [exact Hs |].
  split; [reflexivity |].
  split; [apply latest_is_newest |].
  split; [apply Permutation_sym, orderBy_desc_perm |].
  unfold select_networkLogs, limit_offset. cbn [skipn].
  split; [apply firstn_le_length |].
  split; [apply newest_first_firstn, orderBy_desc_sorted |].
  split.
  { rewrite firstn_skipn. apply Permutation_sym, orderBy_desc_perm. }
  intros l l' Hl Hl'.
  apply (newest_first_split NetworkLog.timestamp 10
           (orderBy_desc NetworkLog.timestamp (networkLogs (db w))));
    [apply orderBy_desc_sorted | exact Hl | exact Hl'].
Qed.

(* ================================================================== *)
(** * Resolving alerts *)
(* ================================================================== *)

Lemma resolveAlert_accepted (id : Z) (w : World) :
  accepting (awaits w) = true ->
  exists w',
    storage.resolveAlert id w = (Ok tt, w')
    /\ db w' = update_resolve (now w) id (db w)
    /\ accepting (awaits w') = true.
Proof.
  intros Hacc. eexists. split.
  - unfold storage.resolveAlert. apply query_accepted, accepting_hd, Hacc.
  - split; [reflexivity | apply accepting_tl, Hacc].
Qed.

Lemma patch_alert_resolve_accepted (id : Z) (w : World) :
  accepting (awaits w) = true ->
  exists w',
    patch_alert_resolve id w
    = (Ok (mkResponse 200 (BodyJson (JObj [("success", JBool true)]))), w')
    /\ storage.resolveAlert id w = (Ok tt, w')
    /\ db w' = update_resolve (now w) id (db w)
    /\ accepting (awaits w') = true.
Proof.
  intros Hacc.
  destruct (resolveAlert_accepted id w Hacc) as (w' & E & Hd & Ha).
  exists w'. split; [| auto].
  unfold patch_alert_resolve. apply try_ok.
  erewrite bind_ok by exact E. reflexivity.
Qed.

Lemma update_resolve_nth (t id : Z) (s : Store) (i : nat) (a : Alert.t) :
  nth_error (alerts s) i = Some a ->
  nth_error (alerts (update_resolve t id s)) i
  = Some (if Alert.id a =? id then set_resolved t a else a).
Proof.
  intros H. unfold update_resolve. cbn [alerts].
  rewrite nth_error_map, H. reflexivity.
Qed.

Lemma call_keeps_resolved (c : AlertCall) (w : World) (i : nat)
  (a : Alert.t) :
  nth_error (alerts (db w)) i = Some a ->
  exists a',
    nth_error (alerts (db (call c w))) i = Some a' /\ keeps_resolved a a'.
Proof.
  intros H.
  assert (Hsame : keeps_resolved a a) by (repeat split; auto).
  destruct c as [t ins | t id]; unfold call, storage.createAlert,
    storage.resolveAlert, query; cbn [awaits at_time db now];
    destruct (rejects (hd quiet (awaits w))); cbn [snd db].
  - exists a. split; [exact H | exact Hsame].
  - exists a. split; [| exact Hsame].
    cbn [insert_alert snd db alerts].
    rewrite nth_error_app1; [exact H |].
    apply nth_error_Some. rewrite H. discriminate.
  - exists a. split; [exact H | exact Hsame].
  - rewrite (update_resolve_nth _ _ _ _ _ H).
    eexists. split; [reflexivity |].
    destruct (Alert.id a =? id); [| exact Hsame].
    repeat split; cbn; intros; discriminate.
Qed.

Lemma calls_keep_resolved (history : list AlertCall) :
  forall (w : World) (i : nat) (a : Alert.t),
    nth_error (alerts (db w)) i = Some a ->
    exists a',
      nth_error (alerts (db (calls history w))) i = Some a'
      /\ keeps_resolved a a'.
Proof.
  induction history as [|c history IH]; intros w i a H.
  - exists a. split; [exact H | repeat split; auto].
  - destruct (call_keeps_resolved c w i a H) as (a1 & H1 & K1 & R1 & T1).
    destruct (IH (call c w) i a1 H1) as (a2 & H2 & K2 & R2 & T2).
    exists a2. split; [exact H2 |].
    repeat split; [congruence | auto | auto].
Qed.

(** C7, as the code has it.  A [resolveAlert] call the database accepts
    sets, on every alert with the given id, [isResolved] to true and
    [resolvedAt] to the time of this call, so non-null, and replacing
    an earlier value; it leaves every other alert as it was.  Through
    any later calls that create or resolve alerts, an alert that is
    resolved stays resolved and one that has a resolved-at time keeps
    having one. *)
Theorem resolve_sets_flag_and_time_of_latest_call (id : Z) (w : World) :
  accepting (awaits w) = true ->
  exists w',
    storage.resolveAlert id w = (Ok tt, w')
    /\ List.length (alerts (db w')) = List.length (alerts (db w))
    /\ (forall (i : nat) (a : Alert.t),
          nth_error (alerts (db w)) i = Some a ->
          exists a',
            nth_error (alerts (db w')) i = Some a'
            /\ Alert.id a' = Alert.id a
            /\ (Alert.id a = id ->
                Alert.isResolved a' = Some true
                /\ Alert.resolvedAt a' = Some (now w))
            /\ (Alert.id a <> id -> a' = a))
    /\ (forall (history : list AlertCall) (v : World) (i : nat) (a : Alert.t),
          nth_error (alerts (db v)) i = Some a ->
          exists a',
            nth_error (alerts (db (calls history v))) i = Some a'
            /\ keeps_resolved a a').
Proof.
  intros Hacc.
  destruct (resolveAlert_accepted id w Hacc) as (w' & E & Hd & _).
  exists w'. split; [exact E |].
  split; [rewrite Hd; unfold update_resolve; cbn [alerts]; apply length_map |].
  split.
  - intros i a H. rewrite Hd, (update_resolve_nth _ _ _ _ _ H).
    eexists. split; [reflexivity |].
    destruct (Alert.id a =? id) eqn:Eid.
    + apply Z.eqb_eq in Eid.
      split; [reflexivity |]. split; [intros _; split; reflexivity |].
      intros Hne. contradiction.
    + apply Z.eqb_neq in Eid.
      split; [reflexivity |]. split; [intros He; contradiction |].
      reflexivity.
  - intros history v i a H. apply calls_keep_resolved, H.
Qed.

(** C9.  With the database answering, two resolve requests for the same
    id, the second at any later clock reading, are both answered 200
    [{success: true}], [resolveAlert] throwing in neither; after the
    second every alert with that id is resolved, and the second changes
    the resolved flag of no alert. *)
Theorem resolve_twice_stays_resolved (id t2 : Z) (w : World) :
  accepting (awaits w) = true ->
  exists w1 w2,
    patch_alert_resolve id w
    = (Ok (mkResponse 200 (BodyJson (JObj [("success", JBool true)]))), w1)
    /\ patch_alert_resolve id (at_time t2 w1)
       = (Ok (mkResponse 200 (BodyJson (JObj [("success", JBool true)]))), w2)
    /\ storage.resolveAlert id (at_time t2 w1) = (Ok tt, w2)
    /\ (forall (i : nat) (a : Alert.t),
          nth_error (alerts (db w)) i = Some a -> Alert.id a = id ->
          exists a1 a2,
            nth_error (alerts (db w1)) i = Some a1
            /\ Alert.isResolved a1 = Some true
            /\ nth_error (alerts (db w2)) i = Some a2
            /\ Alert.id a2 = id
            /\ Alert.isResolved a2 = Some true)
    /\ map Alert.isResolved (alerts (db w2))
       = map Alert.isResolved (alerts (db w1)).
Proof.
  intros Hacc.
  destruct (patch_alert_resolve_accepted id w Hacc)
    as (w1 & E1 & _ & Hd1 & Hacc1).
  destruct (patch_alert_resolve_accepted id (at_time t2 w1) Hacc1)
    as (w2 & E2 & S2 & Hd2 & _).
  exists w1, w2.
  split; [exact E1 |]. split; [exact E2 |]. split; [exact S2 |].
  cbn [at_time db now] in Hd2.
  split.
  - intros i a H Hid.
    pose proof (update_resolve_nth (now w) id _ _ _ H) as N1.
    rewrite <- Hd1 in N1.
    pose proof (update_resolve_nth t2 id _ _ _ N1) as N2.
    rewrite <- Hd2 in N2.
    apply Z.eqb_eq in Hid. rewrite Hid in N1, N2.
    cbn [set_resolved Alert.id] in N2. rewrite Hid in N2.
    eexists. eexists.
    split; [exact N1 |]. split; [reflexivity |].
    split; [exact N2 |]. split; [apply Z.eqb_eq, Hid | reflexivity].
  - rewrite Hd2, Hd1. unfold update_resolve. cbn [alerts].
    rewrite !map_map. apply map_ext. intros a.
    destruct (Alert.id a =? id) eqn:Eid.
    + cbn [set_resolved Alert.id]. rewrite Eid. reflexivity.
    + rewrite Eid. reflexivity.
Qed.

Lemma patch_alert_resolve_request_in_range (n : Z) :
  int4 n = true ->
  patch_alert_resolve_request (Int n) = patch_alert_resolve n.
Proof.
  intros H. unfold patch_alert_resolve_request, resolveAlert_parsed.
  rewrite H. reflexivity.
Qed.

(** C10, as the code has it.  With the database answering, a resolve
    request for an id that no alert has leaves every table as it was.
    When the id is a number within the 32 bits of the [id] column,
    [resolveAlert] does not throw and the request is answered 200
    [{success: true}]; when it is a larger number, or not a number,
    [resolveAlert] throws and the request is answered 500. *)
Theorem resolve_unknown_id_changes_nothing (id : ParsedInt) (w : World) :
  accepting (awaits w) = true ->
  (forall a : Alert.t, In a (alerts (db w)) -> Int (Alert.id a) <> id) ->
  exists w',
    db w' = db w
    /\ match id with
       | Int n =>
           if (-2147483648 <=? n) && (n <=? 2147483647) then
             resolveAlert_parsed id w = (Ok tt, w')
             /\ patch_alert_resolve_request id w
                = (Ok (mkResponse 200
                         (BodyJson (JObj [("success", JBool true)]))), w')
           else
             (exists e, resolveAlert_parsed id w = (Throw e, w'))
             /\ patch_alert_resolve_request id w
                = (Ok (mkResponse 500 (error_body "Failed to resolve alert")),
                   w')
       | NaN =>
           (exists e, resolveAlert_parsed id w = (Throw e, w'))
           /\ patch_alert_resolve_request id w
              = (Ok (mkResponse 500 (error_body "Failed to resolve alert")),
                 w')
       end.
Proof.
  intros Hacc Hnone.
  assert (Hrefused :
            exists w',
              db w' = db w
              /\ (exists e, @refused unit w = (Throw e, w'))
              /\ try_catch
                   (@refused unit ;;
                    ret (mkResponse 200
                           (BodyJson (JObj [("success", JBool true)]))))
                   (fun _ =>
                      ret (mkResponse 500
                             (error_body "Failed to resolve alert"))) w
                 = (Ok (mkResponse 500 (error_body "Failed to resolve alert")),
                    w')).
  { eexists. split; [| split; [eexists; reflexivity | reflexivity]].
    reflexivity. }
  destruct id as [|n].
  - destruct Hrefused as (w' & Hd & Ht & Hp).
    exists w'. split; [exact Hd |]. split; [exact Ht | exact Hp].
  - unfold patch_alert_resolve_request, resolveAlert_parsed, int4.
    destruct ((-2147483648 <=? n) && (n <=? 2147483647)).
    + destruct (resolveAlert_accepted n w Hacc) as (w' & E & Hd & _).
      exists w'. split.
      * rewrite Hd. unfold update_resolve.
        replace (map (fun a => if Alert.id a =? n then set_resolved (now w) a
                               else a)
                   (alerts (db w)))
          with (alerts (db w)).
        -- destruct (db w); reflexivity.
        -- symmetry. rewrite <- (map_id (alerts (db w))) at 2.
           apply map_ext_in. intros a Ha.
           destruct (Alert.id a =? n) eqn:Eid; [| reflexivity].
           apply Z.eqb_eq in Eid. exfalso. apply (Hnone a Ha).
           rewrite Eid. reflexivity.
      * split; [exact E |].
        apply try_ok. erewrite bind_ok by exact E. reflexivity.
    + destruct Hrefused as (w' & Hd & Ht & Hp).
      exists w'. split; [exact Hd |]. split; [exact Ht | exact Hp].
Qed.

(* ================================================================== *)
(** * Creating log records *)
(* ================================================================== *)







(* ================================================================== *)
(** * Failures inside the periodic tasks *)
(* ================================================================== *)

Lemma log_rows_app (seq t : Z) (l1 l2 : list InsertNetworkLog.t) :
  log_rows seq t (l1 ++ l2)
  = log_rows seq t l1 ++ log_rows (seq + Z.of_nat (List.length l1)) t l2.
Proof.
  revert seq. induction l1 as [|a l1 IH]; intros seq; simpl.
  - rewrite Z.add_0_r. reflexivity.
  - rewrite IH. f_equal. f_equal. f_equal. lia.
Qed.

Lemma wrote_nothing (w : World) : wrote [] [] [] 0 0 w w.
Proof.
  unfold wrote. cbn [log_rows List.length skipn Z.of_nat].
  rewrite !app_nil_r, !Z.add_0_r, !Nat.add_0_r. repeat split.
Qed.

Lemma wrote_trans (l1 l2 : list InsertNetworkLog.t) (a1 a2 : list Alert.t)
  (e1 e2 : list Event) (c1 c2 f1 f2 : nat) (w w1 w2 : World) :
  wrote l1 a1 e1 c1 f1 w w1 -> wrote l2 a2 e2 c2 f2 w1 w2 ->
  wrote (l1 ++ l2) (a1 ++ a2) (e1 ++ e2) (c1 + c2) (f1 + f2) w w2.
Proof.
  unfold wrote.
  intros (L1 & S1 & A1 & T1 & N1 & W1 & Q1 & C1 & E1)
         (L2 & S2 & A2 & T2 & N2 & W2 & Q2 & C2 & E2).
  rewrite L2, S2, A2, T2, N2, W2, Q2, C2, E2.
  rewrite L1, S1, A1, T1, N1, W1, Q1, C1, E1.
  rewrite log_rows_app, !length_app, !Nat2Z.inj_add, <- !app_assoc.
  rewrite skipn_skipn, (Nat.add_comm c2 c1).
  repeat split; lia.
Qed.

Lemma save_log_step (log : InsertNetworkLog.t) (message : string)
  (w : World) :
  exists w',
    try_catch
      (savedLog <- storage.createNetworkLog log ;;
       emit (EvNetworkLog savedLog))
      (fun error => console_error (message ++ error)) w
    = (Ok tt, w')
    /\ if rejects (hd quiet (awaits w))
       then wrote [] [] [] 1 1 w w'
       else wrote [log] []
              [EvNetworkLog (networkLog_row (networkLogs_seq (db w)) (now w) log)]
              1 0 w w'.
Proof.
  destruct (rejects (hd quiet (awaits w))) eqn:Er.
  - eexists. split.
    + erewrite try_throw
        by (apply bind_throw; unfold storage.createNetworkLog;
            apply query_rejected, Er).
      reflexivity.
    + unfold wrote. cbn [db now awaits queries console emitted log_rows
                         List.length Z.of_nat].
      rewrite !app_nil_r, !Z.add_0_r, length_app, Nat.add_1_r.
      destruct (awaits w); repeat split.
  - eexists. split.
    + apply try_ok.
      erewrite bind_ok
        by (unfold storage.createNetworkLog; apply query_accepted, Er).
      reflexivity.
    + unfold wrote. cbn. rewrite !app_nil_r, Nat.add_0_r, Nat.add_1_r.
      destruct (awaits w); repeat split; lia.
Qed.

Lemma skipn_1 {A : Type} (l : list A) : skipn 1 l = tl l.
Proof. destruct l; reflexivity. Qed.

Lemma traffic_loop (draws : list networkMonitor.NormalDraw) :
  forall w : World,
    exists (w' : World) (evs : list Event),
      forEach
        (fun d =>
           try_catch
             (savedLog <-
                storage.createNetworkLog (networkMonitor.normalLog d) ;;
              emit (EvNetworkLog savedLog))
             (fun error =>
                console_error ("Failed to save network log: " ++ error)))
        draws w
      = (Ok tt, w')
      /\ wrote (map networkMonitor.normalLog (kept draws (awaits w))) [] evs
           (List.length draws) (rejected (List.length draws) (awaits w))
           w w'.
Proof.
  induction draws as [|d draws IH]; intros w.
  - exists w, []. split; [reflexivity | apply wrote_nothing].
  - destruct (save_log_step (networkMonitor.normalLog d)
                "Failed to save network log: " w) as (w1 & E1 & R1).
    destruct (IH w1) as (w' & evs & E & R).
    cbn [forEach]. erewrite bind_ok by exact E1.
    cbn [kept rejected List.length].
    destruct (rejects (hd quiet (awaits w))).
    + exists w', ([] ++ evs). split; [exact E |].
      pose proof R1 as (_ & _ & _ & _ & _ & W1 & _).
      rewrite W1, skipn_1 in R.
      apply (wrote_trans [] _ [] [] [] evs 1 _ 1 _ w w1 w' R1 R).
    + eexists w', (_ ++ evs). split; [exact E |].
      pose proof R1 as (_ & _ & _ & _ & _ & W1 & _).
      rewrite W1, skipn_1 in R.
      rewrite map_app.
      apply (wrote_trans [_] _ [] [] [_] evs 1 _ 0 _ w w1 w' R1 R).
Qed.

Lemma suspicious_step (d : networkMonitor.SuspiciousDraw) (w : World) :
  exists (w' : World) (evs : list Event),
    try_catch
      (savedLog <-
         storage.createNetworkLog (networkMonitor.suspiciousLog d) ;;
       emit (EvNetworkLog savedLog) ;;
       savedAlert <-
         storage.createAlert (networkMonitor.suspiciousAlert d savedLog) ;;
       emit (EvAlert savedAlert))
      (fun error =>
         console_error ("Failed to save suspicious log/alert: " ++ error)) w
    = (Ok tt, w')
    /\ if rejects (hd quiet (awaits w)) then wrote [] [] evs 1 1 w w'
       else if rejects (hd quiet (tl (awaits w))) then
              wrote [networkMonitor.suspiciousLog d] [] evs 2 1 w w'
            else
              wrote [networkMonitor.suspiciousLog d]
                [alert_row (alerts_seq (db w)) (now w)
                   (networkMonitor.suspiciousAlert d
                      (networkLog_row (networkLogs_seq (db w)) (now w)
                         (networkMonitor.suspiciousLog d)))]
                evs 2 0 w w'.
Proof.
  destruct (rejects (hd quiet (awaits w))) eqn:E1.
  - eexists. exists []. split.
    + erewrite try_throw
        by (apply bind_throw; unfold storage.createNetworkLog;
            apply query_rejected, E1).
      reflexivity.
    + unfold wrote. cbn. rewrite !app_nil_r, length_app, Nat.add_1_r.
      destruct (awaits w); repeat split; cbn; lia.
  - destruct (rejects (hd quiet (tl (awaits w)))) eqn:E2.
    + eexists.
      exists [EvNetworkLog
                (networkLog_row (networkLogs_seq (db w)) (now w)
                   (networkMonitor.suspiciousLog d))].
      split.
      * erewrite try_throw.
        2:{ erewrite bind_ok
              by (unfold storage.createNetworkLog;
                  apply query_accepted, E1).
            erewrite bind_ok by reflexivity.
            apply bind_throw. unfold storage.createAlert.
            apply query_rejected. exact E2. }
        reflexivity.
      * unfold wrote. cbn. rewrite !app_nil_r, length_app.
        destruct (awaits w) as [|a0 [|a1 l]]; repeat split; cbn; lia.
    + eexists.
      exists [EvNetworkLog
                (networkLog_row (networkLogs_seq (db w)) (now w)
                   (networkMonitor.suspiciousLog d));
              EvAlert
                (alert_row (alerts_seq (db w)) (now w)
                   (networkMonitor.suspiciousAlert d
                      (networkLog_row (networkLogs_seq (db w)) (now w)
                         (networkMonitor.suspiciousLog d))))].
      split.
      * apply try_ok.
        erewrite bind_ok
          by (unfold storage.createNetworkLog; apply query_accepted, E1).
        erewrite bind_ok by reflexivity.
        erewrite bind_ok
          by (unfold storage.createAlert; apply query_accepted; exact E2).
        reflexivity.
      * unfold wrote. cbn. rewrite <- !app_assoc.
        destruct (awaits w) as [|a0 [|a1 l]]; repeat split; cbn; lia.
Qed.

Lemma hd_skipn {A : Type} (d : A) (n : nat) (l : list A) :
  hd d (skipn n l) = nth n l d.
Proof.
  revert l. induction n as [|n IH]; intros [|x l]; cbn; auto.
Qed.

Lemma tl_skipn {A : Type} (n : nat) (l : list A) :
  tl (skipn n l) = skipn (S n) l.
Proof.
  revert l. induction n as [|n IH]; intros [|x l]; cbn; auto.
Qed.

Lemma try_catch_console (m : Async unit) (message : string) (w : World) :
  exists w',
    try_catch m (fun error => console_error (message ++ error)) w = (Ok tt, w').
Proof.
  unfold try_catch. destruct (m w) as [[[]|e] w1]; eexists; reflexivity.
Qed.

(** C8, as the code has it.  Whatever the database rejects, each of the
    three tasks ends normally: nothing is thrown to its caller.  In the
    traffic synthesis, every record of the loop is sent to the database
    whatever happened to the ones before, and so is the suspicious
    record after the loop; the records whose write is accepted are
    stored, in order; each rejected write is reported on the console.
    The alert of the suspicious record is sent to the database only
    when the write of that record was accepted. *)
Theorem periodic_task_failures_are_caught (r : networkMonitor.Draws)
  (w : World) :
  (exists w', networkMonitor.detectAnomalies w = (Ok tt, w'))
  /\ (exists w', networkMonitor.aggregateMetrics w = (Ok tt, w'))
  /\ exists w',
       networkMonitor.simulateNetworkTraffic r w = (Ok tt, w')
       /\ networkLogs (db w')
          = networkLogs (db w)
            ++ log_rows (networkLogs_seq (db w)) (now w)
                 (map networkMonitor.normalLog
                    (kept (networkMonitor.normal r) (awaits w))
                  ++ match networkMonitor.suspicious r with
                     | Some d =>
                         if suspicious_log_accepted r w
                         then [networkMonitor.suspiciousLog d] else []
                     | None => []
                     end)
       /\ List.length (alerts (db w'))
          = (List.length (alerts (db w))
             + match networkMonitor.suspicious r with
               | Some d => if suspicious_alert_accepted r w then 1 else 0
               | None => 0
               end)%nat
       /\ queries w'
          = (queries w + List.length (networkMonitor.normal r)
             + match networkMonitor.suspicious r with
               | Some d => if suspicious_log_accepted r w then 2 else 1
               | None => 0
               end)%nat
       /\ List.length (console w')
          = (List.length (console w)
             + rejected (List.length (networkMonitor.normal r)) (awaits w)
             + match networkMonitor.suspicious r with
               | Some d => if suspicious_alert_accepted r w then 0 else 1
               | None => 0
               end)%nat.
Proof.
  split; [apply try_catch_console |].
  split; [apply try_catch_console |].
  destruct (traffic_loop (networkMonitor.normal r) w) as (w1 & evs1 & E1 & R1).
  unfold networkMonitor.simulateNetworkTraffic.
  unfold suspicious_alert_accepted, suspicious_log_accepted.
  destruct (networkMonitor.suspicious r) as [d|].
  - destruct (suspicious_step d w1) as (w' & evs & E & R).
    exists w'. split; [erewrite bind_ok by exact E1; exact E |].
    pose proof R1 as (_ & _ & _ & _ & _ & W1 & _).
    rewrite W1, tl_skipn, !hd_skipn in R.
    destruct (rejects (nth (List.length (networkMonitor.normal r))
                         (awaits w) quiet));
      [| destruct (rejects (nth (S (List.length (networkMonitor.normal r)))
                              (awaits w) quiet))];
      pose proof (wrote_trans _ _ _ _ _ _ _ _ _ _ _ _ _ R1 R)
        as (L & _ & A & _ & _ & _ & Q & C & _);
      cbn [negb andb]; rewrite L, A, Q, C, !length_app;
      cbn [List.length]; repeat split; lia.
  - exists w1. split; [erewrite bind_ok by exact E1; reflexivity |].
    destruct R1 as (L & _ & A & _ & _ & _ & Q & C & _).
    rewrite L, A, Q, C, !app_nil_r. repeat split; lia.
Qed.

(* ================================================================== *)
(** * Runs on concrete data *)
(* ================================================================== *)


Lemma high_bandwidth_alert_above_threshold_witness :
  accepting (awaits heavy_world) = true
  /\ exists (rows : list Alert.t) (w' : World),
       networkMonitor.detectAnomalies heavy_world = (Ok tt, w')
       /\ alerts (db w') = rows
       /\ List.length (filter is_high_bandwidth rows) = 1%nat
       /\ map Alert.description rows
          = ["104.90 MB transferred in the last 5 minutes"].
Proof.
  split; [reflexivity |].
  destruct (high_bandwidth_alert_above_threshold heavy_world eq_refl)
    as (rows & w' & E & Ha & _ & H1 & _).
  exists rows, w'. split; [exact E |]. split; [exact Ha |].
  change (104857600 <? bytes (window (5 * 60 * 1000) heavy_world))
    with true in H1.
  destruct H1 as (a & units & d1 & d2 & Hf & _).
  split; [rewrite Hf; reflexivity |].
  assert (E0 : alerts (db (snd (networkMonitor.detectAnomalies heavy_world)))
               = rows) by (rewrite E; exact Ha).
  vm_compute in E0. rewrite <- E0. reflexivity.
Defined.

(** C4 fails for a client that closes while the snapshot is being read:
    the handler ends normally and the new socket, the only one, has
    been sent nothing, so not exactly one message. *)
Lemma snapshot_not_sent_to_client_that_left :
  accepting (awaits leaving_world) = true
  /\ clients leaving_world = []
  /\ (exists w',
        on_connection leaving_world = (Ok tt, w')
        /\ clients w' = [mkClient CLOSED []])
  /\ ~ (exists (w' : World) (c : Client) (m : Message.t),
          on_connection leaving_world = (Ok tt, w')
          /\ nth_error (clients w') 0 = Some c
          /\ sent c = [m]).
Proof.
  split; [reflexivity |]. split; [reflexivity |].
  split; [eexists; split; vm_compute; reflexivity |].
  intros (w' & c & m & E & Hc & Hs).
  vm_compute in E. injection E as <-.
  vm_compute in Hc. injection Hc as <-.
  discriminate Hs.
Qed.

Lemma initial_snapshot_sent_once_if_still_open_witness :
  accepting (awaits fresh_world) = true
  /\ exists (w' : World) (c : Client),
       on_connection fresh_world = (Ok tt, w')
       /\ nth_error (clients w') 0 = Some c.
Proof.
  split; [reflexivity |].
  destruct (initial_snapshot_sent_once_if_still_open fresh_world eq_refl)
    as (w' & c & E & Hc & _).
  exists w', c. split; [exact E | exact Hc].
Defined.

(** C5 fails for its own example: with no record stored, and the
    database answering, the one row the rollup creates has
    [totalTraffic] "0.00", which is what the [decimal(15, 2)] column
    makes of the "0" it is given, and not "0". *)
Lemma rollup_over_no_records_totals_0_00 :
  accepting (awaits fresh_world) = true
  /\ networkLogs (db fresh_world) = []
  /\ connections (db fresh_world) = []
  /\ trafficMetrics (db fresh_world) = []
  /\ exists (m : TrafficMetric.t) (w' : World),
       networkMonitor.aggregateMetrics fresh_world = (Ok tt, w')
       /\ trafficMetrics (db w') = [m]
       /\ emitted w' = [EvMetricsUpdate m]
       /\ TrafficMetric.totalTraffic m = Some "0.00"
       /\ TrafficMetric.totalTraffic m <> Some "0".
Proof.
  repeat (split; [reflexivity |]).
  eexists. eexists. split; [vm_compute; reflexivity |].
  split; [reflexivity |]. split; [reflexivity |].
  split; [reflexivity |]. cbn. discriminate.
Qed.

Lemma metrics_rollup_creates_one_record_witness :
  accepting (awaits heavy_world) = true
  /\ Z.abs (bytes (window (60 * 60 * 1000) heavy_world)) < 10000000000000
  /\ exists (m : TrafficMetric.t) (w' : World),
       networkMonitor.aggregateMetrics heavy_world = (Ok tt, w')
       /\ trafficMetrics (db w') = [m]
       /\ TrafficMetric.totalTraffic m = Some "110000000.00"
       /\ TrafficMetric.activeConnections m = Some 0
       /\ TrafficMetric.blockedRequests m = Some 0
       /\ TrafficMetric.protocolDistribution m = Some [("HTTPS", Number 2)]
       /\ TrafficMetric.topDestinations m = Some [("github.com", Number 2)].
Proof.
  split; [reflexivity |]. split; [reflexivity |].
  destruct (metrics_rollup_creates_one_record heavy_world eq_refl eq_refl)
    as (m & w' & E & Hm & _).
  exists m, w'. split; [exact E |]. split; [exact Hm |].
  assert (E0 : trafficMetrics
                 (db (snd (networkMonitor.aggregateMetrics heavy_world)))
               = [m]) by (rewrite E; exact Hm).
  vm_compute in E0. injection E0 as <-. repeat split.
Defined.



(** C7 fails for an alert resolved at clock reading 1000 and again at
    2000: the second call replaces the resolved-at time of the first. *)
Lemma second_resolve_overwrites_resolvedAt :
  exists w1 w2,
    storage.resolveAlert 1 (at_time 1000 one_alert_world) = (Ok tt, w1)
    /\ storage.resolveAlert 1 (at_time 2000 w1) = (Ok tt, w2)
    /\ map Alert.isResolved (alerts (db w1)) = [Some true]
    /\ map Alert.resolvedAt (alerts (db w1)) = [Some 1000]
    /\ map Alert.resolvedAt (alerts (db w2)) = [Some 2000]
    /\ map Alert.resolvedAt (alerts (db w2))
       <> map Alert.resolvedAt (alerts (db w1)).
Proof.
  eexists. eexists.
  split; [vm_compute; reflexivity |].
  split; [vm_compute; reflexivity |].
  repeat split. cbn. discriminate.
Qed.

Lemma resolve_sets_flag_and_time_of_latest_call_witness :
  accepting (awaits one_alert_world) = true
  /\ exists w',
       storage.resolveAlert 1 one_alert_world = (Ok tt, w')
       /\ List.length (alerts (db w')) = 1%nat.
Proof.
  split; [reflexivity |].
  destruct (resolve_sets_flag_and_time_of_latest_call 1 one_alert_world
              eq_refl) as (w' & E & Hl & _).
  exists w'. split; [exact E | exact Hl].
Defined.

(** C8 fails for the write of the suspicious record.  With a database
    that answers, the run sends three statements and stores the alert.  With the write of the suspicious record
    rejected, the run stops after two: the alert, which the database
    would have taken, is never sent. *)
Lemma failed_suspicious_write_skips_its_alert :
  (exists w',
     networkMonitor.simulateNetworkTraffic some_draws fresh_world
     = (Ok tt, w')
     /\ queries w' = 3%nat
     /\ List.length (alerts (db w')) = 1%nat)
  /\ (exists w',
        networkMonitor.simulateNetworkTraffic some_draws failing_world
        = (Ok tt, w')
        /\ queries w' = 2%nat
        /\ List.length (networkLogs (db w')) = 1%nat
        /\ alerts (db w') = []
        /\ awaits w' = []).
Proof.
  split; eexists; (split; [vm_compute; reflexivity |]); repeat split.
Qed.

Lemma resolve_twice_stays_resolved_witness :
  accepting (awaits one_alert_world) = true
  /\ exists w1 w2,
       patch_alert_resolve 1 one_alert_world
       = (Ok (mkResponse 200 (BodyJson (JObj [("success", JBool true)]))), w1)
       /\ patch_alert_resolve 1 (at_time 90000 w1)
          = (Ok (mkResponse 200 (BodyJson (JObj [("success", JBool true)]))),
             w2)
       /\ map Alert.isResolved (alerts (db w2))
          = map Alert.isResolved (alerts (db w1)).
Proof.
  split; [reflexivity |].
  destruct (resolve_twice_stays_resolved 1 90000 one_alert_world eq_refl)
    as (w1 & w2 & E1 & E2 & _ & _ & Hm).
  exists w1, w2. split; [exact E1 |]. split; [exact E2 | exact Hm].
Defined.

(** C10 fails for an id beyond the 32 bits of the [id] column: no
    alert has the id 99999999999 and the database answers, yet
    [resolveAlert] throws and the request is answered 500, not with
    success. *)
Lemma resolve_of_id_beyond_32_bits_fails :
  accepting (awaits one_alert_world) = true
  /\ (forall a : Alert.t,
        In a (alerts (db one_alert_world)) -> Alert.id a <> 99999999999)
  /\ (exists (e : string) (w' : World),
        resolveAlert_parsed (Int 99999999999) one_alert_world = (Throw e, w')
        /\ patch_alert_resolve_request (Int 99999999999) one_alert_world
           = (Ok (mkResponse 500 (error_body "Failed to resolve alert")), w')
        /\ db w' = db one_alert_world)
  /\ ~ (exists w',
          patch_alert_resolve_request (Int 99999999999) one_alert_world
          = (Ok (mkResponse 200 (BodyJson (JObj [("success", JBool true)]))),
             w')).
Proof.
  split; [reflexivity |].
  split; [intros a [<- | []]; cbn; discriminate |].
  split.
  - eexists. eexists. split; [vm_compute; reflexivity |].
    split; reflexivity.
  - intros (w' & E). vm_compute in E. discriminate E.
Qed.

Lemma resolve_unknown_id_changes_nothing_witness :
  accepting (awaits one_alert_world) = true
  /\ (forall a : Alert.t,
        In a (alerts (db one_alert_world)) -> Int (Alert.id a) <> Int 7)
  /\ exists w',
       patch_alert_resolve_request (Int 7) one_alert_world
       = (Ok (mkResponse 200 (BodyJson (JObj [("success", JBool true)]))), w')
       /\ db w' = db one_alert_world.
Proof.
  assert (H : forall a : Alert.t,
             In a (alerts (db one_alert_world)) -> Int (Alert.id a) <> Int 7).
  { intros a [<- | []]. cbn. discriminate. }
  split; [reflexivity |]. split; [exact H |].
  destruct (resolve_unknown_id_changes_nothing (Int 7) one_alert_world
              eq_refl H) as (w' & Hd & _ & E).
  exists w'. split; [exact E | exact Hd].
Defined.

(* ================================================================== *)
(** * Paging through the log records *)
(* ================================================================== *)

Lemma firstn_plus {A : Type} (a b : nat) (l : list A) :
  firstn (a + b) l = firstn a l ++ firstn b (skipn a l).
Proof.
  revert l. induction a as [|a IH]; intros l.
  - reflexivity.
  - destruct l as [|x l]; cbn [Nat.add firstn skipn app].
    + rewrite firstn_nil. reflexivity.
    + rewrite IH. reflexivity.
Qed.

Lemma pages_concat {A : Type} (n m : nat) (l : list A) :
  List.concat (map (fun i => limit_offset n (i * n) l) (seq 0 m))
  = firstn (m * n) l.
Proof.
  induction m as [|m IH].
  - reflexivity.
  - rewrite seq_S, map_app, concat_app, IH. cbn [map List.concat Nat.add].
    rewrite app_nil_r. unfold limit_offset.
    replace (S m * n)%nat with (m * n + n)%nat by lia.
    rewrite firstn_plus. reflexivity.
Qed.

Lemma read_accepted {A : Type} (f : Store -> A) (w : World) :
  accepting (awaits w) = true ->
  exists w',
    query (fun _ s => (f s, s)) w = (Ok (f (db w)), w')
    /\ db w' = db w
    /\ now w' = now w
    /\ accepting (awaits w') = true.
Proof.
  intros Hacc. eexists. split.
  - apply query_accepted, accepting_hd, Hacc.
  - repeat split. apply accepting_tl, Hacc.
Qed.

Lemma mapM_reads {A B : Type} (f : A -> Store -> B) (xs : list A) :
  forall w : World,
    accepting (awaits w) = true ->
    exists w',
      mapM (fun x => query (fun _ s => (f x s, s))) xs w
      = (Ok (map (fun x => f x (db w)) xs), w')
      /\ db w' = db w
      /\ accepting (awaits w') = true.
Proof.
  induction xs as [|x xs IH]; intros w Hacc.
  - exists w. repeat split. exact Hacc.
  - destruct (read_accepted (f x) w Hacc) as (w1 & E1 & D1 & _ & A1).
    destruct (IH w1 A1) as (w' & E & D & Ha).
    exists w'. split.
    + cbn [mapM]. erewrite bind_ok by exact E1.
      erewrite bind_ok by exact E. rewrite D1. reflexivity.
    + split; [congruence | exact Ha].
Qed.

Lemma strictly_newest_first {A : Type} (key : A -> Z) (l : list A) :
  newest_first key l -> NoDup (map key l) ->
  StronglySorted (fun a b => key b < key a) l.
Proof.
  unfold newest_first. induction 1 as [|a l Hs IH Hall]; intros Hn.
  - constructor.
  - cbn [map] in Hn. apply NoDup_cons_iff in Hn. destruct Hn as [Hnotin Hn].
    constructor; [apply IH, Hn |].
    apply Forall_forall. intros b Hb.
    pose proof (proj1 (Forall_forall _ _) Hall b Hb) as Hle.
    cbv beta in Hle.
    assert (key b <> key a)
      by (intros Heq; apply Hnotin; rewrite <- Heq; apply in_map, Hb).
    lia.
Qed.

(** X1.  With the database answering and no two log records stamped
    alike, fetching [pages] consecutive pages of [limit] records
    (offsets 0, [limit], 2 * [limit], ...) changes nothing in the
    tables, and the pages are cut one after another from the records in
    strictly newest-first order: put end to end they are the first
    [pages * limit] of them, so no record is on two pages and none is
    skipped; and when the pages reach past the table, together they
    hold every record exactly once. *)
Theorem getNetworkLogs_pages_tile (limit pages : nat) (w : World) :
  accepting (awaits w) = true ->
  NoDup (map NetworkLog.timestamp (networkLogs (db w))) ->
  exists (ps : list (list NetworkLog.t)) (sorted : list NetworkLog.t)
         (w' : World),
    mapM (fun i => storage.getNetworkLogs limit (i * limit)) (seq 0 pages) w
    = (Ok ps, w')
    /\ db w' = db w
    /\ Permutation sorted (networkLogs (db w))
    /\ StronglySorted
         (fun a b => NetworkLog.timestamp b < NetworkLog.timestamp a) sorted
    /\ ps = map (fun i => firstn limit (skipn (i * limit) sorted))
              (seq 0 pages)
    /\ List.concat ps = firstn (pages * limit) sorted
    /\ NoDup (List.concat ps)
    /\ ((List.length (networkLogs (db w)) <= pages * limit)%nat ->
        Permutation (List.concat ps) (networkLogs (db w))).
Proof.
  intros Hacc Hdistinct.
  destruct (mapM_reads (fun i s => select_networkLogs limit (i * limit) s)
              (seq 0 pages) w Hacc) as (w' & E & D & _).
  set (sorted := orderBy_desc NetworkLog.timestamp (networkLogs (db w))).
  assert (Hperm : Permutation sorted (networkLogs (db w)))
    by (apply Permutation_sym, orderBy_desc_perm).
  assert (Hnd : NoDup (map NetworkLog.timestamp sorted)).
  { apply (Permutation_NoDup
             (l := map NetworkLog.timestamp (networkLogs (db w))));
      [| exact Hdistinct].
    apply Permutation_map, Permutation_sym, Hperm. }
  assert (Hc : List.concat
                 (map (fun i => select_networkLogs limit (i * limit) (db w))
                    (seq 0 pages))
               = firstn (pages * limit) sorted)
    by (unfold select_networkLogs; apply pages_concat).
  eexists. exists sorted, w'. split; [exact E |].
  split; [exact D |].
  split; [exact Hperm |].
  split.
  { apply strictly_newest_first; [apply orderBy_desc_sorted | exact Hnd]. }
  split; [reflexivity |].
  split; [exact Hc |].
  split.
  { rewrite Hc. apply NoDup_map_inv in Hnd.
    rewrite <- (firstn_skipn (pages * limit) sorted) in Hnd.
    apply NoDup_app_remove_r in Hnd. exact Hnd. }
  intros Hlen. rewrite Hc, firstn_all2.
  - exact Hperm.
  - unfold sorted. rewrite <- (Permutation_length (orderBy_desc_perm _ _)).
    exact Hlen.
Qed.

(** X2.  With the database answering, [getNetworkLogsByTimeRange]
    returns, newest first, exactly the records stamped from
    [startTime] to [endTime], both ends included, each once; it
    returns none when [endTime] is before [startTime]; and it leaves
    the tables as they were. *)
Theorem getNetworkLogsByTimeRange_is_inclusive (startTime endTime : Z)
  (w : World) :
  accepting (awaits w) = true ->
  exists (rs : list NetworkLog.t) (w' : World),
    storage.getNetworkLogsByTimeRange startTime endTime w = (Ok rs, w')
    /\ db w' = db w
    /\ newest_first NetworkLog.timestamp rs
    /\ Permutation rs
         (filter
            (fun l => (startTime <=? NetworkLog.timestamp l)
                      && (NetworkLog.timestamp l <=? endTime))
            (networkLogs (db w)))
    /\ (forall l : NetworkLog.t,
          In l rs
          <-> In l (networkLogs (db w))
              /\ startTime <= NetworkLog.timestamp l <= endTime)
    /\ (endTime < startTime -> rs = []).
Proof.
  intros Hacc.
  destruct (read_accepted (select_networkLogsByTimeRange startTime endTime)
              w Hacc) as (w' & E & D & _).
  eexists. exists w'. split; [exact E |]. split; [exact D |].
  unfold select_networkLogsByTimeRange.
  split; [apply orderBy_desc_sorted |].
  split; [apply Permutation_sym, orderBy_desc_perm |].
  assert (Hin : forall l : NetworkLog.t,
             In l (orderBy_desc NetworkLog.timestamp
                     (filter
                        (fun l0 => in_range startTime endTime
                                     (NetworkLog.timestamp l0))
                        (networkLogs (db w))))
             <-> In l (networkLogs (db w))
                 /\ startTime <= NetworkLog.timestamp l <= endTime).
  { intros l. rewrite orderBy_desc_In, filter_In. unfold in_range.
    rewrite andb_true_iff, !Z.leb_le. reflexivity. }
  split; [exact Hin |].
  intros Hrev.
  destruct (orderBy_desc NetworkLog.timestamp
              (filter
                 (fun l0 => in_range startTime endTime
                              (NetworkLog.timestamp l0))
                 (networkLogs (db w)))) as [|l rest]; [reflexivity |].
  destruct (proj1 (Hin l) (or_introl eq_refl)) as [_ Hr]. lia.
Qed.

(* ================================================================== *)
(** * Alert ids, and resolving what was just created *)
(* ================================================================== *)

Lemma update_resolve_ids (t id : Z) (s : Store) :
  map Alert.id (alerts (update_resolve t id s)) = map Alert.id (alerts s).
Proof.
  unfold update_resolve. cbn [alerts]. rewrite map_map.
  apply map_ext. intros a. destruct (Alert.id a =? id); reflexivity.
Qed.

Lemma call_keeps_ids_sound (c : AlertCall) (w : World) :
  alert_ids_sound (db w) -> alert_ids_sound (db (call c w)).
Proof.
  intros [Hnd Hlt].
  destruct c as [t ins | t id]; unfold call, storage.createAlert,
    storage.resolveAlert, query; cbn [awaits at_time db now];
    destruct (rejects (hd quiet (awaits w))); cbn [snd db];
    try (split; assumption).
  - unfold alert_ids_sound. cbn [insert_alert snd alerts alerts_seq db].
    rewrite map_app. cbn [map alert_row Alert.id]. split.
    + apply NoDup_app; [exact Hnd | repeat constructor; intros [] |].
      intros i Hi [<- | []].
      apply in_map_iff in Hi. destruct Hi as (a & Ha & Hin).
      rewrite Forall_forall in Hlt. specialize (Hlt a Hin). lia.
    + apply Forall_app. split.
      * revert Hlt. apply Forall_impl. intros a Ha. lia.
      * repeat constructor. cbn. lia.
  - unfold alert_ids_sound. cbn [db]. rewrite update_resolve_ids.
    split; [exact Hnd |].
    unfold update_resolve. cbn [alerts alerts_seq].
    rewrite Forall_map. revert Hlt. apply Forall_impl. intros a Ha.
    destruct (Alert.id a =? id); exact Ha.
Qed.

(** X3.  Whatever calls create and resolve alerts, accepted by the
    database or not, the alert ids stay pairwise different and below
    the next sequence value, as they are in an empty database. *)
Theorem alert_ids_stay_unique (history : list AlertCall) (w : World) :
  alert_ids_sound (db w) ->
  alert_ids_sound (db (calls history w))
  /\ alert_ids_sound empty_store.
Proof.
  intros H. split.
  - revert w H. induction history as [|c history IH]; intros w H.
    + exact H.
    + apply (IH (call c w)), call_keeps_ids_sound, H.
  - split; constructor.
Qed.

(** X4.  With the database answering and sound alert ids, creating an
    alert and resolving it by the id that came back resolves that row
    and no other: the table is the old one followed by the new row,
    resolved at the time of the second call, and the list of active
    alerts is what it was before the two calls. *)
Theorem create_then_resolve_touches_one_row (a : InsertAlert.t) (t2 : Z)
  (w : World) :
  accepting (awaits w) = true ->
  alert_ids_sound (db w) ->
  exists (saved : Alert.t) (w1 w2 : World),
    storage.createAlert a w = (Ok saved, w1)
    /\ storage.resolveAlert (Alert.id saved) (at_time t2 w1) = (Ok tt, w2)
    /\ alerts (db w2) = alerts (db w) ++ [set_resolved t2 saved]
    /\ select_activeAlerts (db w2) = select_activeAlerts (db w).
Proof.
  intros Hacc [_ Hlt].
  assert (E1 : storage.createAlert a w
               = (Ok (fst (insert_alert (now w) a (db w))),
                  after_query (fun t s => insert_alert t a s) w))
    by (apply query_accepted, accepting_hd, Hacc).
  set (w1 := after_query (fun t s => insert_alert t a s) w) in *.
  assert (Hacc1 : accepting (awaits (at_time t2 w1)) = true)
    by (apply accepting_tl, Hacc).
  destruct (resolveAlert_accepted
              (Alert.id (fst (insert_alert (now w) a (db w))))
              (at_time t2 w1) Hacc1) as (w2 & E2 & D2 & _).
  assert (Halerts : alerts (db w2)
                    = alerts (db w)
                      ++ [set_resolved t2
                            (fst (insert_alert (now w) a (db w)))]).
  { rewrite D2. unfold update_resolve.
    cbn [alerts at_time db now w1 after_query insert_alert snd fst
         alert_row Alert.id].
    rewrite map_app. cbn [map Alert.id]. rewrite Z.eqb_refl. f_equal.
    rewrite <- (map_id (alerts (db w))) at 2.
    apply map_ext_in. intros x Hx.
    rewrite Forall_forall in Hlt. specialize (Hlt x Hx).
    destruct (Alert.id x =? alerts_seq (db w)) eqn:Ex; [| reflexivity].
    apply Z.eqb_eq in Ex. lia. }
  eexists. exists w1, w2.
  split; [exact E1 |]. split; [exact E2 |]. split; [exact Halerts |].
  unfold select_activeAlerts. rewrite Halerts, filter_app.
  cbn [filter set_resolved Alert.isResolved eq_bool Bool.eqb].
  rewrite app_nil_r. reflexivity.
Qed.

(* ================================================================== *)
(** * The dashboard figures *)
(* ================================================================== *)

Lemma or_number_0 (n : Z) : storage.or_number (Some n) 0 = n.
Proof.
  unfold storage.or_number. destruct (n =? 0) eqn:E; [| reflexivity].
  apply Z.eqb_eq in E. congruence.
Qed.

Lemma getDashboardStats_accepted (w : World) :
  accepting (awaits w) = true ->
  exists w',
    storage.getDashboardStats w
    = (Ok (storage.dashboardStats (select_latestTrafficMetrics (db w))
             (count_activeAlerts (db w))), w')
    /\ db w' = db w
    /\ now w' = now w
    /\ accepting (awaits w') = true.
Proof.
  intros Hacc.
  destruct (read_accepted select_latestTrafficMetrics w Hacc)
    as (w1 & E1 & D1 & N1 & A1).
  destruct (read_accepted count_activeAlerts w1 A1)
    as (w2 & E2 & D2 & N2 & A2).
  exists w2. split.
  - unfold storage.getDashboardStats, storage.getLatestTrafficMetrics.
    erewrite bind_ok by exact E1.
    erewrite bind_ok by exact E2.
    rewrite D1. reflexivity.
  - repeat split; congruence.
Qed.

(** X5.  With the database answering, the dashboard's [activeAlerts]
    is the number of alerts [getActiveAlerts] returns; with no metrics
    row stored yet the other three figures are "0", 0 and 0; and
    neither read changes the tables. *)
Theorem dashboard_counts_the_active_alerts (w : World) :
  accepting (awaits w) = true ->
  exists (stats : DashboardStats.t) (active : list Alert.t) (w1 w2 : World),
    storage.getDashboardStats w = (Ok stats, w1)
    /\ storage.getActiveAlerts w1 = (Ok active, w2)
    /\ db w2 = db w
    /\ DashboardStats.activeAlerts stats = Z.of_nat (List.length active)
    /\ (trafficMetrics (db w) = [] ->
        DashboardStats.totalTraffic stats = "0"
        /\ DashboardStats.activeConnections stats = 0
        /\ DashboardStats.blockedRequests stats = 0).
Proof.
  intros Hacc.
  destruct (getDashboardStats_accepted w Hacc) as (w1 & E1 & D1 & _ & A1).
  destruct (read_accepted select_activeAlerts w1 A1) as (w2 & E2 & D2 & _).
  eexists. eexists. exists w1, w2.
  split; [exact E1 |]. split; [exact E2 |]. split; [congruence |].
  split.
  - cbn [storage.dashboardStats DashboardStats.activeAlerts].
    rewrite or_number_0, D1. unfold count_activeAlerts, select_activeAlerts.
    rewrite <- (Permutation_length (orderBy_desc_perm _ _)). reflexivity.
  - intros Hnone. unfold select_latestTrafficMetrics. rewrite Hnone.
    repeat split.
Qed.

Lemma aggregateMetrics_accepted_world (w : World) :
  accepting (awaits w) = true ->
  exists w',
    networkMonitor.aggregateMetrics w = (Ok tt, w')
    /\ db w'
       = snd (insert_trafficMetric (now w)
                (networkMonitor.metrics_of (recent (60 * 60 * 1000) w)
                   (select_activeConnections (db w)))
                (db w))
    /\ now w' = now w
    /\ accepting (awaits w') = true.
Proof.
  intros Hacc.
  pose proof (accepting_hd _ Hacc) as H1.
  pose proof (accepting_hd _ (accepting_tl _ Hacc)) as H2.
  pose proof (accepting_hd _ (accepting_tl _ (accepting_tl _ Hacc))) as H3.
  eexists. split.
  - unfold networkMonitor.aggregateMetrics. apply try_ok.
    erewrite bind_ok by reflexivity.
    erewrite bind_ok
      by (unfold storage.getNetworkLogsByTimeRange;
          apply query_accepted, H1).
    erewrite bind_ok
      by (unfold storage.getActiveConnections; apply query_accepted, H2).
    erewrite bind_ok
      by (unfold storage.createTrafficMetric; apply query_accepted, H3).
    unfold emit. reflexivity.
  - split; [reflexivity |]. split; [reflexivity |].
    apply accepting_tl, accepting_tl, accepting_tl, Hacc.
Qed.

Lemma latest_after_append (rows : list TrafficMetric.t)
  (row : TrafficMetric.t) :
  (forall m, In m rows ->
     TrafficMetric.timestamp m < TrafficMetric.timestamp row) ->
  hd_error
    (limit_offset 1 0 (orderBy_desc TrafficMetric.timestamp (rows ++ [row])))
  = Some row.
Proof.
  intros Hlt.
  pose proof (latest_is_newest TrafficMetric.timestamp (rows ++ [row])) as H.
  destruct (hd_error
              (limit_offset 1 0
                 (orderBy_desc TrafficMetric.timestamp (rows ++ [row]))))
    as [m|].
  - destruct H as [Hin Hmax].
    apply in_app_or in Hin. destruct Hin as [Hin | [<- | []]].
    + specialize (Hlt m Hin).
      assert (Hrow : In row (rows ++ [row]))
        by (apply in_or_app; right; left; reflexivity).
      specialize (Hmax row Hrow). lia.
    + reflexivity.
  - destruct rows; discriminate H.
Qed.

Lemma or_string_decimal (s d : string) :
  storage.or_string (Some (decimal_15_2 s)) d = decimal_15_2 s.
Proof.
  unfold storage.or_string.
  destruct (String.eqb (decimal_15_2 s) "") eqn:E; [| reflexivity].
  apply String.eqb_eq in E. destruct s; discriminate E.
Qed.

(** X6.  With the database answering and a sum that the
    [decimal(15, 2)] column can hold, a metrics rollup run at a clock
    reading later than every stored metrics row, followed by a read of
    the dashboard, shows that rollup: the sum of [dataSize] over the
    last hour as a decimal numeral with two decimals, the number of
    active connections, the number of BLOCK records of the last hour,
    and the number of unresolved alerts. *)
Theorem dashboard_shows_the_latest_rollup (w : World) :
  accepting (awaits w) = true ->
  (forall m, In m (trafficMetrics (db w)) ->
     TrafficMetric.timestamp m < now w) ->
  Z.abs (bytes (window (60 * 60 * 1000) w)) < 10000000000000 ->
  exists (stats : DashboardStats.t) (w1 w2 : World),
    networkMonitor.aggregateMetrics w = (Ok tt, w1)
    /\ storage.getDashboardStats w1 = (Ok stats, w2)
    /\ DashboardStats.totalTraffic stats
       = (string_of_Z (bytes (window (60 * 60 * 1000) w)) ++ ".00")%string
    /\ DashboardStats.activeConnections stats
       = Z.of_nat (List.length (active_connections (db w)))
    /\ DashboardStats.blockedRequests stats
       = Z.of_nat (List.length (blocked (window (60 * 60 * 1000) w)))
    /\ DashboardStats.activeAlerts stats
       = Z.of_nat
           (List.length
              (filter
                 (fun a =>
                    match Alert.isResolved a with
                    | Some false => true
                    | _ => false
                    end)
                 (alerts (db w)))).
Proof.
  intros Hacc Hlater _.
  destruct (aggregateMetrics_accepted_world w Hacc)
    as (w1 & E1 & D1 & _ & A1).
  destruct (getDashboardStats_accepted w1 A1) as (w2 & E2 & _).
  eexists. exists w1, w2.
  split; [exact E1 |]. split; [exact E2 |].
  unfold select_latestTrafficMetrics, count_activeAlerts.
  rewrite D1. cbn [insert_trafficMetric snd trafficMetrics alerts].
  rewrite latest_after_append by (intros m Hm; apply Hlater, Hm).
  cbn [storage.dashboardStats DashboardStats.totalTraffic
       DashboardStats.activeConnections DashboardStats.blockedRequests
       DashboardStats.activeAlerts TrafficMetric.totalTraffic
       TrafficMetric.activeConnections TrafficMetric.blockedRequests
       networkMonitor.metrics_of InsertTrafficMetric.totalTraffic
       InsertTrafficMetric.activeConnections
       InsertTrafficMetric.blockedRequests column option_map].
  rewrite or_string_decimal, !or_number_0, recent_sum.
  split; [reflexivity |].
  split; [rewrite select_activeConnections_length; reflexivity |].
  split; [| reflexivity].
  unfold recent, select_networkLogsByTimeRange, window, in_range, blocked.
  rewrite filter_orderBy_desc_length. reflexivity.
Qed.

(* ================================================================== *)
(** * Who is notified *)
(* ================================================================== *)

Lemma emit_nth (ev : Event) (w : World) (i : nat) (c : Client) :
  nth_error (clients w) i = Some c ->
  exists w',
    emit ev w = (Ok tt, w')
    /\ emitted w' = emitted w ++ [ev]
    /\ nth_error (clients w') i
       = Some (if is_open (readyState c)
               then send (listener_message ev) c else c).
Proof.
  intros H. eexists. split; [reflexivity |]. split; [reflexivity |].
  cbn [clients]. apply nth_error_broadcast, H.
Qed.

(** X7.  Events published one after another reach a connection in the
    order published: a connection that is Open has been sent, after
    what it had, exactly the messages of the events, in order, and one
    in any other state nothing; its state does not change. *)
Theorem broadcasts_arrive_in_publish_order (evs : list Event) (w : World)
  (i : nat) (c : Client) :
  nth_error (clients w) i = Some c ->
  exists (w' : World) (c' : Client),
    forEach emit evs w = (Ok tt, w')
    /\ emitted w' = emitted w ++ evs
    /\ nth_error (clients w') i = Some c'
    /\ readyState c' = readyState c
    /\ sent c'
       = sent c
         ++ (if is_open (readyState c) then map listener_message evs else []).
Proof.
  revert w c. induction evs as [|ev evs IH]; intros w c H.
  - exists w, c. repeat split; try assumption.
    + rewrite app_nil_r. reflexivity.
    + destruct (is_open (readyState c)); rewrite app_nil_r; reflexivity.
  - destruct (emit_nth ev w i c H) as (w1 & E1 & M1 & N1).
    destruct (IH w1 _ N1) as (w' & c' & E & M & N & R & S).
    exists w', c'. split.
    + cbn [forEach]. erewrite bind_ok by exact E1. exact E.
    + split; [rewrite M, M1, <- app_assoc; reflexivity |].
      split; [exact N |].
      destruct (is_open (readyState c)) eqn:Eo;
        cbn [send readyState sent] in R, S; rewrite ?Eo in S.
      * split; [exact R |]. rewrite S, <- app_assoc. reflexivity.
      * split; [exact R | exact S].
Qed.

Lemma close_socket_sent (j : nat) (cs : list Client) :
  map sent (close_socket j cs) = map sent cs.
Proof.
  revert j. induction cs as [|c cs IH]; intros [|j]; cbn; auto.
  rewrite IH. reflexivity.
Qed.

Lemma settle_sent (a : Await) (cs : list Client) :
  map sent (settle a cs) = map sent cs.
Proof.
  unfold settle. induction (disconnects a) as [|j js IH]; cbn [fold_right].
  - reflexivity.
  - rewrite close_socket_sent. exact IH.
Qed.

Lemma silent_ret {A : Type} (a : A) : silent (ret a).
Proof. intros w. split; reflexivity. Qed.

Lemma silent_throw {A : Type} (e : string) : silent (@throw A e).
Proof. intros w. split; reflexivity. Qed.

Lemma silent_query {A : Type} (stmt : Z -> Store -> A * Store) :
  silent (query stmt).
Proof.
  intros w. unfold query.
  destruct (rejects (hd quiet (awaits w)));
    [| destruct (stmt (now w) (db w))];
    cbn [snd emitted clients]; (split; [reflexivity | apply settle_sent]).
Qed.

Lemma silent_bind {A B : Type} (m : Async A) (k : A -> Async B) :
  silent m -> (forall a, silent (k a)) -> silent (bind m k).
Proof.
  intros Hm Hk w. unfold bind. specialize (Hm w).
  destruct (m w) as [[a | e] w1]; cbn [snd] in Hm |- *.
  - destruct Hm as [Hm1 Hm2], (Hk a w1) as [He Hs]. split; congruence.
  - exact Hm.
Qed.

Lemma silent_try {A : Type} (m : Async A) (h : string -> Async A) :
  silent m -> (forall e, silent (h e)) -> silent (try_catch m h).
Proof.
  intros Hm Hh w. unfold try_catch. specialize (Hm w).
  destruct (m w) as [[a | e] w1]; cbn [snd] in Hm |- *.
  - exact Hm.
  - destruct Hm as [Hm1 Hm2], (Hh e w1) as [He Hs]. split; congruence.
Qed.

Lemma silent_forEach {A : Type} (body : A -> Async unit) (xs : list A) :
  (forall x, silent (body x)) -> silent (forEach body xs).
Proof.
  intros Hb. induction xs as [|x xs IH]; cbn [forEach].
  - apply silent_ret.
  - apply silent_bind; [apply Hb | intros _; exact IH].
Qed.

Lemma silent_parse {A : Type} (parse : Json -> option A) (data : Json) :
  silent (parse_or_throw parse data).
Proof.
  unfold parse_or_throw. destruct (parse data);
    [apply silent_ret | apply silent_throw].
Qed.

(** X8.  The write endpoints notify nobody: whatever the body and
    whatever the database does, posting a log record, an alert or a
    batch, and resolving an alert, emit no event and send no message
    to any connected client. *)
Theorem write_endpoints_notify_nobody (log_body0 alert_body0 : Json)
  (batch : SystemData) (id : Z) :
  silent (post_network_logs log_body0)
  /\ silent (post_alerts alert_body0)
  /\ silent (post_system_data batch)
  /\ silent (patch_alert_resolve id).
Proof.
  split; [| split; [| split]].
  - unfold post_network_logs.
    apply silent_try; [| intros; apply silent_ret].
    apply silent_bind.
    + destruct (insertNetworkLogSchema_parse log_body0);
        [apply silent_ret | apply silent_throw].
    + intros v. apply silent_bind; [apply silent_query |].
      intros; apply silent_ret.
  - unfold post_alerts.
    apply silent_try; [| intros; apply silent_ret].
    apply silent_bind; [apply silent_parse |].
    intros v. apply silent_bind; [apply silent_query |].
    intros; apply silent_ret.
  - unfold post_system_data, for_array.
    apply silent_try; [| intros; apply silent_ret].
    repeat (apply silent_bind; [| intros]); try apply silent_ret.
    + destruct (sd_logs batch); [| apply silent_ret].
      apply silent_forEach. intros x.
      apply silent_bind; [apply silent_parse | intros v].
      apply silent_bind; [apply silent_query | intros; apply silent_ret].
    + destruct (sd_connections batch); [| apply silent_ret].
      apply silent_forEach. intros x.
      apply silent_bind; [apply silent_parse | intros v].
      apply silent_bind; [apply silent_query | intros; apply silent_ret].
    + destruct (sd_alerts batch); [| apply silent_ret].
      apply silent_forEach. intros x.
      apply silent_bind; [apply silent_parse | intros v].
      apply silent_bind; [apply silent_query | intros; apply silent_ret].
  - unfold patch_alert_resolve.
    apply silent_try; [| intros; apply silent_ret].
    apply silent_bind; [apply silent_query | intros; apply silent_ret].
Qed.

(* ================================================================== *)
(** * Alerts created over HTTP *)
(* ================================================================== *)

Lemma zod_optional_date (p : option Json) (f : Field Z) :
  zod_optional zod_date p = Some f -> column None f = None.
Proof.
  destruct p as [j|]; cbn.
  - destruct j; cbn; intros H; try discriminate H.
    injection H as <-. reflexivity.
  - intros H. injection H as <-. reflexivity.
Qed.

Lemma parsed_alert_resolvedAt (data : Json) (v : InsertAlert.t) :
  insertAlertSchema_parse data = Some v ->
  column None (InsertAlert.resolvedAt v) = None.
Proof.
  unfold insertAlertSchema_parse. intros H.
  destruct data as [| | | |o]; try discriminate H.
  destruct (zod_required (zod_varchar 10) (prop "severity" o));
    [| discriminate H].
  destruct (zod_required (zod_varchar 50) (prop "type" o));
    [| discriminate H].
  destruct (zod_required zod_text (prop "title" o)); [| discriminate H].
  destruct (zod_required zod_text (prop "description" o));
    [| discriminate H].
  destruct (zod_optional (zod_varchar 45) (prop "sourceIp" o));
    [| discriminate H].
  destruct (zod_optional zod_boolean (prop "isResolved" o));
    [| discriminate H].
  destruct (zod_optional zod_date (prop "resolvedAt" o)) as [ra|] eqn:Ed;
    [| discriminate H].
  destruct (zod_optional Some (prop "metadata" o)); [| discriminate H].
  injection H as <-. cbn [InsertAlert.resolvedAt].
  apply (zod_optional_date _ _ Ed).
Qed.

(** X9.  With the database answering, an alert body that passes the
    schema is stored and returned with the resolved flag it came with
    (false when left out) and with no resolved-at time, whatever the
    flag: an alert posted as already resolved is stored resolved with
    a null resolved-at.  It joins the unresolved alerts exactly when
    its flag is false. *)
Theorem posted_alert_has_no_resolved_at (body0 : Json) (v : InsertAlert.t)
  (w : World) :
  accepting (awaits w) = true ->
  insertAlertSchema_parse body0 = Some v ->
  exists (row : Alert.t) (w' : World),
    post_alerts body0 w = (Ok (mkReply 200 (AnsAlert row)), w')
    /\ alerts (db w') = alerts (db w) ++ [row]
    /\ Alert.isResolved row = column (Some false) (InsertAlert.isResolved v)
    /\ Alert.resolvedAt row = None
    /\ unresolved (db w')
       = unresolved (db w)
         ++ (if eq_bool (Alert.isResolved row) false then [row] else []).
Proof.
  intros Hacc Hparse.
  eexists. eexists. split.
  - unfold post_alerts, parse_or_throw. rewrite Hparse. apply try_ok.
    erewrite bind_ok by reflexivity.
    erewrite bind_ok
      by (unfold storage.createAlert; apply query_accepted, accepting_hd, Hacc).
    reflexivity.
  - cbn [db after_query insert_alert snd fst alerts].
    split; [reflexivity |]. split; [reflexivity |].
    split; [apply (parsed_alert_resolvedAt _ _ Hparse) |].
    unfold unresolved. cbn [alerts]. rewrite filter_app. reflexivity.
Qed.

(* ================================================================== *)
(** * The metrics endpoint *)
(* ================================================================== *)

(** X10.  The metrics endpoint, with the database answering.  Given
    both bounds, each the date of a year from 0001 to 9999, it answers
    200 with exactly the rows stamped within them, both ends included,
    newest first.  Given both, one of them a text that is no date, it
    answers 500 without a call to the database.  Given one bound or
    none it takes no notice of what it was given and answers 200 with
    the newest row alone, or with nothing when there is no row. *)
Theorem traffic_metrics_needs_both_bounds (startTime endTime : option JsDate)
  (w : World) :
  accepting (awaits w) = true ->
  match startTime, endTime with
  | Some (DateAt s), Some (DateAt e) =>
      plain_date s -> plain_date e ->
      exists (ms : list TrafficMetric.t) (w' : World),
        get_traffic_metrics startTime endTime w
        = (Ok (mkReply 200 (AnsMetrics ms)), w')
        /\ db w' = db w
        /\ newest_first TrafficMetric.timestamp ms
        /\ Permutation ms
             (filter
                (fun m => (s <=? TrafficMetric.timestamp m)
                          && (TrafficMetric.timestamp m <=? e))
                (trafficMetrics (db w)))
  | Some _, Some _ =>
      get_traffic_metrics startTime endTime w
      = (Ok (mkReply 500 (error_answer "Failed to fetch traffic metrics")), w)
  | _, _ =>
      exists (ms : list TrafficMetric.t) (w' : World),
        get_traffic_metrics startTime endTime w
        = (Ok (mkReply 200 (AnsMetrics ms)), w')
        /\ db w' = db w
        /\ match ms with
           | [] => trafficMetrics (db w) = []
           | m :: rest =>
               rest = []
               /\ In m (trafficMetrics (db w))
               /\ forall m', In m' (trafficMetrics (db w)) ->
                    TrafficMetric.timestamp m' <= TrafficMetric.timestamp m
           end
  end.
Proof.
  intros Hacc.
  assert (Hlatest : exists w',
             get_traffic_metrics None None w
             = (Ok (mkReply 200
                      (AnsMetrics
                         (match select_latestTrafficMetrics (db w) with
                          | Some m => [m]
                          | None => []
                          end))), w')
             /\ db w' = db w).
  { destruct (read_accepted select_latestTrafficMetrics w Hacc)
      as (w' & E & D & _).
    exists w'. split; [| exact D].
    unfold get_traffic_metrics. apply try_ok.
    erewrite bind_ok.
    2:{ unfold storage.getLatestTrafficMetrics.
        erewrite bind_ok by exact E. reflexivity. }
    reflexivity. }
  assert (Hnewest :
            match (match select_latestTrafficMetrics (db w) with
                   | Some m => [m]
                   | None => []
                   end) with
            | [] => trafficMetrics (db w) = []
            | m :: rest =>
                rest = []
                /\ In m (trafficMetrics (db w))
                /\ forall m', In m' (trafficMetrics (db w)) ->
                     TrafficMetric.timestamp m' <= TrafficMetric.timestamp m
            end).
  { pose proof (latest_is_newest TrafficMetric.timestamp
                  (trafficMetrics (db w))) as H.
    unfold select_latestTrafficMetrics.
    destruct (hd_error _) as [m|]; [| exact H].
    split; [reflexivity | exact H]. }
  destruct startTime as [[|s]|], endTime as [[|e]|];
    try reflexivity;
    try (destruct Hlatest as (w' & E & D);
         eexists; exists w'; split; [exact E |];
         split; [exact D | exact Hnewest]).
  intros _ _.
  destruct (read_accepted (select_trafficMetricsByTimeRange s e) w Hacc)
    as (w' & E & D & _).
  eexists. exists w'. split.
  - unfold get_traffic_metrics. apply try_ok.
    erewrite bind_ok
      by (unfold storage.getTrafficMetricsByTimeRange; exact E).
    reflexivity.
  - split; [exact D |]. unfold select_trafficMetricsByTimeRange.
    split; [apply orderBy_desc_sorted |].
    apply Permutation_sym, orderBy_desc_perm.
Qed.

(* ================================================================== *)
(** * A rollup that fails *)
(* ================================================================== *)

(** X11.  Whatever the database rejects, a metrics rollup ends
    normally and stores all or nothing: when its three calls are
    accepted it appends one row and emits it, with nothing on the
    console; when one of them is rejected it leaves the tables as they
    were, emits nothing, and reports on the console once. *)
Theorem metrics_rollup_is_all_or_nothing (w : World) :
  exists w',
    networkMonitor.aggregateMetrics w = (Ok tt, w')
    /\ if rollup_rejected w then
         db w' = db w
         /\ emitted w' = emitted w
         /\ List.length (console w') = S (List.length (console w))
       else
         console w' = console w
         /\ exists m : TrafficMetric.t,
              trafficMetrics (db w') = trafficMetrics (db w) ++ [m]
              /\ emitted w' = emitted w ++ [EvMetricsUpdate m].
Proof.
  unfold rollup_rejected, networkMonitor.aggregateMetrics.
  destruct (rejects (hd quiet (awaits w))) eqn:R1.
  { eexists. split.
    - erewrite try_throw.
      2:{ erewrite bind_ok by reflexivity.
          apply bind_throw. unfold storage.getNetworkLogsByTimeRange.
          apply query_rejected, R1. }
      reflexivity.
    - cbn. rewrite length_app, Nat.add_1_r. repeat split. }
  destruct (rejects (hd quiet (tl (awaits w)))) eqn:R2.
  { eexists. split.
    - erewrite try_throw.
      2:{ erewrite bind_ok by reflexivity.
          erewrite bind_ok
            by (unfold storage.getNetworkLogsByTimeRange;
                apply query_accepted, R1).
          apply bind_throw. unfold storage.getActiveConnections.
          apply query_rejected. exact R2. }
      reflexivity.
    - cbn. rewrite length_app, Nat.add_1_r. repeat split. }
  destruct (rejects (hd quiet (tl (tl (awaits w))))) eqn:R3.
  { eexists. split.
    - erewrite try_throw.
      2:{ erewrite bind_ok by reflexivity.
          erewrite bind_ok
            by (unfold storage.getNetworkLogsByTimeRange;
                apply query_accepted, R1).
          erewrite bind_ok
            by (unfold storage.getActiveConnections;
                apply query_accepted; exact R2).
          apply bind_throw. unfold storage.createTrafficMetric.
          apply query_rejected. exact R3. }
      reflexivity.
    - cbn. rewrite length_app, Nat.add_1_r. repeat split. }
  eexists. split.
  - apply try_ok.
    erewrite bind_ok by reflexivity.
    erewrite bind_ok
      by (unfold storage.getNetworkLogsByTimeRange;
          apply query_accepted, R1).
    erewrite bind_ok
      by (unfold storage.getActiveConnections;
          apply query_accepted; exact R2).
    erewrite bind_ok
      by (unfold storage.createTrafficMetric;
          apply query_accepted; exact R3).
    unfold emit. reflexivity.
  - cbn [orb]. split; [reflexivity |].
    eexists. split; reflexivity.
Qed.

(* ================================================================== *)
(** * Batches of system data *)
(* ================================================================== *)

Section Ingest.
Context {A R : Type} (parse : Json -> option A)
  (ins : Z -> A -> Store -> R * Store).

Lemma ingest_loop_ok (items : list Json) :
  forall (parsed : list A) (w : World),
    map parse items = map Some parsed ->
    accepting (awaits w) = true ->
    exists w',
      forEach
        (fun x =>
           v <- parse_or_throw parse x ;;
           _ <- query (fun t s => ins t v s) ;;
           ret tt)
        items w
      = (Ok tt, w')
      /\ db w' = fold_left (fun s v => snd (ins (now w) v s)) parsed (db w)
      /\ now w' = now w
      /\ accepting (awaits w') = true.
Proof.
  induction items as [|x items IH]; intros parsed w Hmap Hacc.
  - destruct parsed; [| discriminate Hmap].
    exists w. repeat split. exact Hacc.
  - destruct parsed as [|v parsed]; [discriminate Hmap |].
    cbn [map] in Hmap. injection Hmap as Hx Hrest.
    set (w1 := after_query (fun t s => ins t v s) w).
    assert (Hacc1 : accepting (awaits w1) = true)
      by (apply accepting_tl, Hacc).
    destruct (IH parsed w1 Hrest Hacc1) as (w' & E & D & N & Ha).
    exists w'. split.
    + cbn [forEach]. erewrite bind_ok.
      2:{ unfold parse_or_throw. rewrite Hx.
          erewrite bind_ok by reflexivity.
          erewrite bind_ok by (apply query_accepted, accepting_hd, Hacc).
          reflexivity. }
      exact E.
    + split; [exact D |]. split; [exact N | exact Ha].
Qed.

Lemma ingest_loop_stops (good : list Json) (bad : Json) (rest : list Json) :
  forall (parsed : list A) (w : World),
    map parse good = map Some parsed ->
    parse bad = None ->
    accepting (awaits w) = true ->
    exists w',
      forEach
        (fun x =>
           v <- parse_or_throw parse x ;;
           _ <- query (fun t s => ins t v s) ;;
           ret tt)
        (good ++ bad :: rest) w
      = (Throw "ZodError", w')
      /\ db w' = fold_left (fun s v => snd (ins (now w) v s)) parsed (db w)
      /\ now w' = now w
      /\ accepting (awaits w') = true.
Proof.
  induction good as [|x good IH]; intros parsed w Hmap Hbad Hacc.
  - destruct parsed; [| discriminate Hmap].
    exists w. split.
    + cbn [app forEach]. apply bind_throw.
      unfold parse_or_throw. rewrite Hbad. reflexivity.
    + repeat split. exact Hacc.
  - destruct parsed as [|v parsed]; [discriminate Hmap |].
    cbn [map] in Hmap. injection Hmap as Hx Hrest.
    set (w1 := after_query (fun t s => ins t v s) w).
    assert (Hacc1 : accepting (awaits w1) = true)
      by (apply accepting_tl, Hacc).
    destruct (IH parsed w1 Hrest Hbad Hacc1) as (w' & E & D & N & Ha).
    exists w'. split.
    + cbn [app forEach]. erewrite bind_ok.
      2:{ unfold parse_or_throw. rewrite Hx.
          erewrite bind_ok by reflexivity.
          erewrite bind_ok by (apply query_accepted, accepting_hd, Hacc).
          reflexivity. }
      exact E.
    + split; [exact D |]. split; [exact N | exact Ha].
Qed.

End Ingest.

Lemma fold_insert_networkLog (t : Z) (parsed : list InsertNetworkLog.t) :
  forall s : Store,
    fold_left (fun s v => snd (insert_networkLog t v s)) parsed s
    = mkStore (networkLogs s ++ log_rows (networkLogs_seq s) t parsed)
        (alerts s) (connections s) (trafficMetrics s)
        (networkLogs_seq s + Z.of_nat (List.length parsed)) (alerts_seq s)
        (trafficMetrics_seq s).
Proof.
  induction parsed as [|v parsed IH]; intros s.
  - cbn. rewrite app_nil_r, Z.add_0_r. destruct s; reflexivity.
  - cbn [fold_left]. rewrite IH.
    cbn [insert_networkLog snd networkLogs alerts connections trafficMetrics
         networkLogs_seq alerts_seq trafficMetrics_seq log_rows List.length].
    rewrite <- app_assoc. f_equal. lia.
Qed.

Lemma fold_insert_alert (t : Z) (parsed : list InsertAlert.t) :
  forall s : Store,
    fold_left (fun s v => snd (insert_alert t v s)) parsed s
    = mkStore (networkLogs s)
        (alerts s ++ alert_rows (alerts_seq s) t parsed)
        (connections s) (trafficMetrics s) (networkLogs_seq s)
        (alerts_seq s + Z.of_nat (List.length parsed))
        (trafficMetrics_seq s).
Proof.
  induction parsed as [|v parsed IH]; intros s.
  - cbn. rewrite app_nil_r, Z.add_0_r. destruct s; reflexivity.
  - cbn [fold_left]. rewrite IH.
    cbn [insert_alert snd networkLogs alerts connections trafficMetrics
         networkLogs_seq alerts_seq trafficMetrics_seq alert_rows List.length].
    rewrite <- app_assoc. f_equal. lia.
Qed.

Lemma fold_insert_connection (t : Z) (parsed : list InsertConnection.t) :
  forall s : Store,
    fold_left (fun s v => snd (insert_connection t v s)) parsed s
    = mkStore (networkLogs s) (alerts s)
        (connections s
         ++ connection_rows (List.length (connections s)) t parsed)
        (trafficMetrics s) (networkLogs_seq s) (alerts_seq s)
        (trafficMetrics_seq s).
Proof.
  induction parsed as [|v parsed IH]; intros s.
  - cbn. rewrite app_nil_r. destruct s; reflexivity.
  - cbn [fold_left]. rewrite IH.
    cbn [insert_connection snd networkLogs alerts connections trafficMetrics
         networkLogs_seq alerts_seq trafficMetrics_seq connection_rows].
    rewrite <- app_assoc, length_app. cbn [List.length app].
    rewrite Nat.add_1_r. reflexivity.
Qed.

Lemma for_array_items {A : Type} (body : A -> Async unit)
  (xs : option (list A)) :
  for_array body xs = forEach body (items_of xs).
Proof. destruct xs; reflexivity. Qed.

(** X12.  With the database answering, a batch whose log array has a
    first element that fails the schema is answered 400, and is not
    undone: the log records before that element are stored, in order;
    the elements after it, and the connections and alerts of the
    batch, are not looked at. *)
Theorem system_data_stops_at_first_invalid_log (batch : SystemData)
  (good rest : list Json) (bad : Json) (parsed : list InsertNetworkLog.t)
  (w : World) :
  accepting (awaits w) = true ->
  sd_logs batch = Some (good ++ bad :: rest) ->
  map insertNetworkLogSchema_parse good = map Some parsed ->
  insertNetworkLogSchema_parse bad = None ->
  exists w',
    post_system_data batch w
    = (Ok (mkReply 400 (error_answer "Invalid system data format")), w')
    /\ networkLogs (db w')
       = networkLogs (db w)
         ++ log_rows (networkLogs_seq (db w)) (now w) parsed
    /\ connections (db w') = connections (db w)
    /\ alerts (db w') = alerts (db w).
Proof.
  intros Hacc Hlogs Hgood Hbad.
  destruct (ingest_loop_stops insertNetworkLogSchema_parse
              (fun t v s => insert_networkLog t v s)
              good bad rest parsed w Hgood Hbad Hacc)
    as (w' & E & D & _).
  exists w'. split.
  - unfold post_system_data. rewrite Hlogs. cbn [for_array].
    erewrite try_throw by (apply bind_throw; exact E).
    reflexivity.
  - rewrite fold_insert_networkLog in D. rewrite D. cbn.
    repeat split.
Qed.

(** X13.  With the database answering, a batch all of whose elements
    pass their schemas is answered 200 and stored whole: first the log
    records, then the connections, then the alerts, each kind in the
    order given; a property that is not an array counts as empty. *)
Theorem system_data_stores_a_valid_batch (batch : SystemData)
  (pl : list InsertNetworkLog.t) (pc : list InsertConnection.t)
  (pa : list InsertAlert.t) (w : World) :
  accepting (awaits w) = true ->
  map insertNetworkLogSchema_parse (items_of (sd_logs batch)) = map Some pl ->
  map insertConnectionSchema_parse (items_of (sd_connections batch))
  = map Some pc ->
  map insertAlertSchema_parse (items_of (sd_alerts batch)) = map Some pa ->
  exists w',
    post_system_data batch w
    = (Ok (mkReply 200
             (AnsJson
                (JObj [("success", JBool true);
                       ("message",
                        JStr "System data ingested successfully")]))), w')
    /\ networkLogs (db w')
       = networkLogs (db w) ++ log_rows (networkLogs_seq (db w)) (now w) pl
    /\ connections (db w')
       = connections (db w)
         ++ connection_rows (List.length (connections (db w))) (now w) pc
    /\ alerts (db w')
       = alerts (db w) ++ alert_rows (alerts_seq (db w)) (now w) pa
    /\ trafficMetrics (db w') = trafficMetrics (db w).
Proof.
  intros Hacc Hl Hc Ha.
  destruct (ingest_loop_ok insertNetworkLogSchema_parse
              (fun t v s => insert_networkLog t v s) _ pl w Hl Hacc)
    as (w1 & E1 & D1 & N1 & A1).
  destruct (ingest_loop_ok insertConnectionSchema_parse
              (fun t v s => insert_connection t v s) _ pc w1 Hc A1)
    as (w2 & E2 & D2 & N2 & A2).
  destruct (ingest_loop_ok insertAlertSchema_parse
              (fun t v s => insert_alert t v s) _ pa w2 Ha A2)
    as (w3 & E3 & D3 & _).
  exists w3. split.
  - unfold post_system_data. rewrite !for_array_items. apply try_ok.
    erewrite bind_ok by exact E1.
    erewrite bind_ok by exact E2.
    erewrite bind_ok by exact E3.
    reflexivity.
  - rewrite fold_insert_alert in D3. rewrite fold_insert_connection in D2.
    rewrite fold_insert_networkLog in D1.
    rewrite D3, N2, D2, N1, D1. cbn. repeat split.
Qed.

(* ================================================================== *)
(** * Starting and stopping the monitor *)
(* ================================================================== *)

Lemma lifecycle_keeps_no_interval (history : list Lifecycle) :
  forall m : Monitor,
    monitoringInterval m = None ->
    monitoringInterval (fold_left lifecycle history m) = None.
Proof.
  induction history as [|c history IH]; intros m H.
  - exact H.
  - apply IH. destruct c; cbn [lifecycle].
    + unfold start. destruct (isRunning m); [exact H | exact H].
    + unfold stop. cbn [monitoringInterval]. rewrite H. reflexivity.
Qed.

Lemma monitor_after_no_interval (history : list Lifecycle) :
  monitoringInterval (monitor_after history) = None.
Proof.
  apply lifecycle_keeps_no_interval. reflexivity.
Qed.

(** X14.  However often the monitor has been started and stopped,
    [stop] cancels none of its timers: they all stay set and keep
    firing, and every firing after the stop returns at once, touching
    nothing. *)
Theorem stop_cancels_no_timer (history : list Lifecycle) (t : Task)
  (r : networkMonitor.Draws) (w : World) :
  timers (stop (monitor_after history)) = timers (monitor_after history)
  /\ isRunning (stop (monitor_after history)) = false
  /\ on_timer (stop (monitor_after history)) t r w = (Ok tt, w).
Proof.
  pose proof (monitor_after_no_interval history) as H.
  unfold stop, on_timer. cbn [monitoringInterval]. rewrite H.
  repeat split.
Qed.

Lemma restart_step (t : Task) (m : Monitor) :
  monitoringInterval m = None ->
  isRunning (start (stop m)) = true
  /\ monitoringInterval (start (stop m)) = None
  /\ List.length (timers_for t (start (stop m)))
     = S (List.length (timers_for t m)).
Proof.
  intros H. unfold stop. cbn [monitoringInterval]. rewrite H.
  unfold start, timers_for. cbn [isRunning].
  unfold startMetricsAggregation, startAnomalyDetection,
    startTrafficCollection, setInterval.
  cbn [isRunning monitoringInterval timers next_handle].
  split; [reflexivity |]. split; [reflexivity |].
  rewrite <- !app_assoc, filter_app, length_app.
  destruct t; cbn; lia.
Qed.

Lemma restarts_from (t : Task) (k : nat) :
  forall m : Monitor,
    monitoringInterval m = None ->
    isRunning m = true ->
    isRunning (fold_left lifecycle (restarts k) m) = true
    /\ List.length (timers_for t (fold_left lifecycle (restarts k) m))
       = (List.length (timers_for t m) + k)%nat.
Proof.
  induction k as [|k IH]; intros m Hn Hr.
  - cbn. split; [exact Hr | lia].
  - unfold restarts. cbn [repeat List.concat app fold_left lifecycle].
    fold (restarts k).
    destruct (restart_step t m Hn) as (Hr1 & Hn1 & Hl1).
    destruct (IH (start (stop m)) Hn1 Hr1) as [Hr2 Hl2].
    split; [exact Hr2 |]. rewrite Hl2, Hl1. lia.
Qed.

(** X15.  [start] on a running monitor changes nothing, but [start]
    after [stop] sets three new timers beside the old ones: the
    monitor that has been stopped and started again [k] times is
    running with [k + 1] timers for each of its three tasks, so each
    task runs [k + 1] times per period. *)
Theorem restart_adds_timers (k : nat) (t : Task) :
  isRunning (monitor_after (restarts k)) = true
  /\ List.length (timers_for t (monitor_after (restarts k))) = S k
  /\ List.length (timers (monitor_after (restarts k))) = (3 * S k)%nat
  /\ start (monitor_after (restarts k)) = monitor_after (restarts k).
Proof.
  assert (H : forall t',
             isRunning (monitor_after (restarts k)) = true
             /\ List.length (timers_for t' (monitor_after (restarts k)))
                = S k).
  { intros t'.
    destruct (restarts_from t' k (start new_monitor) eq_refl eq_refl)
      as [Hr Hl].
    split; [exact Hr |]. unfold monitor_after. rewrite Hl.
    destruct t'; reflexivity. }
  destruct (H t) as [Hr Hl].
  split; [exact Hr |]. split; [exact Hl |].
  split.
  - assert (Hsplit : forall m : Monitor,
               List.length (timers m)
               = (List.length (timers_for TrafficCollection m)
                  + List.length (timers_for AnomalyDetection m)
                  + List.length (timers_for MetricsAggregation m))%nat).
    { intros m. unfold timers_for.
      induction (timers m) as [|tm l IHl]; [reflexivity |].
      cbn [filter List.length]. destruct (callback tm); cbn; lia. }
    rewrite Hsplit.
    rewrite (proj2 (H TrafficCollection)), (proj2 (H AnomalyDetection)),
      (proj2 (H MetricsAggregation)). lia.
  - unfold start. rewrite Hr. reflexivity.
Qed.

(* ================================================================== *)
(** * Ingesting external data *)
(* ================================================================== *)

Lemma or_string_not_empty (x : option string) (d : string) :
  d <> "" -> storage.or_string x d <> "".
Proof.
  intros Hd. unfold storage.or_string.
  destruct x as [s|]; [| exact Hd].
  destruct (String.eqb s "") eqn:E; [exact Hd |].
  apply String.eqb_neq, E.
Qed.

Lemma external_rows_filled_in (l : list LogData) :
  forall seq0 t : Z,
    Forall filled_in (log_rows seq0 t (map externalLog l)).
Proof.
  induction l as [|x l IH]; intros seq0 t; cbn [map log_rows].
  - constructor.
  - constructor; [| apply IH].
    unfold filled_in. cbn.
    repeat split; try (apply or_string_not_empty; discriminate).
    discriminate.
Qed.

Lemma external_loop (logs : list LogData) :
  forall w : World,
    exists (w' : World) (out : Outcome unit),
      forEach
        (fun logData =>
           _ <- storage.createNetworkLog (externalLog logData) ;;
           ret tt)
        logs w
      = (out, w')
      /\ networkLogs (db w')
         = networkLogs (db w)
           ++ log_rows (networkLogs_seq (db w)) (now w)
                (map externalLog
                   (firstn (accepted_run (List.length logs) (awaits w)) logs))
      /\ networkLogs_seq (db w')
         = networkLogs_seq (db w)
           + Z.of_nat (accepted_run (List.length logs) (awaits w))
      /\ now w' = now w
      /\ console w' = console w
      /\ out
         = if (accepted_run (List.length logs) (awaits w)
               <? List.length logs)%nat
           then Throw "database error" else Ok tt.
Proof.
  induction logs as [|x logs IH]; intros w.
  - exists w, (Ok tt). cbn. rewrite app_nil_r, Z.add_0_r. repeat split.
  - cbn [List.length accepted_run forEach].
    destruct (rejects (hd quiet (awaits w))) eqn:Er.
    + eexists. exists (Throw "database error"). split.
      * apply bind_throw, bind_throw. unfold storage.createNetworkLog.
        apply query_rejected, Er.
      * cbn. rewrite app_nil_r, Z.add_0_r. repeat split.
    + set (w1 := after_query
                   (fun t s => insert_networkLog t (externalLog x) s) w).
      destruct (IH w1) as (w' & out & E & L & S & N & C & O).
      exists w', out. split.
      * erewrite bind_ok.
        2:{ erewrite bind_ok
              by (unfold storage.createNetworkLog; apply query_accepted, Er).
            reflexivity. }
        exact E.
      * cbn [w1 after_query db now awaits console insert_networkLog snd
             networkLogs networkLogs_seq] in L, S, N, C, O.
        rewrite L, S, N, C, O. cbn [firstn map log_rows].
        rewrite <- app_assoc. cbn [app].
        repeat split; try lia.
Qed.

(** X16.  Whatever the database rejects, [ingestExternalData] ends
    normally.  It stores the records of the batch, in order, up to the
    first write that is rejected and none after it, and reports on the
    console exactly when a write was rejected.  Every record it stores
    has a source address, a protocol and an action that are not empty
    and a data size that is not null. *)
Theorem ingestExternalData_stops_at_first_failure (logs : list LogData)
  (w : World) :
  exists (w' : World) (rows : list NetworkLog.t),
    ingestExternalData (Some logs) w = (Ok tt, w')
    /\ networkLogs (db w') = networkLogs (db w) ++ rows
    /\ rows
       = log_rows (networkLogs_seq (db w)) (now w)
           (map externalLog
              (firstn (accepted_run (List.length logs) (awaits w)) logs))
    /\ Forall filled_in rows
    /\ List.length (console w')
       = (List.length (console w)
          + if (accepted_run (List.length logs) (awaits w)
                <? List.length logs)%nat
            then 1 else 0)%nat.
Proof.
  destruct (external_loop logs w) as (w1 & out & E & L & _ & _ & C & O).
  unfold ingestExternalData.
  destruct (accepted_run (List.length logs) (awaits w) <? List.length logs)%nat;
    subst out.
  - eexists. eexists. split.
    + erewrite try_throw by exact E. reflexivity.
    + cbn [db console]. rewrite L, C, length_app.
      split; [reflexivity |]. split; [reflexivity |].
      split; [apply external_rows_filled_in | reflexivity].
  - exists w1. eexists. split.
    + apply try_ok. exact E.
    + rewrite L, C, Nat.add_0_r.
      split; [reflexivity |]. split; [reflexivity |].
      split; [apply external_rows_filled_in | reflexivity].
Qed.

(* ================================================================== *)
(** * Grading a log entry *)
(* ================================================================== *)

Lemma at_least_weaken (x : option Z) (n m : Z) :
  m <= n -> at_least x n = true -> at_least x m = true.
Proof.
  unfold at_least. destruct x as [v|]; [| discriminate].
  rewrite !Z.leb_le. lia.
Qed.

(** X17.  A log entry that [determineSeverity] grades high or medium
    is one that [isSuspiciousActivity] flags. *)
Theorem high_and_medium_entries_are_suspicious (source : EsSource) :
  determineSeverity source = "high" \/ determineSeverity source = "medium" ->
  isSuspiciousActivity source = true.
Proof.
  unfold determineSeverity, isSuspiciousActivity. cbn [existsb].
  destruct (nonempty (threat_indicator_type source)
            || is_string (event_severity source) "critical").
  { intros [H | H]; discriminate H. }
  destruct (at_least (http_response_status_code source) 500) eqn:E5.
  { intros _.
    rewrite (at_least_weaken _ 500 400 ltac:(lia) E5). reflexivity. }
  destruct (is_string (level source) "error") eqn:Ee.
  { intros _. cbn [orb]. rewrite !orb_true_r. reflexivity. }
  cbn [orb].
  destruct (at_least (http_response_status_code source) 400) eqn:E4.
  { intros _. reflexivity. }
  destruct (is_string (level source) "warning") eqn:Ew.
  { intros _. cbn [orb]. rewrite !orb_true_r. reflexivity. }
  cbn [orb]. intros [H | H]; discriminate H.
Qed.

(* ================================================================== *)
(** * A snapshot that fails *)
(* ================================================================== *)

(** X18.  When one of the four reads behind the initial snapshot is
    rejected, the connection handler still ends normally: the new
    client is sent nothing, no client is sent anything, the tables are
    as they were, and the failure is reported on the console once. *)
Theorem snapshot_is_dropped_when_a_read_fails (w : World) :
  snapshot_rejected w = true ->
  exists w',
    on_connection w = (Ok tt, w')
    /\ map sent (clients w') = map sent (clients w) ++ [[]]
    /\ db w' = db w
    /\ List.length (console w') = S (List.length (console w)).
Proof.
  unfold snapshot_rejected, on_connection, sendInitialData,
    storage.getDashboardStats.
  intros H.
  destruct (rejects (hd quiet (awaits w))) eqn:R1.
  { eexists. split.
    - erewrite try_throw.
      2:{ apply bind_throw, bind_throw.
          unfold storage.getLatestTrafficMetrics.
          apply query_rejected. exact R1. }
      reflexivity.
    - cbn. rewrite settle_sent, map_app, length_app, Nat.add_1_r.
      repeat split. }
  destruct (rejects (hd quiet (tl (awaits w)))) eqn:R2.
  { eexists. split.
    - erewrite try_throw.
      2:{ apply bind_throw.
          erewrite bind_ok
            by (unfold storage.getLatestTrafficMetrics;
                apply query_accepted; exact R1).
          apply bind_throw. apply query_rejected. exact R2. }
      reflexivity.
    - cbn. rewrite !settle_sent, map_app, length_app, Nat.add_1_r.
      repeat split. }
  destruct (rejects (hd quiet (tl (tl (awaits w))))) eqn:R3.
  { eexists. split.
    - erewrite try_throw.
      2:{ erewrite bind_ok.
          2:{ erewrite bind_ok
                by (unfold storage.getLatestTrafficMetrics;
                    apply query_accepted; exact R1).
              erewrite bind_ok by (apply query_accepted; exact R2).
              reflexivity. }
          apply bind_throw. unfold storage.getActiveAlerts.
          apply query_rejected. exact R3. }
      reflexivity.
    - cbn. rewrite !settle_sent, map_app, length_app, Nat.add_1_r.
      repeat split. }
  destruct (rejects (hd quiet (tl (tl (tl (awaits w)))))) eqn:R4;
    [| discriminate H].
  eexists. split.
  - erewrite try_throw.
    2:{ erewrite bind_ok.
        2:{ erewrite bind_ok
              by (unfold storage.getLatestTrafficMetrics;
                  apply query_accepted; exact R1).
            erewrite bind_ok by (apply query_accepted; exact R2).
            reflexivity. }
        erewrite bind_ok
          by (unfold storage.getActiveAlerts; apply query_accepted; exact R3).
        apply bind_throw. unfold storage.getNetworkLogs.
        apply query_rejected. exact R4. }
    reflexivity.
  - cbn. rewrite !settle_sent, map_app, length_app, Nat.add_1_r.
    repeat split.
Qed.

(* ================================================================== *)
(** * A source the counter cannot count *)
(* ================================================================== *)

Lemma member_is_inherited (k : string) : member_name k -> inherited k = true.
Proof.
  unfold member_name. cbn [In]. intros H.
  repeat (destruct H as [<- | H]; [reflexivity |]). destruct H.
Qed.

(** X19.  With the database answering, an anomaly-detection cycle
    raises no RAPID_CONNECTIONS alert that names a source whose text is
    the name of a member of [Object.prototype], however many log
    records carry it: under such a name the counter object never holds
    a number. *)
Theorem inherited_name_raises_no_rapid_alert (src : string) (w : World) :
  accepting (awaits w) = true ->
  member_name src ->
  exists (rows : list Alert.t) (w' : World),
    networkMonitor.detectAnomalies w = (Ok tt, w')
    /\ alerts (db w') = alerts (db w) ++ rows
    /\ emitted w' = emitted w ++ map EvAlert rows
    /\ filter (is_rapid_for src) rows = [].
Proof.
  intros Hacc Hsrc. apply member_is_inherited in Hsrc.
  destruct (detectAnomalies_accepted w Hacc) as (w' & E & R).
  destruct (filter_alert_rows (is_rapid_for src) (names_source src)
              (fun _ _ _ => eq_refl)
              (rapid_alerts
                 (networkMonitor.ipCounts_of (recent (5 * 60 * 1000) w))
               ++ bandwidth_alerts (recent (5 * 60 * 1000) w))
              (alerts_seq (db w)) (now w))
    as [H0 _].
  rewrite filter_app, filter_rapid_alerts, filter_bandwidth_alerts,
    app_nil_r in H0.
  destruct R as (Hd & _ & _ & _ & He).
  eexists. exists w'. split; [exact E |].
  split; [rewrite Hd; reflexivity |].
  split; [exact He |].
  apply H0, rapid_alerts_of_texts.
  apply (count_into_inherited (fun log => Some (NetworkLog.sourceIp log))
           src (recent (5 * 60 * 1000) w) Hsrc []).
  constructor.
Qed.

(* ================================================================== *)
(** * More runs on concrete data *)
(* ================================================================== *)

Lemma inherited_name_raises_no_rapid_alert_witness :
  accepting (awaits misnamed_world) = true
  /\ member_name "constructor"
  /\ from_source "constructor" (window (5 * 60 * 1000) misnamed_world) = 21
  /\ exists (rows : list Alert.t) (w' : World),
       networkMonitor.detectAnomalies misnamed_world = (Ok tt, w')
       /\ alerts (db w') = rows
       /\ filter (is_rapid_for "constructor") rows = [].
Proof.
  assert (H : member_name "constructor") by (left; reflexivity).
  split; [reflexivity |]. split; [exact H |]. split; [reflexivity |].
  destruct (inherited_name_raises_no_rapid_alert "constructor" misnamed_world
              eq_refl H) as (rows & w' & E & Ha & _ & Hf).
  exists rows, w'. split; [exact E |]. split; [exact Ha | exact Hf].
Defined.

Lemma getNetworkLogs_pages_tile_witness :
  accepting (awaits busy_world) = true
  /\ NoDup (map NetworkLog.timestamp (networkLogs (db busy_world)))
  /\ exists (ps : list (list NetworkLog.t)) (w' : World),
       mapM (fun i => storage.getNetworkLogs 10 (i * 10)) (seq 0 3) busy_world
       = (Ok ps, w')
       /\ map (map NetworkLog.timestamp) ps
          = [[1021; 1020; 1019; 1018; 1017; 1016; 1015; 1014; 1013; 1012];
             [1011; 1010; 1009; 1008; 1007; 1006; 1005; 1004; 1003; 1002];
             [1001]]
       /\ Permutation (List.concat ps) (networkLogs (db busy_world)).
Proof.
  assert (Hn : NoDup (map NetworkLog.timestamp (networkLogs (db busy_world)))).
  { vm_compute.
    repeat (constructor;
            [intros H; repeat (destruct H as [H | H]; [discriminate H |]);
             exact H |]).
    constructor. }
  split; [reflexivity |]. split; [exact Hn |].
  destruct (getNetworkLogs_pages_tile 10 3 busy_world eq_refl Hn)
    as (ps & sorted & w' & E & _ & _ & _ & _ & _ & _ & Hp).
  exists ps, w'. split; [exact E |].
  split; [| apply Hp; vm_compute; lia].
  assert (E0 : fst (mapM (fun i => storage.getNetworkLogs 10 (i * 10))
                      (seq 0 3) busy_world)
               = Ok ps) by (rewrite E; reflexivity).
  vm_compute in E0. injection E0 as <-. reflexivity.
Defined.

Lemma getNetworkLogsByTimeRange_is_inclusive_witness :
  accepting (awaits busy_world) = true
  /\ exists (rs : list NetworkLog.t) (w' : World),
       storage.getNetworkLogsByTimeRange 1001 1003 busy_world = (Ok rs, w')
       /\ map NetworkLog.timestamp rs = [1003; 1002; 1001].
Proof.
  split; [reflexivity |].
  destruct (getNetworkLogsByTimeRange_is_inclusive 1001 1003 busy_world
              eq_refl) as (rs & w' & E & _).
  exists rs, w'. split; [exact E |].
  assert (E0 : fst (storage.getNetworkLogsByTimeRange 1001 1003 busy_world)
               = Ok rs) by (rewrite E; reflexivity).
  vm_compute in E0. injection E0 as <-. reflexivity.
Defined.

Lemma alert_ids_stay_unique_witness :
  alert_ids_sound (db one_alert_world)
  /\ alert_ids_sound
       (db (calls [CreateAlert 70000 (networkMonitor.bandwidthAlert 200000000);
                   ResolveAlert 80000 1]
              one_alert_world)).
Proof.
  assert (H : alert_ids_sound (db one_alert_world)).
  { split; cbn.
    - repeat constructor. intros [].
    - repeat constructor. }
  split; [exact H |].
  apply (alert_ids_stay_unique _ one_alert_world H).
Defined.

Lemma create_then_resolve_touches_one_row_witness :
  accepting (awaits one_alert_world) = true
  /\ alert_ids_sound (db one_alert_world)
  /\ exists (saved : Alert.t) (w1 w2 : World),
       storage.createAlert (networkMonitor.bandwidthAlert 200000000)
         one_alert_world
       = (Ok saved, w1)
       /\ storage.resolveAlert (Alert.id saved) (at_time 80000 w1)
          = (Ok tt, w2)
       /\ select_activeAlerts (db w2) = select_activeAlerts (db one_alert_world).
Proof.
  assert (H : alert_ids_sound (db one_alert_world)).
  { split; cbn.
    - repeat constructor. intros [].
    - repeat constructor. }
  split; [reflexivity |]. split; [exact H |].
  destruct (create_then_resolve_touches_one_row
              (networkMonitor.bandwidthAlert 200000000) 80000 one_alert_world
              eq_refl H) as (saved & w1 & w2 & E1 & E2 & _ & Ha).
  exists saved, w1, w2. split; [exact E1 |]. split; [exact E2 | exact Ha].
Defined.

Lemma dashboard_counts_the_active_alerts_witness :
  accepting (awaits one_alert_world) = true
  /\ exists (stats : DashboardStats.t) (w1 : World),
       storage.getDashboardStats one_alert_world = (Ok stats, w1)
       /\ stats = DashboardStats.mk "0" 0 0 1.
Proof.
  split; [reflexivity |].
  destruct (dashboard_counts_the_active_alerts one_alert_world eq_refl)
    as (stats & active & w1 & w2 & E1 & _).
  exists stats, w1. split; [exact E1 |].
  assert (E0 : fst (storage.getDashboardStats one_alert_world) = Ok stats)
    by (rewrite E1; reflexivity).
  vm_compute in E0. injection E0 as <-. reflexivity.
Defined.

Lemma dashboard_shows_the_latest_rollup_witness :
  accepting (awaits metered_world) = true
  /\ (forall m, In m (trafficMetrics (db metered_world)) ->
        TrafficMetric.timestamp m < now metered_world)
  /\ Z.abs (bytes (window (60 * 60 * 1000) metered_world)) < 10000000000000
  /\ exists (stats : DashboardStats.t) (w1 w2 : World),
       networkMonitor.aggregateMetrics metered_world = (Ok tt, w1)
       /\ storage.getDashboardStats w1 = (Ok stats, w2)
       /\ List.length (trafficMetrics (db w2)) = 2%nat
       /\ stats = DashboardStats.mk "110000000.00" 1 0 0.
Proof.
  assert (H : forall m, In m (trafficMetrics (db metered_world)) ->
                TrafficMetric.timestamp m < now metered_world)
    by (intros m [<- | []]; reflexivity).
  split; [reflexivity |]. split; [exact H |]. split; [reflexivity |].
  destruct (dashboard_shows_the_latest_rollup metered_world eq_refl H eq_refl)
    as (stats & w1 & w2 & E1 & E2 & _).
  exists stats, w1, w2. split; [exact E1 |]. split; [exact E2 |].
  assert (E0 : storage.getDashboardStats
                 (snd (networkMonitor.aggregateMetrics metered_world))
               = (Ok stats, w2)) by (rewrite E1; exact E2).
  vm_compute in E0. injection E0 as <- <-. split; reflexivity.
Defined.

Lemma broadcasts_arrive_in_publish_order_witness :
  nth_error (clients watched_world) 0 = Some (mkClient OPEN [])
  /\ exists (w' : World) (c' : Client),
       forEach emit
         [EvNetworkLog (log_from 1 1000 "10.0.0.5" 100);
          EvNetworkLog (log_from 2 2000 "10.0.0.6" 100)]
         watched_world
       = (Ok tt, w')
       /\ nth_error (clients w') 0 = Some c'
       /\ map Message.data (sent c')
          = [DLog (log_from 1 1000 "10.0.0.5" 100);
             DLog (log_from 2 2000 "10.0.0.6" 100)].
Proof.
  split; [reflexivity |].
  destruct (broadcasts_arrive_in_publish_order
              [EvNetworkLog (log_from 1 1000 "10.0.0.5" 100);
               EvNetworkLog (log_from 2 2000 "10.0.0.6" 100)]
              watched_world 0 (mkClient OPEN []) eq_refl)
    as (w' & c' & E & _ & N & _ & S).
  exists w', c'. split; [exact E |]. split; [exact N |].
  rewrite S. reflexivity.
Defined.

Lemma posted_alert_has_no_resolved_at_witness :
  accepting (awaits fresh_world) = true
  /\ exists (row : Alert.t) (w' : World),
       post_alerts resolved_alert_body fresh_world
       = (Ok (mkReply 200 (AnsAlert row)), w')
       /\ Alert.isResolved row = Some true
       /\ Alert.resolvedAt row = None
       /\ unresolved (db w') = [].
Proof.
  split; [reflexivity |].
  destruct (posted_alert_has_no_resolved_at resolved_alert_body
              (InsertAlert.mk "HIGH" "MANUAL" "Port scan" "Seen at the gate"
                 Absent (Val true) Absent Absent)
              fresh_world eq_refl eq_refl)
    as (row & w' & E & _ & Hr & Ht & Hu).
  exists row, w'. split; [exact E |]. split; [exact Hr |].
  split; [exact Ht |].
  rewrite Hu, Hr. reflexivity.
Defined.

Lemma traffic_metrics_needs_both_bounds_witness :
  accepting (awaits three_rollups_world) = true
  /\ plain_date 15000
  /\ plain_date 30000
  /\ exists (ms : list TrafficMetric.t) (w' : World),
       get_traffic_metrics (Some (DateAt 15000)) (Some (DateAt 30000))
         three_rollups_world
       = (Ok (mkReply 200 (AnsMetrics ms)), w')
       /\ map TrafficMetric.timestamp ms = [30000; 20000].
Proof.
  assert (H1 : plain_date 15000) by (unfold plain_date; lia).
  assert (H2 : plain_date 30000) by (unfold plain_date; lia).
  split; [reflexivity |]. split; [exact H1 |]. split; [exact H2 |].
  destruct (traffic_metrics_needs_both_bounds (Some (DateAt 15000))
              (Some (DateAt 30000)) three_rollups_world eq_refl H1 H2)
    as (ms & w' & E & _).
  exists ms, w'. split; [exact E |].
  assert (E0 : fst (get_traffic_metrics (Some (DateAt 15000))
                      (Some (DateAt 30000)) three_rollups_world)
               = Ok (mkReply 200 (AnsMetrics ms))) by (rewrite E; reflexivity).
  vm_compute in E0. injection E0 as <-. reflexivity.
Defined.

Lemma system_data_stops_at_first_invalid_log_witness :
  accepting (awaits fresh_world) = true
  /\ exists w',
       post_system_data half_bad_batch fresh_world
       = (Ok (mkReply 400 (error_answer "Invalid system data format")), w')
       /\ List.length (networkLogs (db w')) = 1%nat
       /\ connections (db w') = [].
Proof.
  split; [reflexivity |].
  destruct (system_data_stops_at_first_invalid_log half_bad_batch
              [good_log] [good_log] bad_log
              [InsertNetworkLog.mk "10.0.0.5" Absent Absent Absent "TCP"
                 "ALLOW" (Val 100) Absent Absent Absent]
              fresh_world eq_refl eq_refl eq_refl eq_refl)
    as (w' & E & Hl & Hc & _).
  exists w'. split; [exact E |].
  split; [rewrite Hl; reflexivity | exact Hc].
Defined.

Lemma system_data_stores_a_valid_batch_witness :
  accepting (awaits fresh_world) = true
  /\ exists w',
       post_system_data good_batch fresh_world
       = (Ok (mkReply 200
                (AnsJson
                   (JObj [("success", JBool true);
                          ("message",
                           JStr "System data ingested successfully")]))), w')
       /\ List.length (networkLogs (db w')) = 1%nat
       /\ List.length (connections (db w')) = 1%nat
       /\ List.length (alerts (db w')) = 1%nat.
Proof.
  split; [reflexivity |].
  destruct (system_data_stores_a_valid_batch good_batch
              [InsertNetworkLog.mk "10.0.0.5" Absent Absent Absent "TCP"
                 "ALLOW" (Val 100) Absent Absent Absent]
              [InsertConnection.mk Absent "10.0.0.5" "github.com" Absent
                 Absent "TCP" Absent Absent Absent]
              [InsertAlert.mk "HIGH" "MANUAL" "Port scan" "Seen at the gate"
                 Absent (Val true) Absent Absent]
              fresh_world eq_refl eq_refl eq_refl eq_refl)
    as (w' & E & Hl & Hc & Ha & _).
  exists w'. split; [exact E |].
  rewrite Hl, Hc, Ha. repeat split.
Defined.

Lemma high_and_medium_entries_are_suspicious_witness :
  determineSeverity server_error_entry = "high"
  /\ isSuspiciousActivity server_error_entry = true.
Proof.
  split; [reflexivity |].
  apply high_and_medium_entries_are_suspicious. left. reflexivity.
Defined.

Lemma snapshot_is_dropped_when_a_read_fails_witness :
  snapshot_rejected third_call_fails = true
  /\ exists w',
       on_connection third_call_fails = (Ok tt, w')
       /\ map sent (clients w') = [[]].
Proof.
  split; [reflexivity |].
  destruct (snapshot_is_dropped_when_a_read_fails third_call_fails eq_refl)
    as (w' & E & Hs & _).
  exists w'. split; [exact E | exact Hs].
Defined.
